(** * The validation engine and the scoring system of LLM-Function

    A shallow embedding of
      - [src/validation_engine/{models,validator}.py]
      - [src/scoring_system/{models,scorer}.py]
    together with the input records they read
    ([scenario_engine/models.py], [action_tracker/models.py],
    [claim_extractor/models.py]), and of the components that build and
    check these inputs:
      - [src/action_tracker/tracker.py], with [llm_runner/models.py]
      - [src/claim_extractor/extractor.py], over its sentence splitter and
        its per-sentence extractor
      - [src/scenario_engine/validator.py], over [str.strip], [len] on a
        [str] and the text of a [set].

    Conventions of the embedding.
      - A Python [float] is an IEEE-754 binary64 number: [spec_float] with
        precision 53 and maximal exponent 1024, operated on with the
        Standard Library's reference implementation ([SFadd], [SFmul],
        [SFdiv], ...), rounding to nearest, ties to even.
      - A Python [int] is a [Z]; a [len(...)] is the [length] of a list.
      - A [Dict] that is iterated ([.items()], [.values()]) is an association
        list in insertion order; a [Dict] that is only looked up is a [gmap];
        a [set] is a [gset].
      - A [for] loop that appends to a list is a [fold_left] over the
        iterated list with the list under construction as accumulator.
      - The only effect of the two components is the reading of the wall
        clock by the [default_factory] of [ValidationReport.timestamp]; the
        reading is an explicit argument of [validate].
      - The order in which [list] lists a [set] belongs to the run, not to
        the set: [ValidationRun] takes it as an argument, and
        [ValidationEngine] is the run that lists every set as [elements]
        does.
      - The only exception either component can raise is that of the true
        division in [_score_efficiency]; functions that can raise return
        a [result].
      - Fields of different classes that bear the same name are told apart
        by a prefix: [check_name] and [check_details] of a
        [RequirementCheck], [subscore_explanation], [score_explanation],
        [criteria_name], [action_timestamp], and the like. *)

From Stdlib Require Import ZArith Ascii String List Bool.
From Stdlib.Floats Require Import SpecFloat.
From stdpp Require Import base gmap strings list pretty.

Local Open Scope Z_scope.
Local Open Scope string_scope.
Local Open Scope list_scope.

(** ** Exceptions *)

Inductive PyException := ZeroDivisionError | OverflowError.

Inductive result (A : Type) :=
| Ok (a : A)
| Raise (e : PyException).
Arguments Ok {A} a.
Arguments Raise {A} e.

#[global] Instance result_ret : MRet result := fun A a => Ok a.

#[global] Instance result_bind : MBind result := fun A B k r =>
  match r with
  | Ok a => k a
  | Raise e => Raise e
  end.

(** ** Python floats *)

Module PyFloat.

Definition prec : Z := 53.
Definition emax : Z := 1024.

Definition add := SFadd prec emax.
Definition sub := SFsub prec emax.
Definition mul := SFmul prec emax.
Definition div := SFdiv prec emax.
Definition ltb := SFltb.
Definition leb := SFleb.
Definition eqb := SFeqb.

(** [float(n)] for an [int] [n]: the nearest binary64 number. (CPython
    raises [OverflowError] beyond the range of binary64; the integers
    converted below are literals and lengths of lists.) *)
Definition of_int (n : Z) : spec_float := binary_normalize prec emax n 0 false.

(** An integer as an exact, unnormalised, floating-point datum. *)
Definition exact_int (n : Z) : spec_float :=
  match n with
  | Z0 => S754_zero false
  | Zpos p => S754_finite false p 0
  | Zneg p => S754_finite true p 0
  end.

Definition is_infinity (x : spec_float) : bool :=
  match x with
  | S754_infinity _ => true
  | _ => false
  end.

(** [a / b] on two [int]s: the quotient of the two integers, rounded
    once; [ZeroDivisionError] for a zero divisor and [OverflowError] when
    the rounded quotient is out of range. *)
Definition truediv (a b : Z) : result spec_float :=
  if Z.eqb b 0 then Raise ZeroDivisionError
  else
    let q := div (exact_int a) (exact_int b) in
    if is_infinity q then Raise OverflowError else Ok q.

(** [n / d] rounded to the nearest integer, ties to even ([0 < d]). *)
Definition div_half_even (n d : Z) : Z :=
  let q := Z.div n d in
  let r := Z.modulo n d in
  match Z.compare (2 * r) d with
  | Lt => q
  | Gt => q + 1
  | Eq => if Z.even q then q else q + 1
  end.

(** [|x| * 10 ^ ndigits] rounded to the nearest integer, ties to even,
    from the exact value [m * 2 ^ e] of [|x|]. *)
Definition scaled_digits (m : positive) (e : Z) (ndigits : Z) : Z :=
  let n := Zpos m * 10 ^ ndigits in
  if Z.leb 0 e then n * 2 ^ e else div_half_even n (2 ^ (- e)).

(** [round(x, ndigits)] for [0 <= ndigits]: the decimal with [ndigits]
    fractional digits nearest to the exact value of [x], converted back
    to the nearest binary64 number. *)
Definition round (x : spec_float) (ndigits : Z) : spec_float :=
  match x with
  | S754_finite s m e =>
      match scaled_digits m e ndigits with
      | Zpos n => div (S754_finite s n 0) (exact_int (10 ^ ndigits))
      | _ => S754_zero s
      end
  | _ => x
  end.

(** [f"{x:.1f}"]. *)
Definition format_1f (x : spec_float) : string :=
  match x with
  | S754_nan => "nan"
  | S754_infinity s => if s then "-inf" else "inf"
  | S754_zero s => if s then "-0.0" else "0.0"
  | S754_finite s m e =>
      let n := scaled_digits m e 1 in
      (if s then "-" else "") +:+ pretty (Z.div n 10) +:+ "." +:+ pretty (Z.modulo n 10)
  end.

(** [max(0, x)]: Python's [max] keeps its first argument unless a later
    one is strictly greater. *)
Definition max0 (x : spec_float) : spec_float :=
  if ltb (of_int 0) x then x else of_int 0.

(** [sum(xs)]: additions from the left, starting from the integer [0].
    (CPython 3.12 and later also carry a compensation term through the
    additions, which can move the last bit of the sum.) *)
Definition sum (xs : list spec_float) : spec_float :=
  fold_left add xs (of_int 0).

(** The literals of the source. *)
Definition f0 : spec_float := of_int 0.
Definition f1_0 : spec_float := of_int 1.
Definition f1_5 : spec_float := binary_normalize prec emax 3 (-1) false.
Definition f2_5 : spec_float := binary_normalize prec emax 5 (-1) false.
Definition f5_0 : spec_float := of_int 5.
Definition f6_0 : spec_float := of_int 6.
Definition f7_0 : spec_float := of_int 7.
Definition f8_0 : spec_float := of_int 8.
Definition f9_0 : spec_float := of_int 9.
Definition f10_0 : spec_float := of_int 10.

End PyFloat.

(** ** Python values and string helpers *)

(** The values an argument of a tool call or an expected parameter can
    hold ([Any] in the source): the scalars of a decoded JSON document. *)
Inductive PyVal :=
| PNone
| PBool (b : bool)
| PInt (n : Z)
| PStr (s : string).

#[global] Instance PyVal_eq_dec : EqDecision PyVal.
Proof. solve_decision. Defined.

Module Py.

(** [x is None]. *)
Definition is_None (v : PyVal) : bool :=
  match v with
  | PNone => true
  | _ => false
  end.

(** [x == y]: a [bool] is the integer 0 or 1. *)
Definition eq (x y : PyVal) : bool :=
  match x, y with
  | PNone, PNone => true
  | PBool a, PBool b => Bool.eqb a b
  | PBool a, PInt n | PInt n, PBool a => Z.eqb (if a then 1 else 0) n
  | PInt m, PInt n => Z.eqb m n
  | PStr s, PStr t => bool_decide (s = t)
  | _, _ => false
  end.

(** [x != y]. *)
Definition ne (x y : PyVal) : bool := negb (eq x y).

(** [str(x)], the text an f-string substitutes for [{x}]. *)
Definition str (v : PyVal) : string :=
  match v with
  | PNone => "None"
  | PBool b => if b then "True" else "False"
  | PInt n => pretty n
  | PStr s => s
  end.

(** [{x}] in an f-string for an [Optional[str]]. *)
Definition str_opt (o : option string) : string :=
  match o with
  | None => "None"
  | Some s => s
  end.

(** Truth value of an [Optional[str]]: [None] and the empty string are
    false. *)
Definition truthy (o : option string) : bool :=
  match o with
  | None => false
  | Some s => negb (bool_decide (s = ""))
  end.

(** [d.get(k)]: [None] when the key is absent. *)
Definition get (d : gmap string PyVal) (k : string) : PyVal :=
  default PNone (d !! k).

(** [sep.join(l)]. *)
Definition join (sep : string) (l : list string) : string := String.concat sep l.

(** [s.split(c)] for a separator of one character: the pieces of [s]
    between the occurrences of [c]; [cur] is the piece being read, in
    reverse. *)
Fixpoint split_go (c : Ascii.ascii) (s : string) (cur : string) : list string :=
  match s with
  | EmptyString => [String.rev cur]
  | String a s' =>
      if Ascii.eqb a c then String.rev cur :: split_go c s' EmptyString
      else split_go c s' (String a cur)
  end.

Definition split (s : string) (c : Ascii.ascii) : list string := split_go c s EmptyString.

(** [len(l)]. *)
Definition len {A} (l : list A) : Z := Z.of_nat (length l).

End Py.

(** ** Input records *)

(** *** [scenario_engine/models.py] *)

Inductive DifficultyLevel := EASY | MEDIUM_DIFFICULTY | HARD.

Inductive ScenarioCategory :=
| FILE_OPS | CODE_SEARCH | DEBUGGING | MULTI_STEP | EDGE_CASES | HALLUCINATION_TESTS.

Record Prompt := {
  user_query : string;
  context : option string;
  files_mentioned : list string;
}.

Record ExpectedBehavior := {
  required_tools : list string;
  optional_tools : list string;
  forbidden_tools : list string;
  required_parameters : list (string * list (string * PyVal));
  sequence_matters : bool;
  expected_sequence : list string;
  min_tool_calls : option Z;
  max_tool_calls : option Z;
}.

Record HallucinationTraps := {
  description : string;
  common_mistakes : list string;
}.

Record TestScenario := {
  id : string;
  name : string;
  category : ScenarioCategory;
  prompt : Prompt;
  expected_behavior : ExpectedBehavior;
  hallucination_traps : option HallucinationTraps;
  difficulty : DifficultyLevel;
  expected_time : Z;
}.

(** *** [action_tracker/models.py] *)

(** A [datetime], as a number of microseconds. *)
Definition datetime := Z.

(** [raw_call_object], a copy of the call that neither component reads, is
    left out. *)
Record Action := {
  sequence_number : Z;
  function_name : string;
  arguments : gmap string PyVal;
  action_timestamp : option datetime;
  call_id : option string;
}.

Record ActionSummary := {
  unique_tools_used : gset string;
  tools_called_multiple_times : list string;
  tool_call_counts : gmap string Z;
  total_execution_time_ms : option spec_float;
}.

Record ActionLog := {
  action_scenario_id : option string;
  total_calls : Z;
  actions : list Action;
  summary : ActionSummary;
}.

(** *** [claim_extractor/models.py] *)

Inductive ClaimType := EXPLICIT | IMPLICIT | CONDITIONAL | VAGUE.

#[global] Instance ClaimType_eq_dec : EqDecision ClaimType.
Proof. solve_decision. Defined.

Record Claim := {
  claim_text : string;
  action_verb : option string;
  target_object : option string;
  inferred_tool : option string;
  confidence : spec_float;
  line_number : option Z;
  claim_type : ClaimType;
}.

Record ClaimLog := {
  claim_scenario_id : option string;
  total_claims : Z;
  claims : list Claim;
  explicit_claims : list Claim;
  implicit_claims : list Claim;
  vague_statements : list Claim;
}.

(** ** [validation_engine/models.py] *)

Inductive ValidationStatus := PASS | FAIL | PARTIAL.

Inductive IssueSeverity := CRITICAL | HIGH | MEDIUM | LOW.

Inductive IssueType :=
| MISSING_REQUIRED_TOOL
| FORBIDDEN_TOOL_USED
| WRONG_PARAMETER
| WRONG_SEQUENCE
| CLAIM_WITHOUT_ACTION
| ACTION_WITHOUT_CLAIM
| CLAIM_ACTION_MISMATCH
| TOO_FEW_CALLS
| TOO_MANY_CALLS.

#[global] Instance ValidationStatus_eq_dec : EqDecision ValidationStatus.
Proof. solve_decision. Defined.

#[global] Instance IssueSeverity_eq_dec : EqDecision IssueSeverity.
Proof. solve_decision. Defined.

#[global] Instance IssueType_eq_dec : EqDecision IssueType.
Proof. solve_decision. Defined.

(** [ValidationStatus.value]. *)
Definition status_value (s : ValidationStatus) : string :=
  match s with
  | PASS => "pass"
  | FAIL => "fail"
  | PARTIAL => "partial"
  end.

(** What the [expected] and [actual] fields of a check hold. *)
Inductive CheckValue :=
| CNames (l : list string)
| CCount (n : Z)
| CBounds (min max : option Z).

Record RequirementCheck := {
  check_name : string;
  status : ValidationStatus;
  expected : option CheckValue;
  actual : option CheckValue;
  missing : list string;
  extra : list string;
  check_details : option string;
}.

Record ConsistencyIssue := {
  type : IssueType;
  severity : IssueSeverity;
  claim : option string;
  action : option string;
  expected_tool : option string;
  actual_tool : option string;
  quote : option string;
  explanation : string;
  details : option (list (string * gmap string PyVal));
}.

Record ValidationReport := {
  scenario_id : option string;
  timestamp : datetime;
  pass_fail_status : ValidationStatus;
  required_tools_check : RequirementCheck;
  forbidden_tools_check : RequirementCheck;
  parameters_check : RequirementCheck;
  sequence_check : option RequirementCheck;
  call_count_check : option RequirementCheck;
  hallucinations : list ConsistencyIssue;
  silent_actions : list ConsistencyIssue;
  mismatches : list ConsistencyIssue;
  total_issues : Z;
  critical_issues : Z;
  high_severity_issues : Z;
  medium_severity_issues : Z;
  low_severity_issues : Z;
}.

(** ** [validation_engine/validator.py] *)

Module ValidationEngine.

(** [list(s)] for a set [s] is [elements s]: one enumeration of the set,
    where Python's order is left unspecified. *)
Definition _check_required_tools (scenario : TestScenario) (action_log : ActionLog)
  : RequirementCheck :=
  let required : gset string := list_to_set (required_tools (expected_behavior scenario)) in
  let actual := unique_tools_used (summary action_log) in
  let missing := elements (required ∖ actual) in
  let status :=
    match missing with
    | [] => PASS
    | _ => FAIL
    end in
  {| check_name := "Required Tools";
     status := status;
     expected := Some (CNames (elements required));
     actual := Some (CNames (elements actual));
     missing := missing;
     extra := [];
     check_details := None |}.

Definition _check_forbidden_tools (scenario : TestScenario) (action_log : ActionLog)
  : RequirementCheck :=
  let forbidden : gset string := list_to_set (forbidden_tools (expected_behavior scenario)) in
  let actual := unique_tools_used (summary action_log) in
  let violations := elements (forbidden ∩ actual) in
  let status :=
    match violations with
    | [] => PASS
    | _ => FAIL
    end in
  {| check_name := "Forbidden Tools";
     status := status;
     expected := Some (CNames (elements forbidden));
     actual := Some (CNames (elements actual));
     missing := [];
     extra := violations;
     check_details := None |}.

(** [[a for a in action_log.actions if a.function_name == tool_name]]. *)
Definition actions_named (tool_name : string) (action_log : ActionLog) : list Action :=
  filter (fun a => function_name a = tool_name) (actions action_log).

(** Body of the loop over [expected_params.items()]. *)
Definition check_parameter (tool_name : string) (action : Action)
    (errors : list string) (item : string * PyVal) : list string :=
  let '(param_name, expected_value) := item in
  let actual_value := Py.get (arguments action) param_name in
  if Py.is_None actual_value then
    errors ++ [tool_name +:+ "." +:+ param_name +:+ ": missing"]
  else if Py.ne actual_value expected_value then
    errors ++ [tool_name +:+ "." +:+ param_name +:+ ": expected "
               +:+ Py.str expected_value +:+ ", got " +:+ Py.str actual_value]
  else errors.

(** Body of the loop over [required_parameters.items()]. *)
Definition check_tool (action_log : ActionLog)
    (errors : list string) (item : string * list (string * PyVal)) : list string :=
  let '(tool_name, expected_params) := item in
  match actions_named tool_name action_log with
  | [] => errors ++ ["Tool " +:+ tool_name +:+ " not called"]
  | actions =>
      fold_left
        (fun errors action => fold_left (check_parameter tool_name action) expected_params errors)
        actions errors
  end.

Definition parameter_errors (scenario : TestScenario) (action_log : ActionLog) : list string :=
  fold_left (check_tool action_log) (required_parameters (expected_behavior scenario)) [].

Definition _check_parameters (scenario : TestScenario) (action_log : ActionLog)
  : RequirementCheck :=
  let errors := parameter_errors scenario action_log in
  let status :=
    match errors with
    | [] => PASS
    | _ => FAIL
    end in
  {| check_name := "Parameters";
     status := status;
     expected := None;
     actual := None;
     missing := [];
     extra := [];
     check_details :=
       match errors with
       | [] => None
       | _ => Some (Py.join "; " errors)
       end |}.

Definition _check_sequence (scenario : TestScenario) (action_log : ActionLog)
  : option RequirementCheck :=
  if negb (sequence_matters (expected_behavior scenario)) then None
  else
    let expected := expected_sequence (expected_behavior scenario) in
    let actual := map function_name (actions action_log) in
    let matches := bool_decide (expected = take (length expected) actual) in
    let status := if matches then PASS else FAIL in
    Some {| check_name := "Sequence";
            status := status;
            expected := Some (CNames expected);
            actual := Some (CNames actual);
            missing := [];
            extra := [];
            check_details := None |}.

Definition _check_call_counts (scenario : TestScenario) (action_log : ActionLog)
  : option RequirementCheck :=
  let min_calls := min_tool_calls (expected_behavior scenario) in
  let max_calls := max_tool_calls (expected_behavior scenario) in
  let actual := total_calls action_log in
  match min_calls, max_calls with
  | None, None => None
  | _, _ =>
      let st : ValidationStatus * option string := (PASS, None) in
      let st :=
        match min_calls with
        | Some m =>
            if Z.ltb actual m
            then (FAIL, Some ("Too few calls: " +:+ pretty actual +:+ " < " +:+ pretty m))
            else st
        | None => st
        end in
      let st :=
        match max_calls with
        | Some m =>
            if Z.gtb actual m
            then (FAIL, Some ("Too many calls: " +:+ pretty actual +:+ " > " +:+ pretty m))
            else st
        | None => st
        end in
      Some {| check_name := "Call Count";
              status := fst st;
              expected := Some (CBounds min_calls max_calls);
              actual := Some (CCount actual);
              missing := [];
              extra := [];
              check_details := snd st |}
  end.

(** The issue [_detect_hallucinations] appends for a claim. *)
Definition hallucination_issue (c : Claim) : ConsistencyIssue :=
  {| type := CLAIM_WITHOUT_ACTION;
     severity := HIGH;
     claim := Some (claim_text c);
     action := None;
     expected_tool := inferred_tool c;
     actual_tool := None;
     quote := Some (claim_text c);
     explanation := "LLM claimed to " +:+ Py.str_opt (action_verb c)
                    +:+ " but never called " +:+ Py.str_opt (inferred_tool c);
     details := None |}.

(** [[a for a in action_log.actions if a.function_name == claim.inferred_tool]]. *)
Definition matching_actions (c : Claim) (action_log : ActionLog) : list Action :=
  filter (fun a => Some (function_name a) = inferred_tool c) (actions action_log).

Definition _detect_hallucinations (claim_log : ClaimLog) (action_log : ActionLog)
  : list ConsistencyIssue :=
  fold_left
    (fun issues c =>
       if negb (Py.truthy (inferred_tool c)) then issues
       else
         match matching_actions c action_log with
         | [] => issues ++ [hallucination_issue c]
         | _ => issues
         end)
    (explicit_claims claim_log) [].

(** The issue [_detect_silent_actions] appends for an action. *)
Definition silent_action_issue (a : Action) : ConsistencyIssue :=
  {| type := ACTION_WITHOUT_CLAIM;
     severity := MEDIUM;
     claim := None;
     action := Some (function_name a);
     expected_tool := None;
     actual_tool := None;
     quote := None;
     explanation := "LLM called " +:+ function_name a +:+ " without mentioning it";
     details := Some [("arguments", arguments a)] |}.

(** [{c.inferred_tool for c in claim_log.claims if c.inferred_tool}]. *)
Definition claimed_tools (claim_log : ClaimLog) : gset string :=
  fold_left
    (fun tools c =>
       match inferred_tool c with
       | Some t => if Py.truthy (inferred_tool c) then tools ∪ {[t]} else tools
       | None => tools
       end)
    (claims claim_log) ∅.

Definition _detect_silent_actions (action_log : ActionLog) (claim_log : ClaimLog)
  : list ConsistencyIssue :=
  let claimed_tools := claimed_tools claim_log in
  fold_left
    (fun issues a =>
       if bool_decide (function_name a ∉ claimed_tools)
       then issues ++ [silent_action_issue a]
       else issues)
    (actions action_log) [].

Definition _detect_mismatches (claim_log : ClaimLog) (action_log : ActionLog)
  : list ConsistencyIssue := [].

Definition _determine_overall_status (critical_count high_count : Z)
    (required_check forbidden_check : RequirementCheck) : ValidationStatus :=
  if Z.gtb critical_count 0 || bool_decide (status forbidden_check = FAIL) then FAIL
  else if Z.gtb high_count 0 || bool_decide (status required_check = FAIL) then PARTIAL
  else PASS.

(** [sum(1 for i in all_issues if i.severity == sev)]. *)
Definition count_severity (sev : IssueSeverity) (all_issues : list ConsistencyIssue) : Z :=
  fold_left (fun n i => if bool_decide (severity i = sev) then n + 1 else n) all_issues 0.

(** [now] is the value [datetime.now()] returns when the report is
    built. *)
Definition validate (now : datetime)
    (scenario : TestScenario) (action_log : ActionLog) (claim_log : ClaimLog)
  : ValidationReport :=
  let required_tools_check := _check_required_tools scenario action_log in
  let forbidden_tools_check := _check_forbidden_tools scenario action_log in
  let parameters_check := _check_parameters scenario action_log in
  let sequence_check := _check_sequence scenario action_log in
  let call_count_check := _check_call_counts scenario action_log in
  let hallucinations := _detect_hallucinations claim_log action_log in
  let silent_actions := _detect_silent_actions action_log claim_log in
  let mismatches := _detect_mismatches claim_log action_log in
  let all_issues := hallucinations ++ silent_actions ++ mismatches in
  let critical_count := count_severity CRITICAL all_issues in
  let high_count := count_severity HIGH all_issues in
  let medium_count := count_severity MEDIUM all_issues in
  let low_count := count_severity LOW all_issues in
  let critical_count :=
    if bool_decide (status forbidden_tools_check = FAIL)
    then critical_count + 1 else critical_count in
  let high_count :=
    if bool_decide (status required_tools_check = FAIL)
    then high_count + 1 else high_count in
  let status :=
    _determine_overall_status critical_count high_count
      required_tools_check forbidden_tools_check in
  {| scenario_id := Some (id scenario);
     timestamp := now;
     pass_fail_status := status;
     required_tools_check := required_tools_check;
     forbidden_tools_check := forbidden_tools_check;
     parameters_check := parameters_check;
     sequence_check := sequence_check;
     call_count_check := call_count_check;
     hallucinations := hallucinations;
     silent_actions := silent_actions;
     mismatches := mismatches;
     total_issues := Py.len all_issues;
     critical_issues := critical_count;
     high_severity_issues := high_count;
     medium_severity_issues := medium_count;
     low_severity_issues := low_count |}.

End ValidationEngine.

(** ** The order of a [set]

    [list(s)] lists a [set] in the order of its hash table. The hash of a
    [str] is salted with the seed of the process, and the place of an
    element in the table depends on the insertions that built the set
    object; so two runs can list the same elements in different orders,
    and so can two sets with the same elements in one run. The order is an
    input of a run, as the reading of the clock is. *)

(** The set objects [validate] lists:
    [set(scenario.expected_behavior.required_tools)],
    [set(scenario.expected_behavior.forbidden_tools)],
    [action_log.summary.unique_tools_used], which both tool checks list,
    [required - actual] and [forbidden & actual]. *)
Inductive SetObject :=
| required_set
| forbidden_set
| tools_used_set
| missing_set
| violations_set.

(** What [list] returns on the set objects of a run: the elements of the
    set, once each. *)
Record SetOrder := {
  list_of : SetObject -> gset string -> list string;
  list_of_elements : forall o s, list_of o s ≡ₚ elements s;
}.

(** The order of [elements]. *)
Definition elements_order : SetOrder :=
  {| list_of := fun _ s => elements s;
     list_of_elements := fun _ s => Permutation_refl (elements s) |}.

(** The opposite order. *)
Definition reverse_order : SetOrder :=
  {| list_of := fun _ s => reverse (elements s);
     list_of_elements := fun _ s => reverse_Permutation (elements s) |}.

(** [validate] and the two checks that list sets, in a run that lists its
    sets by [order] and reads [now] on the clock. The other checks and the
    detectors list no set. *)
Module ValidationRun.

Definition _check_required_tools (order : SetOrder)
    (scenario : TestScenario) (action_log : ActionLog) : RequirementCheck :=
  let required : gset string := list_to_set (required_tools (expected_behavior scenario)) in
  let actual := unique_tools_used (summary action_log) in
  let missing := list_of order missing_set (required ∖ actual) in
  let status :=
    match missing with
    | [] => PASS
    | _ => FAIL
    end in
  {| check_name := "Required Tools";
     status := status;
     expected := Some (CNames (list_of order required_set required));
     actual := Some (CNames (list_of order tools_used_set actual));
     missing := missing;
     extra := [];
     check_details := None |}.

Definition _check_forbidden_tools (order : SetOrder)
    (scenario : TestScenario) (action_log : ActionLog) : RequirementCheck :=
  let forbidden : gset string := list_to_set (forbidden_tools (expected_behavior scenario)) in
  let actual := unique_tools_used (summary action_log) in
  let violations := list_of order violations_set (forbidden ∩ actual) in
  let status :=
    match violations with
    | [] => PASS
    | _ => FAIL
    end in
  {| check_name := "Forbidden Tools";
     status := status;
     expected := Some (CNames (list_of order forbidden_set forbidden));
     actual := Some (CNames (list_of order tools_used_set actual));
     missing := [];
     extra := violations;
     check_details := None |}.

Definition validate (order : SetOrder) (now : datetime)
    (scenario : TestScenario) (action_log : ActionLog) (claim_log : ClaimLog)
  : ValidationReport :=
  let required_tools_check := _check_required_tools order scenario action_log in
  let forbidden_tools_check := _check_forbidden_tools order scenario action_log in
  let parameters_check := ValidationEngine._check_parameters scenario action_log in
  let sequence_check := ValidationEngine._check_sequence scenario action_log in
  let call_count_check := ValidationEngine._check_call_counts scenario action_log in
  let hallucinations := ValidationEngine._detect_hallucinations claim_log action_log in
  let silent_actions := ValidationEngine._detect_silent_actions action_log claim_log in
  let mismatches := ValidationEngine._detect_mismatches claim_log action_log in
  let all_issues := hallucinations ++ silent_actions ++ mismatches in
  let critical_count := ValidationEngine.count_severity CRITICAL all_issues in
  let high_count := ValidationEngine.count_severity HIGH all_issues in
  let medium_count := ValidationEngine.count_severity MEDIUM all_issues in
  let low_count := ValidationEngine.count_severity LOW all_issues in
  let critical_count :=
    if bool_decide (status forbidden_tools_check = FAIL)
    then critical_count + 1 else critical_count in
  let high_count :=
    if bool_decide (status required_tools_check = FAIL)
    then high_count + 1 else high_count in
  let status :=
    ValidationEngine._determine_overall_status critical_count high_count
      required_tools_check forbidden_tools_check in
  {| scenario_id := Some (id scenario);
     timestamp := now;
     pass_fail_status := status;
     required_tools_check := required_tools_check;
     forbidden_tools_check := forbidden_tools_check;
     parameters_check := parameters_check;
     sequence_check := sequence_check;
     call_count_check := call_count_check;
     hallucinations := hallucinations;
     silent_actions := silent_actions;
     mismatches := mismatches;
     total_issues := Py.len all_issues;
     critical_issues := critical_count;
     high_severity_issues := high_count;
     medium_severity_issues := medium_count;
     low_severity_issues := low_count |}.

End ValidationRun.

(** ** [scoring_system/models.py] *)

Inductive LetterGrade := A_PLUS | A | B | C | D | F.

Record ScoringCriteria := {
  criteria_name : string;
  criteria_weight : spec_float;
  criteria_description : string;
}.

Record Subscore := {
  criterion : string;
  score : spec_float;
  max_score : spec_float;
  weight : spec_float;
  weighted_score : spec_float;
  subscore_explanation : string;
}.

Record Score := {
  total : spec_float;
  max_total : spec_float;
  subscores : list (string * Subscore);
  grade : LetterGrade;
  percentile : spec_float;
  score_explanation : string;
}.

(** ** [scoring_system/scorer.py] *)

Module ScoringSystem.
Import PyFloat.

Definition CRITERIA : list (string * ScoringCriteria) :=
  [ ("tool_selection",
     {| criteria_name := "Tool Selection Accuracy";
        criteria_weight := f2_5;
        criteria_description := "Calls correct tools for the task" |});
    ("parameters",
     {| criteria_name := "Parameter Correctness";
        criteria_weight := f1_5;
        criteria_description := "Function parameters are accurate and complete" |});
    ("sequence",
     {| criteria_name := "Execution Sequence";
        criteria_weight := f1_5;
        criteria_description := "Tools called in logical, efficient order" |});
    ("consistency",
     {| criteria_name := "Claim-Action Consistency";
        criteria_weight := f2_5;
        criteria_description := "Stated intentions match actual actions" |});
    ("compliance",
     {| criteria_name := "Compliance";
        criteria_weight := f1_0;
        criteria_description := "Follows constraints (no forbidden tools)" |});
    ("efficiency",
     {| criteria_name := "Efficiency";
        criteria_weight := f1_0;
        criteria_description := "Completes task with minimal tool calls" |}) ].

(** [CRITERIA[key]], for the keys of the table. *)
Definition CRITERIA_at (key : string) : ScoringCriteria :=
  match list_find (fun kv => fst kv = key) CRITERIA with
  | Some (_, kv) => snd kv
  | None => {| criteria_name := ""; criteria_weight := f0; criteria_description := "" |}
  end.

Definition mk_subscore (c : ScoringCriteria) (score weighted : spec_float)
    (explanation : string) : Subscore :=
  {| criterion := criteria_name c;
     score := score;
     max_score := f10_0;
     weight := criteria_weight c;
     weighted_score := weighted;
     subscore_explanation := explanation |}.

Definition _score_tool_selection (validation_report : ValidationReport)
    (scenario : TestScenario) : Subscore :=
  let criterion := CRITERIA_at "tool_selection" in
  let score := f10_0 in
  let explanation : list string := [] in
  let missing := Py.len (missing (required_tools_check validation_report)) in
  let '(score, explanation) :=
    if Z.gtb missing 0 then
      let penalty := missing * 3 in
      (sub score (of_int penalty),
       explanation ++ ["Missing " +:+ pretty missing +:+ " required tool(s)"])
    else (score, explanation) in
  let violations := Py.len (extra (forbidden_tools_check validation_report)) in
  let '(score, explanation) :=
    if Z.gtb violations 0 then
      (of_int 0, explanation ++ ["Used " +:+ pretty violations +:+ " forbidden tool(s)"])
    else (score, explanation) in
  let score := max0 score in
  let weighted := mul (div score f10_0) (criteria_weight criterion) in
  mk_subscore criterion score weighted
    match explanation with
    | [] => "All required tools called correctly"
    | _ => Py.join "; " explanation
    end.

Definition _score_parameters (validation_report : ValidationReport) : Subscore :=
  let criterion := CRITERIA_at "parameters" in
  let score := f10_0 in
  let explanation := "All parameters correct" in
  let '(score, explanation) :=
    if negb (bool_decide
               (status_value (status (parameters_check validation_report)) = "pass"))
    then
      let errors := check_details (parameters_check validation_report) in
      match errors with
      | Some errors =>
          if bool_decide (errors = "") then (score, explanation)
          else
            let error_count := Py.len (Py.split errors ";"%char) in
            let penalty := error_count * 3 in
            (of_int (Z.max 0 (10 - penalty)),
             pretty error_count +:+ " parameter error(s)")
      | None => (score, explanation)
      end
    else (score, explanation) in
  let weighted := mul (div score f10_0) (criteria_weight criterion) in
  mk_subscore criterion score weighted explanation.

Definition _score_sequence (validation_report : ValidationReport)
    (scenario : TestScenario) : Subscore :=
  let criterion := CRITERIA_at "sequence" in
  let score := f10_0 in
  let explanation := "Correct sequence" in
  let '(score, explanation) :=
    if sequence_matters (expected_behavior scenario) then
      match sequence_check validation_report with
      | Some check =>
          if negb (bool_decide (status_value (status check) = "pass"))
          then (f5_0, "Incorrect sequence")
          else (score, explanation)
      | None => (score, explanation)
      end
    else (score, explanation) in
  let weighted := mul (div score f10_0) (criteria_weight criterion) in
  mk_subscore criterion score weighted explanation.

Definition _score_consistency (validation_report : ValidationReport) : Subscore :=
  let criterion := CRITERIA_at "consistency" in
  let score := f10_0 in
  let hallucinations := Py.len (hallucinations validation_report) in
  let silent_actions := Py.len (silent_actions validation_report) in
  let score := sub score (of_int (hallucinations * 4)) in
  let score := sub score (of_int (silent_actions * 2)) in
  let score := max0 score in
  let explanation_parts : list string := [] in
  let explanation_parts :=
    if Z.gtb hallucinations 0
    then explanation_parts ++ [pretty hallucinations +:+ " hallucination(s)"]
    else explanation_parts in
  let explanation_parts :=
    if Z.gtb silent_actions 0
    then explanation_parts ++ [pretty silent_actions +:+ " silent action(s)"]
    else explanation_parts in
  let explanation :=
    match explanation_parts with
    | [] => "Perfect consistency"
    | _ => Py.join "; " explanation_parts
    end in
  let weighted := mul (div score f10_0) (criteria_weight criterion) in
  mk_subscore criterion score weighted explanation.

Definition _score_compliance (validation_report : ValidationReport) : Subscore :=
  let criterion := CRITERIA_at "compliance" in
  let violations := Py.len (extra (forbidden_tools_check validation_report)) in
  let score := if Z.gtb violations 0 then of_int 0 else f10_0 in
  let explanation :=
    if eqb score (of_int 10) then "Full compliance"
    else "Used " +:+ pretty violations +:+ " forbidden tool(s)" in
  let weighted := mul (div score f10_0) (criteria_weight criterion) in
  mk_subscore criterion score weighted explanation.

(** The score and the explanation [_score_efficiency] derives from the
    ratio. *)
Definition efficiency_of_ratio (ratio : spec_float) : spec_float * string :=
  if leb ratio f1_0 then (f10_0, "Optimal efficiency")
  else if leb ratio f1_5 then (f7_0, "Minor inefficiency")
  else (max0 (sub (of_int 10) (mul (sub ratio (of_int 1)) (of_int 10))),
        "Inefficient (" +:+ format_1f ratio +:+ "x expected calls)").

Definition _score_efficiency (action_log : ActionLog) (scenario : TestScenario)
  : result Subscore :=
  let criterion := CRITERIA_at "efficiency" in
  let actual := total_calls action_log in
  let expected := Py.len (required_tools (expected_behavior scenario)) in
  let expected := if Z.eqb expected 0 then 1 else expected in
  ratio ← truediv actual expected;
  let '(score, explanation) := efficiency_of_ratio ratio in
  let weighted := mul (div score f10_0) (criteria_weight criterion) in
  mret (mk_subscore criterion score weighted explanation).

Definition _assign_grade (total : spec_float) : LetterGrade :=
  if leb f9_0 total then A_PLUS
  else if leb f8_0 total then A
  else if leb f7_0 total then B
  else if leb f6_0 total then C
  else if leb f5_0 total then D
  else F.

Definition _generate_explanation (subscores : list (string * Subscore))
    (validation_report : ValidationReport) : string :=
  let parts :=
    fold_left
      (fun parts '(name, subscore) =>
         if ltb (score subscore) f7_0
         then parts ++ [criterion subscore +:+ ": " +:+ subscore_explanation subscore]
         else parts)
      subscores [] in
  match parts with
  | [] => "Excellent performance across all criteria"
  | _ => Py.join "; " parts
  end.

Definition calculate_score (validation_report : ValidationReport)
    (action_log : ActionLog) (scenario : TestScenario) : result Score :=
  let tool_selection := _score_tool_selection validation_report scenario in
  let parameters := _score_parameters validation_report in
  let sequence := _score_sequence validation_report scenario in
  let consistency := _score_consistency validation_report in
  let compliance := _score_compliance validation_report in
  efficiency ← _score_efficiency action_log scenario;
  let subscores :=
    [ ("tool_selection", tool_selection);
      ("parameters", parameters);
      ("sequence", sequence);
      ("consistency", consistency);
      ("compliance", compliance);
      ("efficiency", efficiency) ] in
  let total := sum (map (fun kv => weighted_score (snd kv)) subscores) in
  let grade := _assign_grade total in
  let explanation := _generate_explanation subscores validation_report in
  mret {| total := round total 2;
          max_total := f10_0;
          subscores := subscores;
          grade := grade;
          percentile := round (mul total (of_int 10)) 2;
          score_explanation := explanation |}.

End ScoringSystem.

(** ** [llm_runner/models.py] *)

Inductive LLMProvider := DEEPSEEK | OLLAMA.

Record FunctionCall := {
  fc_id : option string;
  fc_name : string;
  fc_arguments : gmap string PyVal;
  fc_sequence_number : Z;
}.

Record ResponseMetadata := {
  latency_ms : spec_float;
  tokens_used : option Z;
  prompt_tokens : option Z;
  completion_tokens : option Z;
  cost : option spec_float;
  metadata_model : string;
  metadata_timestamp : datetime;
}.

(** [raw_response], which no component below reads, is left out. *)
Record LLMResponse := {
  response_scenario_id : option string;
  provider : LLMProvider;
  response_model : string;
  response_text : option string;
  function_calls : list FunctionCall;
  metadata : ResponseMetadata;
  error : option string;
}.

(** ** [action_tracker/tracker.py] *)

Module ActionTracker.

(** [counts[t] += 1] on a [Counter]: a dictionary in the order in which
    its keys were first counted. *)
Fixpoint count_one (t : string) (counts : list (string * Z)) : list (string * Z) :=
  match counts with
  | [] => [(t, 1)]
  | (k, n) :: counts' =>
      if decide (k = t) then (k, n + 1) :: counts' else (k, n) :: count_one t counts'
  end.

(** [Counter(names)]. *)
Definition Counter (names : list string) : list (string * Z) :=
  fold_left (fun counts t => count_one t counts) names [].

(** [[tool for tool, count in tool_counts.items() if count > 1]]. *)
Definition counted_twice (tool_counts : list (string * Z)) : list string :=
  map fst (filter (fun kv => 1 < kv.2) tool_counts).

Definition _generate_summary (actions : list Action) (response : LLMResponse)
  : ActionSummary :=
  let tool_names := map function_name actions in
  let tool_counts := Counter tool_names in
  let unique_tools : gset string := list_to_set tool_names in
  let tools_called_multiple := counted_twice tool_counts in
  let execution_time := Some (latency_ms (metadata response)) in
  {| unique_tools_used := unique_tools;
     tools_called_multiple_times := tools_called_multiple;
     tool_call_counts := list_to_map tool_counts;
     total_execution_time_ms := execution_time |}.

Definition extract_actions (response : LLMResponse) : ActionLog :=
  let actions :=
    fold_left
      (fun actions func_call =>
         actions ++ [{| sequence_number := fc_sequence_number func_call;
                        function_name := fc_name func_call;
                        arguments := fc_arguments func_call;
                        action_timestamp := None;
                        call_id := fc_id func_call |}])
      (function_calls response) [] in
  let summary := _generate_summary actions response in
  {| action_scenario_id := response_scenario_id response;
     total_calls := Py.len actions;
     actions := actions;
     summary := summary |}.

Definition get_tools_in_sequence (action_log : ActionLog) : list string :=
  map function_name (actions action_log).

Definition get_tool_count (action_log : ActionLog) (tool_name : string) : Z :=
  default 0 (tool_call_counts (summary action_log) !! tool_name).

Definition has_tool (action_log : ActionLog) (tool_name : string) : bool :=
  bool_decide (tool_name ∈ unique_tools_used (summary action_log)).

Definition find_actions_by_tool (action_log : ActionLog) (tool_name : string)
  : list Action :=
  filter (fun a => function_name a = tool_name) (actions action_log).

Definition get_first_action (action_log : ActionLog) : option Action :=
  match actions action_log with
  | [] => None
  | a :: _ => Some a
  end.

Definition get_last_action (action_log : ActionLog) : option Action :=
  match actions action_log with
  | [] => None
  | _ => last (actions action_log)
  end.

(** The body of the inner loop of [merge_action_logs]: the state is the
    list [all_actions] and the counter [sequence_num]. *)
Definition renumber (st : list Action * Z) (a : Action) : list Action * Z :=
  let '(all_actions, sequence_num) := st in
  (all_actions ++ [{| sequence_number := sequence_num;
                      function_name := function_name a;
                      arguments := arguments a;
                      action_timestamp := action_timestamp a;
                      call_id := call_id a |}],
   sequence_num + 1).

Definition merge_action_logs (logs : list ActionLog) : ActionLog :=
  let '(all_actions, _) :=
    fold_left (fun st log => fold_left renumber (actions log) st) logs ([], 1) in
  let tool_names := map function_name all_actions in
  let tool_counts := Counter tool_names in
  let summary :=
    {| unique_tools_used := list_to_set tool_names;
       tools_called_multiple_times := counted_twice tool_counts;
       tool_call_counts := list_to_map tool_counts;
       total_execution_time_ms := None |} in
  {| action_scenario_id := None;
     total_calls := Py.len all_actions;
     actions := all_actions;
     summary := summary |}.

End ActionTracker.

(** ** [claim_extractor/extractor.py] *)

Module ClaimExtractor.

(** The key [_deduplicate_claims] tells claims apart by. *)
Definition claim_key (c : Claim) : option string * option string * option string :=
  (action_verb c, target_object c, inferred_tool c).

Definition _deduplicate_claims (claims : list Claim) : list Claim :=
  snd
    (fold_left
       (fun (st : gset (option string * option string * option string) * list Claim) c =>
          let '(seen, unique_claims) := st in
          let key := claim_key c in
          if bool_decide (key ∉ seen)
          then (seen ∪ {[key]}, unique_claims ++ [c])
          else (seen, unique_claims))
       claims (∅, [])).

Definition get_claims_by_tool (claim_log : ClaimLog) (tool_name : string) : list Claim :=
  filter (fun c => inferred_tool c = Some tool_name) (claims claim_log).

Definition get_high_confidence_claims (claim_log : ClaimLog) (threshold : spec_float)
  : list Claim :=
  filter (fun c => PyFloat.leb threshold (confidence c) = true) (claims claim_log).

(** [extract_claims], over the two helpers that match regular expressions
    from the tables of [claim_extractor/patterns.py]:
    [_split_into_sentences] and [_extract_from_sentence]. *)
Section Extraction.
Variable _split_into_sentences : string -> list string.
Variable _extract_from_sentence : string -> Z -> list Claim.

(** [enumerate(l, n)]. *)
Fixpoint enumerate {X} (l : list X) (n : Z) : list (Z * X) :=
  match l with
  | [] => []
  | x :: l' => (n, x) :: enumerate l' (n + 1)
  end.

Definition extract_claims (response : LLMResponse) : ClaimLog :=
  match response_text response with
  | None | Some "" =>
      {| claim_scenario_id := response_scenario_id response;
         total_claims := 0;
         claims := [];
         explicit_claims := [];
         implicit_claims := [];
         vague_statements := [] |}
  | Some text =>
      let sentences := _split_into_sentences text in
      let claims :=
        fold_left
          (fun claims '(line_num, sentence) =>
             claims ++ _extract_from_sentence sentence line_num)
          (enumerate sentences 1) [] in
      let claims := _deduplicate_claims claims in
      let explicit := filter (fun c => claim_type c = EXPLICIT) claims in
      let implicit := filter (fun c => claim_type c = IMPLICIT) claims in
      let vague := filter (fun c => claim_type c = VAGUE) claims in
      {| claim_scenario_id := response_scenario_id response;
         total_claims := Py.len claims;
         claims := claims;
         explicit_claims := explicit;
         implicit_claims := implicit;
         vague_statements := vague |}
  end.

End Extraction.

End ClaimExtractor.

(** ** [scenario_engine/validator.py] *)

Record ValidationError := {
  field : string;
  message : string;
}.

(** [DifficultyLevel.value]. *)
Definition difficulty_value (d : DifficultyLevel) : string :=
  match d with
  | EASY => "easy"
  | MEDIUM_DIFFICULTY => "medium"
  | HARD => "hard"
  end.

Module ScenarioValidator.

(** The validator, over three operations of Python on text: [s.strip()],
    [len(s)] (which counts characters, not bytes), and the text an f-string
    substitutes for a set. *)
Section Text.
Variable strip : string -> string.
Variable str_len : string -> Z.
Variable set_text : gset string -> string.

Definition _validate_prompt (scenario : TestScenario) : list ValidationError :=
  let errors : list ValidationError := [] in
  let errors :=
    if bool_decide (strip (user_query (prompt scenario)) = "")
    then errors ++ [{| field := "prompt.user_query"; message := "Cannot be empty" |}]
    else errors in
  let errors :=
    if Z.ltb (str_len (user_query (prompt scenario))) 10
    then errors ++ [{| field := "prompt.user_query";
                       message := "Too short (minimum 10 characters)" |}]
    else errors in
  errors.

(** [tool not in behavior.required_tools and tool not in behavior.optional_tools]. *)
Definition undeclared (behavior : ExpectedBehavior) (tool : string) : bool :=
  bool_decide (tool ∉ required_tools behavior)
  && bool_decide (tool ∉ optional_tools behavior).

Definition _validate_expected_behavior (scenario : TestScenario) : list ValidationError :=
  let errors : list ValidationError := [] in
  let behavior := expected_behavior scenario in
  let errors :=
    match required_tools behavior, optional_tools behavior with
    | [], [] =>
        errors ++ [{| field := "expected_behavior";
                      message := "Must specify at least one required or optional tool" |}]
    | _, _ => errors
    end in
  let overlap : gset string :=
    list_to_set (required_tools behavior) ∩ list_to_set (forbidden_tools behavior) in
  let errors :=
    if bool_decide (overlap <> ∅)
    then errors ++ [{| field := "expected_behavior";
                       message := "Tools cannot be both required and forbidden: "
                                  +:+ set_text overlap |}]
    else errors in
  let overlap : gset string :=
    list_to_set (optional_tools behavior) ∩ list_to_set (forbidden_tools behavior) in
  let errors :=
    if bool_decide (overlap <> ∅)
    then errors ++ [{| field := "expected_behavior";
                       message := "Tools cannot be both optional and forbidden: "
                                  +:+ set_text overlap |}]
    else errors in
  let errors :=
    if sequence_matters behavior then
      match expected_sequence behavior with
      | [] =>
          errors ++ [{| field := "expected_behavior.expected_sequence";
                        message := "Required when sequence_matters is True" |}]
      | sequence =>
          fold_left
            (fun errors tool =>
               if undeclared behavior tool
               then errors ++ [{| field := "expected_behavior.expected_sequence";
                                  message := "Tool '" +:+ tool
                                             +:+ "' in sequence but not in required or optional tools" |}]
               else errors)
            sequence errors
      end
    else errors in
  let errors :=
    match min_tool_calls behavior with
    | Some m =>
        if Z.ltb m 0
        then errors ++ [{| field := "expected_behavior.min_tool_calls";
                           message := "Cannot be negative" |}]
        else errors
    | None => errors
    end in
  let errors :=
    match max_tool_calls behavior with
    | Some m =>
        if Z.ltb m 0
        then errors ++ [{| field := "expected_behavior.max_tool_calls";
                           message := "Cannot be negative" |}]
        else errors
    | None => errors
    end in
  let errors :=
    match min_tool_calls behavior, max_tool_calls behavior with
    | Some lo, Some hi =>
        if Z.gtb lo hi
        then errors ++ [{| field := "expected_behavior";
                           message := "min_tool_calls cannot be greater than max_tool_calls" |}]
        else errors
    | _, _ => errors
    end in
  fold_left
    (fun errors '(tool_name, params) =>
       if undeclared behavior tool_name
       then errors ++ [{| field := "expected_behavior.required_parameters";
                          message := "Tool '" +:+ tool_name
                                     +:+ "' has required parameters but is not in required or optional tools" |}]
       else errors)
    (required_parameters behavior) errors.

Definition _validate_consistency (scenario : TestScenario) : list ValidationError :=
  let errors : list ValidationError := [] in
  let errors :=
    if bool_decide (difficulty_value (difficulty scenario) = "easy")
       && Z.gtb (expected_time scenario) 30
    then errors ++ [{| field := "expected_time";
                       message := "Easy scenarios should typically complete in under 30 seconds" |}]
    else errors in
  let errors :=
    if bool_decide (difficulty_value (difficulty scenario) = "hard")
       && Z.ltb (expected_time scenario) 10
    then errors ++ [{| field := "expected_time";
                       message := "Hard scenarios typically take more than 10 seconds" |}]
    else errors in
  errors.

Definition validate (scenario : TestScenario) : list ValidationError :=
  let errors : list ValidationError := [] in
  let errors := errors ++ _validate_prompt scenario in
  let errors := errors ++ _validate_expected_behavior scenario in
  let errors := errors ++ _validate_consistency scenario in
  errors.

Definition is_valid (scenario : TestScenario) : bool :=
  Z.eqb (Py.len (validate scenario)) 0.

End Text.

End ScenarioValidator.

(** * Vocabulary of the properties *)

Module Vocabulary.
Import ValidationEngine.

(** Number of issues of a severity. *)
Definition issues_of (sev : IssueSeverity) (l : list ConsistencyIssue) : Z :=
  Py.len (filter (fun i => severity i = sev) l).

(** 1 for a failed check, 0 otherwise. *)
Definition penalty (c : RequirementCheck) : Z :=
  if decide (status c = FAIL) then 1 else 0.

(** A claim of [explicit_claims] for which [_detect_hallucinations] reports
    an issue: its [inferred_tool] is neither [None] nor empty, and no action
    bears that name. *)
Definition hallucinated (action_log : ActionLog) (c : Claim) : Prop :=
  match inferred_tool c with
  | Some t => t <> "" /\ Forall (fun a => function_name a <> t) (actions action_log)
  | None => False
  end.

#[global] Instance hallucinated_dec action_log c : Decision (hallucinated action_log c).
Proof. unfold hallucinated. destruct (inferred_tool c); apply _. Defined.

(** The errors of the parameters check, as lists: of one expected parameter
    of one action, of one scenario-declared tool. *)
Definition parameter_error (tool_name : string) (action : Action)
    (item : string * PyVal) : list string :=
  match arguments action !! item.1 with
  | None | Some PNone => [tool_name +:+ "." +:+ item.1 +:+ ": missing"]
  | Some actual_value =>
      if Py.eq actual_value item.2 then []
      else [tool_name +:+ "." +:+ item.1 +:+ ": expected "
            +:+ Py.str item.2 +:+ ", got " +:+ Py.str actual_value]
  end.

Definition tool_errors (action_log : ActionLog)
    (item : string * list (string * PyVal)) : list string :=
  match actions_named item.1 action_log with
  | [] => ["Tool " +:+ item.1 +:+ " not called"]
  | matching => flat_map (fun a => flat_map (parameter_error item.1 a) item.2) matching
  end.

(** A subscore is weighted by the weight of its criterion. *)
Definition weighted_by (key : string) (s : Subscore) : Prop :=
  weight s = criteria_weight (ScoringSystem.CRITERIA_at key) /\
  weighted_score s = PyFloat.mul (PyFloat.div (score s) PyFloat.f10_0) (weight s).

(** The binary64 number nearest to [n / 100]. *)
Definition hundredths (n : Z) : spec_float := PyFloat.div (PyFloat.exact_int n) (PyFloat.exact_int 100).

End Vocabulary.

(** * Sample inputs *)

Module Samples.

Definition behavior_of (required forbidden : list string)
    (parameters : list (string * list (string * PyVal))) : ExpectedBehavior :=
  {| required_tools := required;
     optional_tools := [];
     forbidden_tools := forbidden;
     required_parameters := parameters;
     sequence_matters := false;
     expected_sequence := [];
     min_tool_calls := None;
     max_tool_calls := None |}.

Definition scenario_of (b : ExpectedBehavior) : TestScenario :=
  {| id := "scenario-1";
     name := "sample";
     category := FILE_OPS;
     prompt := {| user_query := "query"; context := None; files_mentioned := [] |};
     expected_behavior := b;
     hallucination_traps := None;
     difficulty := MEDIUM_DIFFICULTY;
     expected_time := 10 |}.

(** The [n]-th call, of tool [f] with arguments [args]. *)
Definition call (n : Z) (f : string) (args : list (string * PyVal)) : Action :=
  {| sequence_number := n;
     function_name := f;
     arguments := list_to_map args;
     action_timestamp := None;
     call_id := None |}.

(** The log [ActionTracker.extract_actions] builds from a list of calls. *)
Definition log_of (calls : list Action) : ActionLog :=
  {| action_scenario_id := Some "scenario-1";
     total_calls := Py.len calls;
     actions := calls;
     summary :=
       {| unique_tools_used := list_to_set (map function_name calls);
          tools_called_multiple_times := [];
          tool_call_counts := ∅;
          total_execution_time_ms := None |} |}.

Definition claim_of (text : string) (tool : option string) (ty : ClaimType) : Claim :=
  {| claim_text := text;
     action_verb := Some "read";
     target_object := None;
     inferred_tool := tool;
     confidence := PyFloat.f1_0;
     line_number := Some 1;
     claim_type := ty |}.

(** The log [ClaimExtractor.extract_claims] builds from a list of claims. *)
Definition claim_log_of (cs : list Claim) : ClaimLog :=
  {| claim_scenario_id := Some "scenario-1";
     total_claims := Py.len cs;
     claims := cs;
     explicit_claims := filter (fun c => claim_type c = EXPLICIT) cs;
     implicit_claims := filter (fun c => claim_type c = IMPLICIT) cs;
     vague_statements := filter (fun c => claim_type c = VAGUE) cs |}.

(** Three required tools, all called and all announced, in five calls. *)
Definition five_calls_scenario : TestScenario :=
  scenario_of (behavior_of ["read_file"; "grep"; "edit_file"] [] []).

Definition five_calls_log : ActionLog :=
  log_of
    [call 1 "read_file" []; call 2 "grep" [];
     call 3 "read_file" []; call 4 "edit_file" [];
     call 5 "read_file" []].

Definition five_calls_claims : ClaimLog :=
  claim_log_of
    [claim_of "I will read the file" (Some "read_file") EXPLICIT;
     claim_of "I will search it" (Some "grep") EXPLICIT;
     claim_of "I will edit the file" (Some "edit_file") EXPLICIT].

Definition five_calls_report : ValidationReport :=
  ValidationEngine.validate 0 five_calls_scenario five_calls_log five_calls_claims.

(** A scenario whose sequence matters, and a log that starts with it. *)
Definition ordered_scenario : TestScenario :=
  scenario_of
    {| required_tools := ["read_file"; "edit_file"];
       optional_tools := [];
       forbidden_tools := [];
       required_parameters := [];
       sequence_matters := true;
       expected_sequence := ["read_file"; "edit_file"];
       min_tool_calls := None;
       max_tool_calls := None |}.

Definition ordered_log : ActionLog :=
  log_of [call 1 "read_file" []; call 2 "edit_file" []; call 3 "read_file" []].

End Samples.

(** * Further vocabulary *)

Module Notions.

(** Whether [n] calls respect the bounds that are set. *)
Definition within (lo hi : option Z) (n : Z) : Prop :=
  (forall m, lo = Some m -> m <= n) /\ (forall m, hi = Some m -> n <= m).

(** The number of occurrences of a character in a text. *)
Fixpoint occurrences (c : ascii) (s : string) : nat :=
  match s with
  | EmptyString => 0
  | String a s' => (if Ascii.eqb a c then 1 else 0) + occurrences c s'
  end.

(** The number of segments the texts of [l] fall into when they are cut at
    every semicolon. *)
Definition segments (l : list string) : Z :=
  Z.of_nat (length l + sum_list (map (occurrences ";") l)).

(** The grades, from the lowest. *)
Definition rank (g : LetterGrade) : Z :=
  match g with
  | F => 0
  | D => 1
  | C => 2
  | B => 3
  | A => 4
  | A_PLUS => 5
  end.

(** The line [_generate_explanation] writes for a subscore. *)
Definition explanation_line (kv : string * Subscore) : string :=
  criterion kv.2 +:+ ": " +:+ subscore_explanation kv.2.

(** The action [extract_actions] records for a function call. *)
Definition action_of_call (func_call : FunctionCall) : Action :=
  {| sequence_number := fc_sequence_number func_call;
     function_name := fc_name func_call;
     arguments := fc_arguments func_call;
     action_timestamp := None;
     call_id := fc_id func_call |}.

(** How often a name occurs in a list of names. *)
Definition times (t : string) (names : list string) : Z :=
  Py.len (filter (fun x => x = t) names).

(** The actions of [l], numbered from [n] on. *)
Fixpoint renumbered (l : list Action) (n : Z) : list Action :=
  match l with
  | [] => []
  | a :: l' =>
      {| sequence_number := n;
         function_name := function_name a;
         arguments := arguments a;
         action_timestamp := action_timestamp a;
         call_id := call_id a |} :: renumbered l' (n + 1)
  end.

(** [sum(l)] for integers. *)
Definition total_of (l : list Z) : Z := foldr Z.add 0 l.

(** The log [merge_action_logs] builds around the merged actions. *)
Definition log_around (all_actions : list Action) : ActionLog :=
  let tool_names := map function_name all_actions in
  let tool_counts := ActionTracker.Counter tool_names in
  {| action_scenario_id := None;
     total_calls := Py.len all_actions;
     actions := all_actions;
     summary :=
       {| unique_tools_used := list_to_set tool_names;
          tools_called_multiple_times := ActionTracker.counted_twice tool_counts;
          tool_call_counts := list_to_map tool_counts;
          total_execution_time_ms := None |} |}.

(** The claims of [l] that are the first of their key, among the keys not
    in [seen]. *)
Fixpoint first_of_key (seen : gset (option string * option string * option string))
    (l : list Claim) : list Claim :=
  match l with
  | [] => []
  | c :: l' =>
      if decide (ClaimExtractor.claim_key c ∈ seen) then first_of_key seen l'
      else c :: first_of_key (seen ∪ {[ClaimExtractor.claim_key c]}) l'
  end.

(** A scenario with a query of more than ten characters. *)
Definition read_scenario : TestScenario :=
  {| id := "file_read_001";
     name := "Read a file";
     category := FILE_OPS;
     prompt := {| user_query := "Read the file config.yaml";
                  context := None;
                  files_mentioned := ["config.yaml"] |};
     expected_behavior := Samples.behavior_of ["read_file"] ["delete_file"] [];
     hallucination_traps := None;
     difficulty := EASY;
     expected_time := 10 |}.

(** A float that is a number of sign [sx] ([true] for the minus sign). *)
Definition signed (sx : bool) (x : spec_float) : Prop :=
  match x with
  | S754_zero s | S754_infinity s | S754_finite s _ _ => s = sx
  | S754_nan => False
  end.

(** A float that is infinite or has more than [d] binary digits before the
    point: its magnitude is at least [2 ^ d]. *)
Definition beyond (d : Z) (x : spec_float) : Prop :=
  match x with
  | S754_infinity _ => True
  | S754_finite _ m e => d < Zpos (digits2_pos m) + e
  | _ => False
  end.

(** A float that is a number below 16: zero, below zero, or with at most 4
    binary digits before the point. *)
Definition below_16 (x : spec_float) : bool :=
  match x with
  | S754_zero _ => true
  | S754_finite true _ _ => true
  | S754_finite false m e => Z.leb (Zpos (digits2_pos m) + e) 4
  | _ => false
  end.

#[global] Instance spec_float_eq_dec : EqDecision spec_float.
Proof. solve_decision. Defined.

(** The set behind each set object of a run of [validate]. *)
Definition listed (o : SetObject) (scenario : TestScenario) (action_log : ActionLog)
  : gset string :=
  let required : gset string := list_to_set (required_tools (expected_behavior scenario)) in
  let forbidden : gset string := list_to_set (forbidden_tools (expected_behavior scenario)) in
  let actual := unique_tools_used (summary action_log) in
  match o with
  | required_set => required
  | forbidden_set => forbidden
  | tools_used_set => actual
  | missing_set => required ∖ actual
  | violations_set => forbidden ∩ actual
  end.

(** Two values of a check that agree, but for the order of the names when
    they are lists of names. *)
Definition same_names (v1 v2 : option CheckValue) : Prop :=
  match v1, v2 with
  | Some (CNames l1), Some (CNames l2) => l1 ≡ₚ l2
  | _, _ => v1 = v2
  end.

(** Two checks that agree, but for the order of the names in their
    lists. *)
Definition same_check (c1 c2 : RequirementCheck) : Prop :=
  check_name c1 = check_name c2 /\
  status c1 = status c2 /\
  same_names (expected c1) (expected c2) /\
  same_names (actual c1) (actual c2) /\
  missing c1 ≡ₚ missing c2 /\
  extra c1 ≡ₚ extra c2 /\
  check_details c1 = check_details c2.

(** Two reports that agree, but for the time stamp and for the order of the
    names in the lists of the two tool checks. *)
Definition same_report (r1 r2 : ValidationReport) : Prop :=
  scenario_id r1 = scenario_id r2 /\
  pass_fail_status r1 = pass_fail_status r2 /\
  same_check (required_tools_check r1) (required_tools_check r2) /\
  same_check (forbidden_tools_check r1) (forbidden_tools_check r2) /\
  parameters_check r1 = parameters_check r2 /\
  sequence_check r1 = sequence_check r2 /\
  call_count_check r1 = call_count_check r2 /\
  hallucinations r1 = hallucinations r2 /\
  silent_actions r1 = silent_actions r2 /\
  mismatches r1 = mismatches r2 /\
  total_issues r1 = total_issues r2 /\
  critical_issues r1 = critical_issues r2 /\
  high_severity_issues r1 = high_severity_issues r2 /\
  medium_severity_issues r1 = medium_severity_issues r2 /\
  low_severity_issues r1 = low_severity_issues r2.

(** A scenario with two required tools, one of which is forbidden as
    well, and the log of a call of each. *)
Definition two_tools_scenario : TestScenario :=
  Samples.scenario_of
    (Samples.behavior_of ["read_file"; "edit_file"] ["edit_file"; "delete_file"] []).

Definition two_tools_log : ActionLog :=
  Samples.log_of [Samples.call 1 "read_file" []; Samples.call 2 "edit_file" []].

End Notions.

(** * Properties *)

(** ** Loops that append *)

Section Loops.
Context {X Y : Type}.

(** A loop whose body appends [g x] to the list under construction
    yields the concatenation of the [g x]. *)
Lemma fold_left_append (f : list Y -> X -> list Y) (g : X -> list Y) :
  (forall acc x, f acc x = acc ++ g x) ->
  forall l acc, fold_left f l acc = acc ++ flat_map g l.
Proof.
  intros Hf l. induction l as [|x l IH]; intros acc; simpl.
  - by rewrite app_nil_r.
  - by rewrite IH, Hf, <- app_assoc.
Qed.

(** A body that appends one element for the [x] that satisfy [P]. *)
Lemma flat_map_filter (P : X -> Prop) `{!forall x, Decision (P x)} (h : X -> Y) l :
  flat_map (fun x => if decide (P x) then [h x] else []) l = map h (filter P l).
Proof.
  induction l as [|x l IH]; simpl; [done|].
  rewrite filter_cons. destruct (decide (P x)); simpl; by rewrite IH.
Qed.

Lemma flat_map_nil_inv (g : X -> list Y) l x :
  flat_map g l = [] -> x ∈ l -> g x = [].
Proof.
  induction l as [|y l IH]; simpl; intros Hnil Hx.
  - by apply elem_of_nil in Hx.
  - apply app_eq_nil in Hnil as [Hy Hl].
    apply elem_of_cons in Hx as [->|Hx]; auto.
Qed.
End Loops.

(** ** The validation engine *)

Module ValidationFacts.
Import ValidationEngine Vocabulary Notions.

Lemma count_severity_acc sev l n :
  fold_left (fun n i => if bool_decide (severity i = sev) then n + 1 else n) l n
  = n + issues_of sev l.
Proof.
  unfold issues_of, Py.len. revert n.
  induction l as [|i l IH]; intros n; simpl; [lia|].
  rewrite IH, filter_cons.
  destruct (decide (severity i = sev)) as [E|E].
  - rewrite bool_decide_eq_true_2 by done. simpl length. lia.
  - rewrite bool_decide_eq_false_2 by done. lia.
Qed.

Lemma count_severity_filter sev l : count_severity sev l = issues_of sev l.
Proof. unfold count_severity. by rewrite count_severity_acc. Qed.

(** Every issue has exactly one of the four severities. *)
Lemma issues_of_total l :
  issues_of CRITICAL l + issues_of HIGH l + issues_of MEDIUM l + issues_of LOW l = Py.len l.
Proof.
  unfold issues_of, Py.len.
  induction l as [|i l IH]; simpl; [done|].
  rewrite !filter_cons.
  destruct (severity i);
    repeat match goal with
           | |- context [decide (?a = ?b)] => destruct (decide (a = b)); try congruence
           end;
    simpl length; lia.
Qed.

Lemma status_of_elements (l : list string) :
  match l with [] => PASS | _ => FAIL end = FAIL <-> l <> [].
Proof. destruct l; split; congruence. Qed.

(** The forbidden-tools check fails exactly when a forbidden tool is
    among the tools used. *)
Lemma forbidden_check_fail scenario action_log :
  status (_check_forbidden_tools scenario action_log) = FAIL <->
  exists t, t ∈ forbidden_tools (expected_behavior scenario)
            /\ t ∈ unique_tools_used (summary action_log).
Proof.
  unfold _check_forbidden_tools. cbn [status].
  rewrite status_of_elements. split.
  - intros Hne.
    destruct (elements _) as [|t l] eqn:E; [done|].
    exists t.
    assert (t ∈ elements
              (list_to_set (forbidden_tools (expected_behavior scenario))
                 ∩ unique_tools_used (summary action_log) : gset string)) as Ht
        by (rewrite E; left).
    apply elem_of_elements, elem_of_intersection in Ht as [Hf Hu].
    by apply elem_of_list_to_set in Hf.
  - intros (t & Hf & Hu) E.
    apply elements_empty_inv in E.
    apply (elem_of_list_to_set (C := gset string)) in Hf.
    set_solver.
Qed.

(** The required-tools check fails exactly when a required tool is not
    among the tools used. *)
Lemma required_check_fail scenario action_log :
  status (_check_required_tools scenario action_log) = FAIL <->
  exists t, t ∈ required_tools (expected_behavior scenario)
            /\ t ∉ unique_tools_used (summary action_log).
Proof.
  unfold _check_required_tools. cbn [status].
  rewrite status_of_elements. split.
  - intros Hne.
    destruct (elements _) as [|t l] eqn:E; [done|].
    exists t.
    assert (t ∈ elements
              (list_to_set (required_tools (expected_behavior scenario))
                 ∖ unique_tools_used (summary action_log) : gset string)) as Ht
        by (rewrite E; left).
    apply elem_of_elements, elem_of_difference in Ht as [Hf Hu].
    by apply elem_of_list_to_set in Hf.
  - intros (t & Hf & Hu) E.
    apply elements_empty_inv in E.
    apply (elem_of_list_to_set (C := gset string)) in Hf.
    set_solver.
Qed.

(** *** Purity (C1) *)

(** [ValidationEngine] is the run in the order of [elements]. *)
Lemma run_in_elements_order now scenario action_log claim_log :
  ValidationRun.validate elements_order now scenario action_log claim_log
  = validate now scenario action_log claim_log.
Proof. reflexivity. Qed.

Lemma status_of_listing (l1 l2 : list string) :
  l1 ≡ₚ l2 ->
  match l1 with [] => PASS | _ => FAIL end = match l2 with [] => PASS | _ => FAIL end.
Proof.
  intros Hp. destruct l1 as [|x l1], l2 as [|y l2]; try done.
  - by apply Permutation_nil_cons in Hp.
  - symmetry in Hp. by apply Permutation_nil_cons in Hp.
Qed.

Lemma listings_agree (order1 order2 : SetOrder) o (s : gset string) :
  list_of order1 o s ≡ₚ list_of order2 o s.
Proof. by rewrite !list_of_elements. Qed.

Lemma required_checks_agree order1 order2 scenario action_log :
  same_check (ValidationRun._check_required_tools order1 scenario action_log)
    (ValidationRun._check_required_tools order2 scenario action_log).
Proof.
  unfold same_check, ValidationRun._check_required_tools.
  cbn [check_name status expected actual missing extra check_details same_names].
  repeat apply conj; try done; try apply listings_agree.
  apply status_of_listing, listings_agree.
Qed.

Lemma forbidden_checks_agree order1 order2 scenario action_log :
  same_check (ValidationRun._check_forbidden_tools order1 scenario action_log)
    (ValidationRun._check_forbidden_tools order2 scenario action_log).
Proof.
  unfold same_check, ValidationRun._check_forbidden_tools.
  cbn [check_name status expected actual missing extra check_details same_names].
  repeat apply conj; try done; try apply listings_agree.
  apply status_of_listing, listings_agree.
Qed.

(** Two runs on the same inputs yield the same report, but for the time
    stamp and the order of the names in the two tool checks. *)
Lemma runs_agree order1 order2 now1 now2 scenario action_log claim_log :
  same_report
    (ValidationRun.validate order1 now1 scenario action_log claim_log)
    (ValidationRun.validate order2 now2 scenario action_log claim_log).
Proof.
  pose proof (required_checks_agree order1 order2 scenario action_log) as Hr.
  pose proof (forbidden_checks_agree order1 order2 scenario action_log) as Hf.
  assert (status (ValidationRun._check_required_tools order1 scenario action_log)
          = status (ValidationRun._check_required_tools order2 scenario action_log))
    as Hrs by apply Hr.
  assert (status (ValidationRun._check_forbidden_tools order1 scenario action_log)
          = status (ValidationRun._check_forbidden_tools order2 scenario action_log))
    as Hfs by apply Hf.
  unfold same_report, ValidationRun.validate.
  cbn [scenario_id pass_fail_status required_tools_check forbidden_tools_check
       parameters_check sequence_check call_count_check hallucinations silent_actions
       mismatches total_issues critical_issues high_severity_issues
       medium_severity_issues low_severity_issues].
  unfold _determine_overall_status. rewrite Hrs, Hfs.
  split; [done|]. split; [done|]. split; [exact Hr|]. split; [exact Hf|].
  repeat apply conj; done.
Qed.

(** The score reads nothing of a report that the clock or the order of a
    set has a part in. *)
Lemma calculate_score_same_report r1 r2 action_log scenario :
  same_report r1 r2 ->
  ScoringSystem.calculate_score r1 action_log scenario
  = ScoringSystem.calculate_score r2 action_log scenario.
Proof.
  intros (_ & _ & (_ & _ & _ & _ & Hm & _ & _) & (_ & _ & _ & _ & _ & He & _)
          & Hp & Hs & _ & Hh & Hsi & _).
  apply Permutation_length in Hm, He.
  unfold ScoringSystem.calculate_score, ScoringSystem._score_tool_selection,
    ScoringSystem._score_parameters, ScoringSystem._score_sequence,
    ScoringSystem._score_consistency, ScoringSystem._score_compliance,
    ScoringSystem._generate_explanation, Py.len.
  by rewrite Hm, He, Hp, Hs, Hh, Hsi.
Qed.

(** The reports of two runs are the same report exactly when the clock
    reads the same and the five sets are listed in the same order. *)
Lemma runs_identical order1 order2 now1 now2 scenario action_log claim_log :
  ValidationRun.validate order1 now1 scenario action_log claim_log
  = ValidationRun.validate order2 now2 scenario action_log claim_log
  <-> now1 = now2 /\
      forall o, list_of order1 o (listed o scenario action_log)
                = list_of order2 o (listed o scenario action_log).
Proof.
  split.
  - intros E. split; [exact (f_equal timestamp E)|].
    pose proof (f_equal (fun r => expected (required_tools_check r)) E) as H1.
    pose proof (f_equal (fun r => actual (required_tools_check r)) E) as H2.
    pose proof (f_equal (fun r => missing (required_tools_check r)) E) as H3.
    pose proof (f_equal (fun r => expected (forbidden_tools_check r)) E) as H4.
    pose proof (f_equal (fun r => extra (forbidden_tools_check r)) E) as H5.
    cbv beta in H1, H2, H3, H4, H5.
    unfold ValidationRun.validate, ValidationRun._check_required_tools,
      ValidationRun._check_forbidden_tools in H1, H2, H3, H4, H5.
    cbn [required_tools_check forbidden_tools_check expected actual missing extra]
      in H1, H2, H3, H4, H5.
    intros o. destruct o; unfold listed; congruence.
  - intros [-> H].
    pose proof (H required_set) as H1. pose proof (H tools_used_set) as H2.
    pose proof (H missing_set) as H3. pose proof (H forbidden_set) as H4.
    pose proof (H violations_set) as H5.
    unfold listed in H1, H2, H3, H4, H5.
    unfold ValidationRun.validate, ValidationRun._check_required_tools,
      ValidationRun._check_forbidden_tools.
    by rewrite H1, H2, H3, H4, H5.
Qed.

(** C1, as the code has it. Two runs of [validate] on the same scenario,
    action log and claim log yield reports that agree in every field but
    two things: [timestamp], which holds the reading of the clock of each
    run, and the order of the names in [expected], [actual], [missing] and
    [extra] of the required-tools and the forbidden-tools checks, which is
    the order in which each run lists its sets. The two reports are the same
    exactly when the clock reads the same in both runs and each of the five
    sets is listed in the same order. [calculate_score] yields the same
    result (a score or an exception) for both reports. *)
Theorem C1_runs_agree_but_for_clock_and_set_order
    (order1 order2 : SetOrder) (now1 now2 : datetime) scenario action_log claim_log :
  let r1 := ValidationRun.validate order1 now1 scenario action_log claim_log in
  let r2 := ValidationRun.validate order2 now2 scenario action_log claim_log in
  timestamp r1 = now1 /\ timestamp r2 = now2 /\
  same_report r1 r2 /\
  (r1 = r2 <-> now1 = now2 /\
               forall o, list_of order1 o (listed o scenario action_log)
                         = list_of order2 o (listed o scenario action_log)) /\
  ScoringSystem.calculate_score r1 action_log scenario
  = ScoringSystem.calculate_score r2 action_log scenario.
Proof.
  intros r1 r2.
  pose proof (runs_agree order1 order2 now1 now2 scenario action_log claim_log) as Hsame.
  split; [reflexivity|]. split; [reflexivity|]. split; [exact Hsame|]. split.
  - apply runs_identical.
  - by apply calculate_score_same_report.
Qed.

(** C1 fails as stated: on the same inputs, the reports of two runs differ
    in their time stamps when the clock has moved between the runs, and,
    with the same reading of the clock, in the order of the required tools
    when the two runs list the set of the required tools in opposite
    orders. *)
Lemma C1_clock_or_set_order_tells_runs_apart :
  let scenario := two_tools_scenario in
  let action_log := two_tools_log in
  let claim_log := Samples.claim_log_of [] in
  ValidationRun.validate elements_order 0 scenario action_log claim_log
  <> ValidationRun.validate elements_order 1 scenario action_log claim_log /\
  ValidationRun.validate elements_order 0 scenario action_log claim_log
  <> ValidationRun.validate reverse_order 0 scenario action_log claim_log /\
  expected (required_tools_check
              (ValidationRun.validate elements_order 0 scenario action_log claim_log))
  <> expected (required_tools_check
                 (ValidationRun.validate reverse_order 0 scenario action_log claim_log)).
Proof.
  intros scenario action_log claim_log.
  assert (expected (required_tools_check
                      (ValidationRun.validate elements_order 0 scenario action_log claim_log))
          <> expected (required_tools_check
                         (ValidationRun.validate reverse_order 0 scenario action_log claim_log)))
    as Hne by (vm_compute; discriminate).
  split; [|split; [|exact Hne]].
  - intros E. apply (f_equal timestamp) in E. discriminate E.
  - intros E. apply Hne. by rewrite E.
Qed.

(** *** Aggregate counts (C2) *)

(** C2, as the code has it. The per-severity counts of a report are the
    numbers of issues of that severity in
    [hallucinations + silent_actions + mismatches], plus one CRITICAL for a
    failed forbidden-tools check and one HIGH for a failed required-tools
    check; [total_issues] is the number of issues in the three lists, that
    is the sum of the four counts less the penalties of the two checks. *)
Theorem C2_aggregate_counts (now : datetime) scenario action_log claim_log :
  let r := validate now scenario action_log claim_log in
  let all_issues := hallucinations r ++ silent_actions r ++ mismatches r in
  critical_issues r = issues_of CRITICAL all_issues + penalty (forbidden_tools_check r) /\
  high_severity_issues r = issues_of HIGH all_issues + penalty (required_tools_check r) /\
  medium_severity_issues r = issues_of MEDIUM all_issues /\
  low_severity_issues r = issues_of LOW all_issues /\
  total_issues r = Py.len all_issues /\
  total_issues r
  = critical_issues r + high_severity_issues r
    + medium_severity_issues r + low_severity_issues r
    - penalty (forbidden_tools_check r) - penalty (required_tools_check r).
Proof.
  intros r all_issues.
  assert (critical_issues r
          = issues_of CRITICAL all_issues + penalty (forbidden_tools_check r)) as Hc.
  { subst r all_issues. unfold validate, penalty. cbn [critical_issues forbidden_tools_check
      hallucinations silent_actions mismatches].
    rewrite count_severity_filter.
    destruct (decide (status (_check_forbidden_tools scenario action_log) = FAIL)).
    - by rewrite bool_decide_eq_true_2.
    - rewrite bool_decide_eq_false_2 by done. lia. }
  assert (high_severity_issues r
          = issues_of HIGH all_issues + penalty (required_tools_check r)) as Hh.
  { subst r all_issues. unfold validate, penalty. cbn [high_severity_issues required_tools_check
      hallucinations silent_actions mismatches].
    rewrite count_severity_filter.
    destruct (decide (status (_check_required_tools scenario action_log) = FAIL)).
    - by rewrite bool_decide_eq_true_2.
    - rewrite bool_decide_eq_false_2 by done. lia. }
  assert (medium_severity_issues r = issues_of MEDIUM all_issues) as Hm
      by apply count_severity_filter.
  assert (low_severity_issues r = issues_of LOW all_issues) as Hl
      by apply count_severity_filter.
  assert (total_issues r = Py.len all_issues) as Ht by reflexivity.
  repeat split; try assumption.
  rewrite Hc, Hh, Hm, Hl, Ht, <- (issues_of_total all_issues). lia.
Qed.

(** C2 fails as stated: with one required tool and no call at all, the
    report lists no issue and counts one HIGH, so [total_issues] is not the
    sum of the four counts. *)
Lemma C2_total_is_not_the_sum :
  let r := validate 0 (Samples.scenario_of (Samples.behavior_of ["read_file"] [] []))
             (Samples.log_of []) (Samples.claim_log_of []) in
  total_issues r = 0 /\
  critical_issues r + high_severity_issues r
  + medium_severity_issues r + low_severity_issues r = 1.
Proof. vm_compute. split; reflexivity. Qed.

(** *** Overall status (C3) *)

(** C3. The status of a report is FAIL exactly when its critical count is
    positive or the forbidden-tools check failed; otherwise PARTIAL exactly
    when its high count is positive or the required-tools check failed;
    otherwise PASS. A report for a log whose [unique_tools_used] holds a
    forbidden tool is FAIL. *)
Theorem C3_status_cascade (now : datetime) scenario action_log claim_log :
  let r := validate now scenario action_log claim_log in
  let failing := critical_issues r > 0 \/ status (forbidden_tools_check r) = FAIL in
  let partial := high_severity_issues r > 0 \/ status (required_tools_check r) = FAIL in
  (pass_fail_status r = FAIL <-> failing) /\
  (pass_fail_status r = PARTIAL <-> ~ failing /\ partial) /\
  (pass_fail_status r = PASS <-> ~ failing /\ ~ partial) /\
  ((exists t, t ∈ forbidden_tools (expected_behavior scenario)
              /\ t ∈ unique_tools_used (summary action_log)) ->
   pass_fail_status r = FAIL).
Proof.
  intros r failing partial.
  assert (pass_fail_status r
          = _determine_overall_status (critical_issues r) (high_severity_issues r)
              (required_tools_check r) (forbidden_tools_check r)) as -> by reflexivity.
  pose proof (forbidden_check_fail scenario action_log) as Hforbidden.
  change (_check_forbidden_tools scenario action_log)
    with (forbidden_tools_check r) in Hforbidden.
  subst failing partial. unfold _determine_overall_status.
  generalize dependent (status (forbidden_tools_check r)).
  generalize (status (required_tools_check r)) (high_severity_issues r) (critical_issues r).
  intros sr h c sf Hforbidden.
  destruct (Z.gtb_spec c 0), (Z.gtb_spec h 0); repeat case_bool_decide; cbn [orb];
    intuition (try lia; try congruence).
Qed.

(** C3 at a sample: a call of a forbidden tool, announced by an explicit
    claim that matches it. *)
Lemma C3_forbidden_tool_sample :
  pass_fail_status
    (validate 0
       (Samples.scenario_of (Samples.behavior_of [] ["run_terminal_command"] []))
       (Samples.log_of [Samples.call 1 "run_terminal_command" []])
       (Samples.claim_log_of
          [Samples.claim_of "I will run it" (Some "run_terminal_command") EXPLICIT]))
  = FAIL.
Proof.
  apply C3_status_cascade.
  exists "run_terminal_command". split; vm_compute; [left | reflexivity].
Defined.

(** *** Hallucinations (C5) *)

Lemma filter_nil_Forall {X} (P : X -> Prop) `{!forall x, Decision (P x)} (l : list X) :
  filter P l = [] <-> Forall (fun x => ~ P x) l.
Proof.
  induction l as [|x l IH]; [by rewrite filter_nil|].
  rewrite filter_cons, Forall_cons. destruct (decide (P x)); [|tauto].
  split; [done|tauto].
Qed.

Lemma filter_filter_and {X} (P Q : X -> Prop)
    `{!forall x, Decision (P x)} `{!forall x, Decision (Q x)} (l : list X) :
  filter P (filter Q l) = filter (fun x => Q x /\ P x) l.
Proof.
  induction l as [|x l IH]; [done|].
  rewrite !filter_cons.
  destruct (decide (Q x)), (decide (Q x /\ P x)); rewrite ?filter_cons;
    try destruct (decide (P x)); try tauto; by rewrite IH.
Qed.

(** The body of the loop of [_detect_hallucinations]. *)
Lemma hallucination_step action_log issues c :
  (if negb (Py.truthy (inferred_tool c)) then issues
   else match matching_actions c action_log with
        | [] => issues ++ [hallucination_issue c]
        | _ => issues
        end)
  = issues ++ (if decide (hallucinated action_log c) then [hallucination_issue c] else []).
Proof.
  unfold matching_actions, Py.truthy.
  destruct (decide (hallucinated action_log c)) as [H|H];
    unfold hallucinated in H; destruct (inferred_tool c) as [t|]; simpl.
  - destruct H as [Ht Hall]. rewrite bool_decide_eq_false_2 by done. simpl.
    assert (filter (fun a => Some (function_name a) = Some t) (actions action_log) = [])
      as -> ; [|done].
    apply filter_nil_Forall. eapply Forall_impl; [exact Hall|]. simpl. congruence.
  - done.
  - rewrite app_nil_r. case_bool_decide as Ht; simpl; [done|].
    destruct (filter _ _) as [|a l] eqn:E; [|done].
    exfalso. apply H. split; [done|].
    apply filter_nil_Forall in E. eapply Forall_impl; [exact E|]. simpl. congruence.
  - by rewrite app_nil_r.
Qed.

Lemma detect_hallucinations_spec claim_log action_log :
  _detect_hallucinations claim_log action_log
  = map hallucination_issue (filter (hallucinated action_log) (explicit_claims claim_log)).
Proof.
  unfold _detect_hallucinations.
  rewrite (fold_left_append _ _ (hallucination_step action_log)).
  apply flat_map_filter.
Qed.

(** C5, as the code has it. [_detect_hallucinations] reads the list
    [explicit_claims] of the claim log, whatever the types of its entries,
    and emits, in their order, exactly one issue of type
    CLAIM_WITHOUT_ACTION and severity HIGH for every entry whose
    [inferred_tool] is neither null nor the empty string and that no action
    bears as [function_name]; it emits nothing else. When [explicit_claims]
    holds the EXPLICIT claims of [claims], as the claim extractor fills it,
    these are the EXPLICIT claims of the log with such a tool, and a claim
    of another type yields no issue. *)
Theorem C5_hallucinations claim_log action_log :
  let issues := _detect_hallucinations claim_log action_log in
  issues = map hallucination_issue
             (filter (hallucinated action_log) (explicit_claims claim_log)) /\
  Forall (fun i => type i = CLAIM_WITHOUT_ACTION /\ severity i = HIGH) issues /\
  (explicit_claims claim_log = filter (fun c => claim_type c = EXPLICIT) (claims claim_log) ->
   issues = map hallucination_issue
              (filter (fun c => claim_type c = EXPLICIT /\ hallucinated action_log c)
                 (claims claim_log))).
Proof.
  intros issues. subst issues. rewrite detect_hallucinations_spec.
  split; [done|]. split.
  - apply Forall_map, Forall_forall. by intros.
  - intros ->. by rewrite filter_filter_and.
Qed.

(** C5 at a sample: of an explicit claim of a tool that is called, an
    explicit claim of a tool that is not, and a vague claim of a tool that is
    not, the second alone is reported. *)
Lemma C5_hallucinations_sample :
  let cs := [Samples.claim_of "I will read it" (Some "read_file") EXPLICIT;
             Samples.claim_of "I will edit it" (Some "edit_file") EXPLICIT;
             Samples.claim_of "It gets deleted" (Some "delete_file") VAGUE] in
  _detect_hallucinations (Samples.claim_log_of cs)
    (Samples.log_of [Samples.call 1 "read_file" []])
  = [hallucination_issue (Samples.claim_of "I will edit it" (Some "edit_file") EXPLICIT)].
Proof.
  intros cs.
  pose proof (C5_hallucinations (Samples.claim_log_of cs)
                (Samples.log_of [Samples.call 1 "read_file" []])) as (_ & _ & H).
  rewrite H; [|reflexivity]. vm_compute. reflexivity.
Defined.

(** C5 fails as stated, in two ways. An EXPLICIT claim whose
    [inferred_tool] is the empty string, which no action bears, yields no
    issue; and a VAGUE claim that stands in [explicit_claims] yields one. *)
Lemma C5_empty_tool_and_unchecked_type :
  let empty := Samples.claim_of "I will do it" (Some "") EXPLICIT in
  let vague := Samples.claim_of "Something changes" (Some "edit_file") VAGUE in
  let vague_log :=
    {| claim_scenario_id := None; total_claims := 1; claims := [vague];
       explicit_claims := [vague]; implicit_claims := []; vague_statements := [] |} in
  _detect_hallucinations (Samples.claim_log_of [empty]) (Samples.log_of []) = [] /\
  _detect_hallucinations vague_log (Samples.log_of []) = [hallucination_issue vague].
Proof. split; reflexivity. Qed.

(** *** Silent actions (C6) *)

Lemma claimed_tools_acc (cs : list Claim) (acc : gset string) (t : string) :
  t ∈ fold_left
        (fun tools c =>
           match inferred_tool c with
           | Some t => if Py.truthy (inferred_tool c) then tools ∪ {[t]} else tools
           | None => tools
           end) cs acc
  <-> t ∈ acc \/ (t <> "" /\ exists c, c ∈ cs /\ inferred_tool c = Some t).
Proof.
  revert acc. induction cs as [|c cs IH]; intros acc; simpl.
  - split; [by left|]. intros [H|(_ & c & Hc & _)]; [done|]. by apply elem_of_nil in Hc.
  - rewrite IH. clear IH. unfold Py.truthy.
    destruct (inferred_tool c) as [u|] eqn:Eu.
    + case_bool_decide as Hu; simpl.
      * split.
        -- intros [H|(Hne & c' & Hc' & Ht)]; [by left|].
           right. split; [done|]. exists c'. split; [by right|done].
        -- intros [H|(Hne & c' & Hc' & Ht)]; [by left|].
           apply elem_of_cons in Hc' as [->|Hc'].
           ++ congruence.
           ++ right. split; [done|]. by exists c'.
      * rewrite elem_of_union, elem_of_singleton. split.
        -- intros [[H| ->]|(Hne & c' & Hc' & Ht)].
           ++ by left.
           ++ right. split; [done|]. exists c. split; [by left|done].
           ++ right. split; [done|]. exists c'. split; [by right|done].
        -- intros [H|(Hne & c' & Hc' & Ht)]; [by left; left|].
           apply elem_of_cons in Hc' as [->|Hc'].
           ++ left. right. congruence.
           ++ right. split; [done|]. by exists c'.
    + split.
      * intros [H|(Hne & c' & Hc' & Ht)]; [by left|].
        right. split; [done|]. exists c'. split; [by right|done].
      * intros [H|(Hne & c' & Hc' & Ht)]; [by left|].
        apply elem_of_cons in Hc' as [->|Hc'].
        -- congruence.
        -- right. split; [done|]. by exists c'.
Qed.

Lemma claimed_tools_spec claim_log (t : string) :
  t ∈ claimed_tools claim_log
  <-> t <> "" /\ exists c, c ∈ claims claim_log /\ inferred_tool c = Some t.
Proof.
  unfold claimed_tools. rewrite claimed_tools_acc. split; [|by right].
  intros [H|H]; [|done]. by apply not_elem_of_empty in H.
Qed.

Lemma detect_silent_actions_spec action_log claim_log :
  _detect_silent_actions action_log claim_log
  = map silent_action_issue
      (filter (fun a => function_name a ∉ claimed_tools claim_log) (actions action_log)).
Proof.
  unfold _detect_silent_actions.
  rewrite (fold_left_append _
             (fun a => if decide (function_name a ∉ claimed_tools claim_log)
                       then [silent_action_issue a] else [])).
  - apply flat_map_filter.
  - intros acc a.
    destruct (decide (function_name a ∉ claimed_tools claim_log)).
    + by rewrite bool_decide_eq_true_2.
    + rewrite bool_decide_eq_false_2 by done. by rewrite app_nil_r.
Qed.

(** C6, as the code has it. The set of claimed tools holds the
    [inferred_tool] of the claims of any type that is neither null nor the
    empty string. [_detect_silent_actions] emits, in the order of the
    actions, exactly one issue of type ACTION_WITHOUT_CLAIM and severity
    MEDIUM, naming the action and carrying its arguments under
    ["arguments"], for every action whose [function_name] is not in that
    set, and nothing for the others. *)
Theorem C6_silent_actions action_log claim_log :
  (forall t : string,
     t ∈ claimed_tools claim_log
     <-> t <> "" /\ exists c, c ∈ claims claim_log /\ inferred_tool c = Some t) /\
  _detect_silent_actions action_log claim_log
  = map silent_action_issue
      (filter (fun a => function_name a ∉ claimed_tools claim_log) (actions action_log)) /\
  (forall a, type (silent_action_issue a) = ACTION_WITHOUT_CLAIM
             /\ severity (silent_action_issue a) = MEDIUM
             /\ action (silent_action_issue a) = Some (function_name a)
             /\ details (silent_action_issue a) = Some [("arguments", arguments a)]).
Proof.
  split; [apply claimed_tools_spec|].
  split; [apply detect_silent_actions_spec|done].
Qed.

(** C6 fails as stated: a call of a tool of empty name is reported although
    a claim has the empty name as its (non-null) [inferred_tool]. *)
Lemma C6_empty_tool_is_not_claimed :
  let c := Samples.claim_of "I will do it" (Some "") IMPLICIT in
  let a := Samples.call 1 "" [] in
  inferred_tool c = Some (function_name a) /\
  _detect_silent_actions (Samples.log_of [a]) (Samples.claim_log_of [c])
  = [silent_action_issue a].
Proof. split; reflexivity. Qed.

(** *** The parameters check (C7, C10) *)

Lemma py_eq_None (v : PyVal) : Py.eq v PNone = true -> v = PNone.
Proof. by destruct v. Qed.

(** The body of the loop over the expected parameters. *)
Lemma check_parameter_spec tool_name action errors item :
  check_parameter tool_name action errors item
  = errors ++ parameter_error tool_name action item.
Proof.
  destruct item as [param_name expected_value].
  unfold check_parameter, parameter_error, Py.get, Py.ne. cbn [fst snd].
  destruct (arguments action !! param_name) as [v|]; [|done].
  destruct v; cbn [default Py.is_None]; try done;
    by destruct (Py.eq _ expected_value); cbn [negb]; rewrite ?app_nil_r.
Qed.

(** The body of the loop over the scenario-declared tools. *)
Lemma check_tool_spec action_log errors item :
  check_tool action_log errors item = errors ++ tool_errors action_log item.
Proof.
  destruct item as [tool_name expected_params].
  unfold check_tool, tool_errors. cbn [fst snd].
  destruct (actions_named tool_name action_log) as [|a l]; [done|].
  apply fold_left_append. intros acc b.
  apply fold_left_append. intros acc' item. apply check_parameter_spec.
Qed.

Lemma parameter_errors_spec scenario action_log :
  parameter_errors scenario action_log
  = flat_map (tool_errors action_log) (required_parameters (expected_behavior scenario)).
Proof.
  unfold parameter_errors.
  by rewrite (fold_left_append _ _ (check_tool_spec action_log)).
Qed.

(** The check fails as soon as there is an error. *)
Lemma parameters_check_fails scenario action_log :
  flat_map (tool_errors action_log) (required_parameters (expected_behavior scenario)) <> [] ->
  status (_check_parameters scenario action_log) = FAIL.
Proof.
  unfold _check_parameters. cbn [status]. rewrite parameter_errors_spec.
  by destruct (flat_map _ _).
Qed.

(** C7, as the code has it. The errors of the parameters check are, for
    every scenario-declared pair of a tool and its expected parameters in
    turn: a "not called" error when no action bears the tool's name;
    otherwise, for every matching action and every expected parameter, a
    "missing" error when the key is absent or its value is [None], an
    "expected X, got Y" error when the value is not [None] and differs from
    the expected one, and nothing when they are equal. The details are the
    errors joined with "; " (null when there is none), and the status is
    FAIL when there is an error and PASS when there is none. *)
Theorem C7_parameters_check scenario action_log :
  let check := _check_parameters scenario action_log in
  let errors :=
    flat_map (tool_errors action_log) (required_parameters (expected_behavior scenario)) in
  parameter_errors scenario action_log = errors /\
  check_details check = (if decide (errors = []) then None else Some (Py.join "; " errors)) /\
  (status check = FAIL <-> errors <> []) /\
  (status check = PASS <-> errors = []).
Proof.
  intros check errors. subst check errors.
  unfold _check_parameters. cbn [check_details status].
  rewrite parameter_errors_spec.
  destruct (flat_map _ _) as [|e l]; repeat split; try done.
Qed.

(** C7 fails as stated: an argument that is present with the value [None]
    differs from the expected ["a.txt"], and the error is "missing", not
    "expected a.txt, got None". *)
Lemma C7_none_value_is_reported_missing :
  let a := Samples.call 1 "read_file" [("path", PNone)] in
  let scenario :=
    Samples.scenario_of
      (Samples.behavior_of [] [] [("read_file", [("path", PStr "a.txt")])]) in
  arguments a !! "path" = Some PNone /\
  Py.ne PNone (PStr "a.txt") = true /\
  check_details (_check_parameters scenario (Samples.log_of [a]))
  = Some "read_file.path: missing".
Proof. repeat split; reflexivity. Qed.

(** C10. An argument whose key is present with the value [None] is
    reported "missing"; an expected value [None] makes every action checked
    against it produce an error, whatever its argument holds; so the
    parameters check of a scenario that expects [None] for a parameter of a
    tool that is called is FAIL. *)
Theorem C10_none_is_missing :
  (forall tool_name action errors param_name expected_value,
     arguments action !! param_name = Some PNone ->
     check_parameter tool_name action errors (param_name, expected_value)
     = errors ++ [tool_name +:+ "." +:+ param_name +:+ ": missing"]) /\
  (forall tool_name action errors param_name,
     exists e, check_parameter tool_name action errors (param_name, PNone)
               = errors ++ [e]) /\
  (forall scenario action_log tool_name expected_params param_name a,
     (tool_name, expected_params) ∈ required_parameters (expected_behavior scenario) ->
     (param_name, PNone) ∈ expected_params ->
     a ∈ actions action_log -> function_name a = tool_name ->
     status (_check_parameters scenario action_log) = FAIL).
Proof.
  assert (forall tool_name action param_name,
            parameter_error tool_name action (param_name, PNone) <> []) as Herr.
  { intros tool_name action param_name. unfold parameter_error. cbn [fst snd].
    destruct (arguments action !! param_name) as [v|]; [|done].
    destruct v; done. }
  split; [|split].
  - intros tool_name action errors param_name expected_value Harg.
    rewrite check_parameter_spec. unfold parameter_error. cbn [fst snd].
    by rewrite Harg.
  - intros tool_name action errors param_name.
    rewrite check_parameter_spec.
    specialize (Herr tool_name action param_name).
    unfold parameter_error in *. cbn [fst snd] in *.
    destruct (arguments action !! param_name) as [v|]; [|by eexists].
    destruct v; try by eexists.
  - intros scenario action_log tool_name expected_params param_name a Htool Hparam Ha Hname.
    apply (parameters_check_fails scenario action_log).
    intros Hnil.
    apply (flat_map_nil_inv _ _ _ Hnil) in Htool.
    unfold tool_errors in Htool. cbn [fst snd] in Htool.
    assert (a ∈ actions_named tool_name action_log) as Hin
        by (apply list_elem_of_filter; done).
    destruct (actions_named tool_name action_log) as [|b l]; [done|].
    apply (flat_map_nil_inv _ _ _ Htool) in Hin.
    apply (flat_map_nil_inv _ _ _ Hin) in Hparam.
    by apply Herr in Hparam.
Qed.

(** C10 at a sample: the scenario expects [None] and the call passes
    [None]. *)
Lemma C10_none_expected_none_passed :
  status
    (_check_parameters
       (Samples.scenario_of
          (Samples.behavior_of [] [] [("search", [("filter", PNone)])]))
       (Samples.log_of [Samples.call 1 "search" [("filter", PNone)]]))
  = FAIL.
Proof.
  destruct C10_none_is_missing as (_ & _ & H).
  apply (H _ _ "search" [("filter", PNone)] "filter"
           (Samples.call 1 "search" [("filter", PNone)])).
  - vm_compute. left.
  - left.
  - vm_compute. left.
  - reflexivity.
Defined.

(** *** The sequence check (C8) *)

(** C8. [_check_sequence] returns no check exactly when the scenario's
    [sequence_matters] is false; otherwise the status of its check is PASS
    when [expected_sequence] equals the names of the first
    [len(expected_sequence)] actions, and FAIL when it does not. *)
Theorem C8_sequence_check scenario action_log :
  let expected := expected_sequence (expected_behavior scenario) in
  let actual := map function_name (actions action_log) in
  (_check_sequence scenario action_log = None
   <-> sequence_matters (expected_behavior scenario) = false) /\
  (sequence_matters (expected_behavior scenario) = true ->
   exists check,
     _check_sequence scenario action_log = Some check /\
     (status check = PASS <-> expected = take (length expected) actual) /\
     (status check = FAIL <-> expected <> take (length expected) actual)).
Proof.
  intros expected actual. unfold _check_sequence.
  destruct (sequence_matters (expected_behavior scenario)); cbn [negb].
  - split; [split; discriminate|]. intros _.
    eexists. split; [reflexivity|]. cbn [status].
    fold expected actual. case_bool_decide; split; split; done.
  - split; [done|discriminate].
Qed.

(** C8 at a sample: the expected sequence is a prefix of the calls. *)
Lemma C8_sequence_sample :
  exists check,
    _check_sequence Samples.ordered_scenario Samples.ordered_log = Some check
    /\ status check = PASS.
Proof.
  destruct (C8_sequence_check Samples.ordered_scenario Samples.ordered_log) as [_ H].
  destruct (H eq_refl) as (check & Hc & Hpass & _).
  exists check. split; [exact Hc|]. apply Hpass. reflexivity.
Defined.

End ValidationFacts.

(** ** The scoring system *)

Module ScoringFacts.
Import PyFloat ScoringSystem Vocabulary Samples.

(** *** Comparisons of floats *)

Lemma SFcompare_antisym (x y : spec_float) :
  SFcompare y x = option_map CompOpp (SFcompare x y).
Proof.
  destruct x as [sx|sx| |sx mx ex], y as [sy|sy| |sy my ey]; simpl;
    try destruct sx; try destruct sy; try reflexivity;
    rewrite (Z.compare_antisym ex ey); destruct (Z.compare ex ey); simpl; try reflexivity;
    rewrite (Pos.compare_cont_antisym mx my Eq); simpl;
    by rewrite ?CompOpp_involutive.
Qed.

(** [x <= y] is false for two numbers exactly when [y < x]. *)
Lemma leb_false_ltb (x y : spec_float) :
  SFcompare x y <> None -> (leb x y = false <-> ltb y x = true).
Proof.
  unfold leb, ltb, SFleb, SFltb. rewrite (SFcompare_antisym x y).
  destruct (SFcompare x y) as [[]|]; simpl; intros Hc; split; congruence.
Qed.

(** A comparison that holds has two numbers as operands. *)
Lemma leb_true_number (x y : spec_float) : leb x y = true -> x <> S754_nan.
Proof. intros H ->. discriminate H. Qed.

Lemma compare_number_f1_0 (x : spec_float) : x <> S754_nan -> SFcompare x f1_0 <> None.
Proof. destruct x as [s|s| |s m e]; try done; by destruct s. Qed.

(** *** Efficiency (C9) *)

(** The branches of [efficiency_of_ratio], by the position of the ratio. *)
Lemma efficiency_of_ratio_cases (ratio : spec_float) :
  (leb ratio f1_0 = true -> (efficiency_of_ratio ratio).1 = f10_0) /\
  (ltb f1_0 ratio = true -> leb ratio f1_5 = true ->
   (efficiency_of_ratio ratio).1 = f7_0) /\
  (leb ratio f1_0 = false -> ltb f1_0 ratio && leb ratio f1_5 = false ->
   (efficiency_of_ratio ratio).1
   = max0 (sub (of_int 10) (mul (sub ratio (of_int 1)) (of_int 10)))).
Proof.
  unfold efficiency_of_ratio. split; [|split].
  - by intros ->.
  - intros Hlt Hle. rewrite Hle.
    apply leb_true_number in Hle as Hnum.
    apply (leb_false_ltb _ _ (compare_number_f1_0 _ Hnum)) in Hlt. by rewrite Hlt.
  - intros Hgt Hmid. rewrite Hgt.
    destruct (leb ratio f1_5) eqn:Hle; [|done].
    apply leb_true_number in Hle as Hnum.
    apply (leb_false_ltb _ _ (compare_number_f1_0 _ Hnum)) in Hgt.
    by rewrite Hgt in Hmid.
Qed.

Lemma score_efficiency_ratio action_log scenario :
  _score_efficiency action_log scenario
  = ratio ← truediv (total_calls action_log)
              (Z.max 1 (Py.len (required_tools (expected_behavior scenario))));
    mret (mk_subscore (CRITERIA_at "efficiency") (efficiency_of_ratio ratio).1
            (mul (div (efficiency_of_ratio ratio).1 f10_0)
               (criteria_weight (CRITERIA_at "efficiency")))
            (efficiency_of_ratio ratio).2).
Proof.
  unfold _score_efficiency, Py.len.
  assert ((if Z.eqb (Z.of_nat (length (required_tools (expected_behavior scenario)))) 0
           then 1 else Z.of_nat (length (required_tools (expected_behavior scenario))))
          = Z.max 1 (Z.of_nat (length (required_tools (expected_behavior scenario))))) as ->.
  { destruct (Z.eqb_spec (Z.of_nat (length (required_tools (expected_behavior scenario)))) 0);
      lia. }
  destruct (truediv _ _) as [ratio|e]; [|done].
  simpl. by destruct (efficiency_of_ratio ratio).
Qed.

(** C9. With [ratio = total_calls / max(1, len(required_tools))], the
    efficiency subscore has score 10 when [ratio <= 1.0], 7 when
    [1.0 < ratio <= 1.5], and [max(0, 10 - (ratio - 1) * 10)] otherwise;
    when the division raises, so does [_score_efficiency]. With two
    required tools, two calls score 10 and four calls score 0. *)
Theorem C9_efficiency action_log scenario :
  let required := Py.len (required_tools (expected_behavior scenario)) in
  match truediv (total_calls action_log) (Z.max 1 required) with
  | Ok ratio =>
      exists s,
        _score_efficiency action_log scenario = Ok s /\
        (leb ratio f1_0 = true -> score s = f10_0) /\
        (ltb f1_0 ratio = true -> leb ratio f1_5 = true -> score s = f7_0) /\
        (leb ratio f1_0 = false -> ltb f1_0 ratio && leb ratio f1_5 = false ->
         score s = max0 (sub (of_int 10) (mul (sub ratio (of_int 1)) (of_int 10))))
  | Raise e => _score_efficiency action_log scenario = Raise e
  end /\
  (required = 2 -> total_calls action_log = 2 ->
   exists s, _score_efficiency action_log scenario = Ok s /\ score s = of_int 10) /\
  (required = 2 -> total_calls action_log = 4 ->
   exists s, _score_efficiency action_log scenario = Ok s /\ score s = of_int 0).
Proof.
  intros required. subst required. rewrite score_efficiency_ratio.
  split; [|split].
  - destruct (truediv _ _) as [ratio|e]; [|done].
    eexists. split; [reflexivity|]. cbn [score mk_subscore].
    apply efficiency_of_ratio_cases.
  - intros -> ->. eexists. split; vm_compute; reflexivity.
  - intros -> ->. eexists. split; vm_compute; reflexivity.
Qed.

(** C9 at a sample: two required tools and four calls. *)
Lemma C9_four_calls_for_two_tools :
  exists s,
    _score_efficiency
      (Samples.log_of [Samples.call 1 "read_file" []; Samples.call 2 "read_file" [];
                       Samples.call 3 "edit_file" []; Samples.call 4 "edit_file" []])
      (Samples.scenario_of (Samples.behavior_of ["read_file"; "edit_file"] [] []))
    = Ok s /\ score s = of_int 0.
Proof.
  eapply C9_efficiency; reflexivity.
Defined.

(** The division of [_score_efficiency] never has a zero divisor. *)
Lemma score_efficiency_divisor action_log scenario :
  _score_efficiency action_log scenario <> Raise ZeroDivisionError.
Proof.
  rewrite score_efficiency_ratio. unfold truediv.
  destruct (Z.eqb_spec (Z.max 1 (Py.len (required_tools (expected_behavior scenario)))) 0)
    as [E|_]; [lia|].
  by destruct (is_infinity _).
Qed.

(** *** Totals (C4) *)

Lemma score_tool_selection_weighted validation_report scenario :
  weighted_by "tool_selection" (_score_tool_selection validation_report scenario).
Proof.
  unfold weighted_by, _score_tool_selection.
  by destruct (Z.gtb _ 0), (Z.gtb _ 0).
Qed.

Lemma score_parameters_weighted validation_report :
  weighted_by "parameters" (_score_parameters validation_report).
Proof.
  unfold weighted_by, _score_parameters.
  destruct (negb _); [|done].
  destruct (check_details _) as [errors|]; [|done].
  by case_bool_decide.
Qed.

Lemma score_sequence_weighted validation_report scenario :
  weighted_by "sequence" (_score_sequence validation_report scenario).
Proof.
  unfold weighted_by, _score_sequence.
  destruct (sequence_matters _); [|done].
  destruct (sequence_check _) as [check|]; [|done].
  by destruct (negb _).
Qed.

Lemma score_consistency_weighted validation_report :
  weighted_by "consistency" (_score_consistency validation_report).
Proof. done. Qed.

Lemma score_compliance_weighted validation_report :
  weighted_by "compliance" (_score_compliance validation_report).
Proof. done. Qed.

Lemma score_efficiency_weighted action_log scenario s :
  _score_efficiency action_log scenario = Ok s -> weighted_by "efficiency" s.
Proof.
  rewrite score_efficiency_ratio.
  destruct (truediv _ _) as [ratio|e]; [|done].
  intros [= <-]. done.
Qed.

(** C4, as the code has it. For every score [calculate_score] produces,
    the subscores are those of the six criteria in their fixed order, each
    with the weight of its criterion and a weighted score of
    [(score / 10) * weight]; [total] is the sum of the weighted scores
    rounded to two decimals, and [percentile] is ten times that sum (the sum
    before it is rounded), rounded to two decimals. *)
Theorem C4_score_totals validation_report action_log scenario sc :
  calculate_score validation_report action_log scenario = Ok sc ->
  let sum_weighted := sum (map (fun kv => weighted_score kv.2) (subscores sc)) in
  map fst (subscores sc)
  = ["tool_selection"; "parameters"; "sequence"; "consistency"; "compliance"; "efficiency"] /\
  Forall (fun kv => weighted_by kv.1 kv.2) (subscores sc) /\
  total sc = round sum_weighted 2 /\
  percentile sc = round (mul sum_weighted (of_int 10)) 2.
Proof.
  unfold calculate_score.
  destruct (_score_efficiency action_log scenario) as [efficiency|e] eqn:E; [|done].
  intros [= <-]. cbn [subscores total percentile].
  repeat split.
  repeat apply Forall_cons_2; cbn [fst snd]; try apply Forall_nil_2.
  - apply score_tool_selection_weighted.
  - apply score_parameters_weighted.
  - apply score_sequence_weighted.
  - apply score_consistency_weighted.
  - apply score_compliance_weighted.
  - by apply (score_efficiency_weighted action_log scenario).
Qed.

(** C4 at a sample: the score of [five_calls_report]. *)
Lemma C4_five_calls_totals :
  exists sc,
    calculate_score five_calls_report five_calls_log five_calls_scenario = Ok sc /\
    total sc = round (sum (map (fun kv => weighted_score kv.2) (subscores sc))) 2 /\
    percentile sc
    = round (mul (sum (map (fun kv => weighted_score kv.2) (subscores sc))) (of_int 10)) 2.
Proof.
  destruct (calculate_score five_calls_report five_calls_log five_calls_scenario)
    as [sc|e] eqn:E; [|by vm_compute in E].
  exists sc. split; [reflexivity|].
  apply (C4_score_totals _ _ _ _ E).
Defined.

(** C4 fails as stated: the score of [five_calls_report] has total 9.33
    and percentile 93.33, which is not ten times the total. *)
Lemma C4_percentile_is_not_ten_times_total :
  exists sc,
    calculate_score five_calls_report five_calls_log five_calls_scenario = Ok sc /\
    total sc = hundredths 933 /\
    percentile sc = hundredths 9333 /\
    eqb (percentile sc) (mul (total sc) (of_int 10)) = false /\
    ltb (add (mul (total sc) (of_int 10)) (hundredths 2)) (percentile sc) = true.
Proof. eexists. split; [vm_compute; reflexivity|]. repeat split. Qed.

End ScoringFacts.

(** ** The two components on small inputs *)

Module Runs.
Import PyFloat ValidationEngine ScoringSystem Samples.

(** One required tool and no call: the required-tools check fails, the
    report is PARTIAL, tool selection scores 7 and compliance 10. *)
Example missing_required_tool :
  let scenario := scenario_of (behavior_of ["read_file"] [] []) in
  let r := validate 0 scenario (log_of []) (claim_log_of []) in
  status (required_tools_check r) = FAIL /\
  missing (required_tools_check r) = ["read_file"] /\
  pass_fail_status r = PARTIAL /\
  score (_score_tool_selection r scenario) = of_int 7 /\
  score (_score_compliance r) = of_int 10.
Proof. vm_compute. repeat split. Qed.

(** A call of a forbidden tool: the forbidden-tools check and the report
    are FAIL, tool selection and compliance score 0. *)
Example forbidden_tool_called :
  let scenario := scenario_of (behavior_of [] ["run_terminal_command"] []) in
  let r := validate 0 scenario (log_of [call 1 "run_terminal_command" []])
             (claim_log_of []) in
  status (forbidden_tools_check r) = FAIL /\
  pass_fail_status r = FAIL /\
  score (_score_tool_selection r scenario) = of_int 0 /\
  score (_score_compliance r) = of_int 0.
Proof. vm_compute. repeat split. Qed.

(** The expected sequence, called in order: the sequence subscore is 10. *)
Example sequence_in_order :
  let r := validate 0 ordered_scenario ordered_log (claim_log_of []) in
  (status <$> sequence_check r) = Some PASS /\
  score (_score_sequence r ordered_scenario) = of_int 10.
Proof. vm_compute. repeat split. Qed.

(** An explicit claim of a tool that is never called: one HIGH issue, and
    a consistency score of 6. *)
Example one_hallucination :
  let scenario := scenario_of (behavior_of [] [] []) in
  let c := claim_of "I will edit the file" (Some "edit_file") EXPLICIT in
  let r := validate 0 scenario (log_of []) (claim_log_of [c]) in
  hallucinations r = [hallucination_issue c] /\
  high_severity_issues r = 1 /\
  score (_score_consistency r) = of_int 6.
Proof. vm_compute. repeat split. Qed.

(** A call that no claim announces: one MEDIUM issue, and a consistency
    score of 8. *)
Example one_silent_action :
  let scenario := scenario_of (behavior_of [] [] []) in
  let a := call 1 "list_directory" [("path", PStr ".")] in
  let r := validate 0 scenario (log_of [a]) (claim_log_of []) in
  silent_actions r = [silent_action_issue a] /\
  medium_severity_issues r = 1 /\
  score (_score_consistency r) = of_int 8.
Proof. vm_compute. repeat split. Qed.

(** [split] and [join] on the details of a failed parameters check. *)
Example split_details :
  Py.split (Py.join "; " ["a.x: missing"; "Tool b not called"]) ";"%char
  = ["a.x: missing"; " Tool b not called"].
Proof. reflexivity. Qed.

(** A quotient beyond the range of binary64. *)
Example efficiency_overflow :
  let action_log :=
    {| action_scenario_id := None; total_calls := 10 ^ 400; actions := [];
       summary := summary (log_of []) |} in
  _score_efficiency action_log (scenario_of (behavior_of [] [] []))
  = Raise OverflowError.
Proof. vm_compute. reflexivity. Qed.

End Runs.

(** * Further properties of the validation engine *)

Module EngineFacts.
Import ValidationEngine Vocabulary Notions ValidationFacts.

(** ** The two tool checks *)

(** The required-tools check lists every required tool that is not among
    the tools used, once, however often the scenario names it; it passes
    exactly when every required tool is used, and it never fills [extra]. *)
Theorem required_tools_check_lists_the_missing scenario action_log :
  let check := _check_required_tools scenario action_log in
  NoDup (missing check) /\
  (forall t, t ∈ missing check
             <-> t ∈ required_tools (expected_behavior scenario)
                 /\ t ∉ unique_tools_used (summary action_log)) /\
  (status check = PASS
   <-> forall t, t ∈ required_tools (expected_behavior scenario) ->
                 t ∈ unique_tools_used (summary action_log)) /\
  (status check = FAIL <-> missing check <> []) /\
  extra check = [].
Proof.
  intros check. subst check. unfold _check_required_tools. cbn [missing status extra].
  set (m := elements _).
  assert (forall t, t ∈ m
                    <-> t ∈ required_tools (expected_behavior scenario)
                        /\ t ∉ unique_tools_used (summary action_log)) as Hm.
  { intros t. unfold m. rewrite elem_of_elements, elem_of_difference.
    by rewrite elem_of_list_to_set. }
  split; [apply NoDup_elements|]. split; [exact Hm|]. split; [|split; [|done]].
  - destruct m as [|t l] eqn:E.
    + split; [|done]. intros _ t Ht.
      destruct (decide (t ∈ unique_tools_used (summary action_log))) as [|Hn]; [done|].
      exfalso. eapply elem_of_nil, Hm. eauto.
    + split; [done|]. intros Hall. exfalso.
      assert (t ∈ t :: l) as Ht by left. apply Hm in Ht as [Hr Hn]. auto.
  - by destruct m.
Qed.

(** The forbidden-tools check lists every forbidden tool that is among
    the tools used, once; it passes exactly when none is used, and it never
    fills [missing]. *)
Theorem forbidden_tools_check_lists_the_violations scenario action_log :
  let check := _check_forbidden_tools scenario action_log in
  NoDup (extra check) /\
  (forall t, t ∈ extra check
             <-> t ∈ forbidden_tools (expected_behavior scenario)
                 /\ t ∈ unique_tools_used (summary action_log)) /\
  (status check = PASS
   <-> forall t, t ∈ forbidden_tools (expected_behavior scenario) ->
                 t ∉ unique_tools_used (summary action_log)) /\
  (status check = FAIL <-> extra check <> []) /\
  missing check = [].
Proof.
  intros check. subst check. unfold _check_forbidden_tools. cbn [missing status extra].
  set (m := elements _).
  assert (forall t, t ∈ m
                    <-> t ∈ forbidden_tools (expected_behavior scenario)
                        /\ t ∈ unique_tools_used (summary action_log)) as Hm.
  { intros t. unfold m. rewrite elem_of_elements, elem_of_intersection.
    by rewrite elem_of_list_to_set. }
  split; [apply NoDup_elements|]. split; [exact Hm|]. split; [|split; [|done]].
  - destruct m as [|t l] eqn:E.
    + split; [|done]. intros _ t Ht Hu. eapply elem_of_nil, Hm. eauto.
    + split; [done|]. intros Hall. exfalso.
      assert (t ∈ t :: l) as Ht by left. apply Hm in Ht as [Hr Hn]. by apply (Hall t).
  - by destruct m.
Qed.

(** ** The call-count check *)

Ltac use_bounds :=
  repeat match goal with
         | H : forall m, Some ?x = Some m -> _ |- _ => specialize (H _ eq_refl)
         | H : forall m, None = Some m -> _ |- _ => clear H
         end.

(** [_check_call_counts] returns no check exactly when neither bound is
    set. Otherwise the check passes, without details, exactly when the
    number of calls respects the bounds that are set; above the maximum the
    details say "Too many calls", also when the number is below the minimum
    as well; below the minimum and not above the maximum they say "Too few
    calls". *)
Theorem call_count_check_bounds scenario action_log :
  let lo := min_tool_calls (expected_behavior scenario) in
  let hi := max_tool_calls (expected_behavior scenario) in
  let n := total_calls action_log in
  match _check_call_counts scenario action_log with
  | None => lo = None /\ hi = None
  | Some check =>
      (lo <> None \/ hi <> None) /\
      (status check = PASS <-> within lo hi n) /\
      (status check = FAIL <-> ~ within lo hi n) /\
      (check_details check = None <-> within lo hi n) /\
      (forall m, hi = Some m -> m < n ->
                 check_details check
                 = Some ("Too many calls: " +:+ pretty n +:+ " > " +:+ pretty m)) /\
      (forall m, lo = Some m -> n < m -> (forall m', hi = Some m' -> n <= m') ->
                 check_details check
                 = Some ("Too few calls: " +:+ pretty n +:+ " < " +:+ pretty m))
  end.
Proof.
  intros lo hi n. subst lo hi n. unfold _check_call_counts, within.
  destruct (min_tool_calls (expected_behavior scenario)) as [lo|],
    (max_tool_calls (expected_behavior scenario)) as [hi|]; [| | |done];
    cbn [status check_details fst snd];
    repeat match goal with
           | |- context [Z.ltb ?a ?b] => destruct (Z.ltb_spec a b)
           | |- context [Z.gtb ?a ?b] => destruct (Z.gtb_spec a b)
           end;
    cbn [fst snd];
    (split; [auto|]);
    repeat split;
    solve [ done
          | intros; simplify_eq; use_bounds; first [done | lia]
          | intros ? [? ?]; use_bounds; lia
          | intros [? ?]; use_bounds; lia
          | intros Hn; exfalso; apply Hn; split; intros; simplify_eq; lia ].
Qed.

(** ** Severities and the overall status *)

Lemma issues_of_app sev (l1 l2 : list ConsistencyIssue) :
  issues_of sev (l1 ++ l2) = issues_of sev l1 + issues_of sev l2.
Proof. unfold issues_of, Py.len. rewrite filter_app, length_app. lia. Qed.

Lemma issues_of_uniform {X} (h : X -> ConsistencyIssue) (s sev : IssueSeverity) (l : list X) :
  (forall x, severity (h x) = s) ->
  issues_of sev (map h l) = if decide (sev = s) then Py.len l else 0.
Proof.
  intros Hs. unfold issues_of, Py.len.
  induction l as [|x l IH]; simpl; [by destruct (decide _)|].
  rewrite filter_cons, Hs.
  destruct (decide (s = sev)) as [->|Hne].
  - rewrite decide_True in IH |- * by done. simpl length. lia.
  - rewrite decide_False in IH |- * by congruence. done.
Qed.

(** The issues of a report, by severity. *)
Lemma issues_of_report sev claim_log action_log :
  issues_of sev (_detect_hallucinations claim_log action_log
                 ++ _detect_silent_actions action_log claim_log
                 ++ _detect_mismatches claim_log action_log)
  = (if decide (sev = HIGH)
     then Py.len (_detect_hallucinations claim_log action_log) else 0)
    + (if decide (sev = MEDIUM)
       then Py.len (_detect_silent_actions action_log claim_log) else 0).
Proof.
  unfold _detect_mismatches. rewrite app_nil_r, issues_of_app.
  rewrite detect_hallucinations_spec, detect_silent_actions_spec.
  rewrite (issues_of_uniform hallucination_issue HIGH) by done.
  rewrite (issues_of_uniform silent_action_issue MEDIUM) by done.
  unfold Py.len. by rewrite !length_map.
Qed.

Lemma report_counts now scenario action_log claim_log :
  let r := validate now scenario action_log claim_log in
  critical_issues r = penalty (forbidden_tools_check r) /\
  high_severity_issues r
  = Py.len (hallucinations r) + penalty (required_tools_check r) /\
  medium_severity_issues r = Py.len (silent_actions r) /\
  low_severity_issues r = 0.
Proof.
  intros r. subst r. unfold validate, penalty.
  cbn [critical_issues high_severity_issues medium_severity_issues low_severity_issues
       forbidden_tools_check required_tools_check hallucinations silent_actions].
  rewrite !count_severity_filter, !issues_of_report.
  repeat split;
    repeat match goal with
           | |- context [decide (?a = ?b :> IssueSeverity)] =>
               destruct (decide (a = b :> IssueSeverity)); try congruence
           end;
    try lia;
    match goal with
    | |- context [bool_decide (?P)] => destruct (decide P)
    end;
    rewrite ?bool_decide_eq_true_2, ?bool_decide_eq_false_2 by done; lia.
Qed.

(** The counts of a report, by what they count. No detector emits a
    CRITICAL or a LOW issue and [mismatches] is always empty, so
    [critical_issues] is 1 for a failed forbidden-tools check and 0
    otherwise, [high_severity_issues] is the number of hallucinations plus 1
    for a failed required-tools check, [medium_severity_issues] is the number
    of silent actions, [low_severity_issues] is 0, and [total_issues] is the
    number of hallucinations and silent actions. *)
Theorem report_counts_by_detector now scenario action_log claim_log :
  let r := validate now scenario action_log claim_log in
  mismatches r = [] /\
  critical_issues r = penalty (forbidden_tools_check r) /\
  high_severity_issues r
  = Py.len (hallucinations r) + penalty (required_tools_check r) /\
  medium_severity_issues r = Py.len (silent_actions r) /\
  low_severity_issues r = 0 /\
  total_issues r = Py.len (hallucinations r) + Py.len (silent_actions r).
Proof.
  intros r. split; [done|].
  destruct (report_counts now scenario action_log claim_log) as (Hc & Hh & Hm & Hl).
  repeat split; try done.
  subst r. unfold validate. cbn [total_issues hallucinations silent_actions].
  unfold _detect_mismatches, Py.len. rewrite app_nil_r, length_app. lia.
Qed.

(** The status of a report is decided by three things alone: it is FAIL
    exactly when a forbidden tool is among the tools used; otherwise PARTIAL
    exactly when a required tool is not among them or there is a
    hallucination; otherwise PASS. The parameters, sequence and call-count
    checks and the silent actions have no part in it. *)
Theorem status_by_tools_and_hallucinations now scenario action_log claim_log :
  let r := validate now scenario action_log claim_log in
  let forbidden_used :=
    exists t, t ∈ forbidden_tools (expected_behavior scenario)
              /\ t ∈ unique_tools_used (summary action_log) in
  let required_missing :=
    exists t, t ∈ required_tools (expected_behavior scenario)
              /\ t ∉ unique_tools_used (summary action_log) in
  (pass_fail_status r = FAIL <-> forbidden_used) /\
  (pass_fail_status r = PARTIAL
   <-> ~ forbidden_used /\ (required_missing \/ hallucinations r <> [])) /\
  (pass_fail_status r = PASS
   <-> ~ forbidden_used /\ ~ required_missing /\ hallucinations r = []).
Proof.
  intros r forbidden_used required_missing.
  destruct (report_counts now scenario action_log claim_log) as (Hc & Hh & _ & _).
  fold r in Hc, Hh.
  pose proof (forbidden_check_fail scenario action_log) as Hf.
  pose proof (required_check_fail scenario action_log) as Hr.
  fold forbidden_used in Hf. fold required_missing in Hr.
  change (_check_forbidden_tools scenario action_log) with (forbidden_tools_check r) in Hf.
  change (_check_required_tools scenario action_log) with (required_tools_check r) in Hr.
  assert (pass_fail_status r
          = _determine_overall_status (critical_issues r) (high_severity_issues r)
              (required_tools_check r) (forbidden_tools_check r)) as -> by reflexivity.
  rewrite Hc, Hh. unfold _determine_overall_status, penalty, Py.len.
  clear Hc Hh. destruct (hallucinations r) as [|i l]; simpl length;
    destruct (decide (status (forbidden_tools_check r) = FAIL)) as [Ef|Ef],
      (decide (status (required_tools_check r) = FAIL)) as [Er|Er];
    rewrite ?(bool_decide_eq_true_2 _ Ef), ?(bool_decide_eq_false_2 _ Ef),
      ?(bool_decide_eq_true_2 _ Er), ?(bool_decide_eq_false_2 _ Er);
    repeat match goal with
           | |- context [Z.gtb ?a ?b] => destruct (Z.gtb_spec a b)
           end;
    cbn [orb]; try lia;
    intuition (try lia; try congruence).
Qed.

Lemma determine_status_pass critical_count high_count required_check forbidden_check :
  _determine_overall_status critical_count high_count required_check forbidden_check = PASS ->
  status forbidden_check <> FAIL /\ status required_check <> FAIL.
Proof.
  unfold _determine_overall_status.
  destruct (Z.gtb critical_count 0), (Z.gtb high_count 0); cbn [orb]; try done;
    repeat case_bool_decide; done.
Qed.

Lemma required_and_forbidden_never_passes
    now scenario action_log claim_log (t : string) :
  t ∈ required_tools (expected_behavior scenario) ->
  t ∈ forbidden_tools (expected_behavior scenario) ->
  pass_fail_status (validate now scenario action_log claim_log) <> PASS.
Proof.
  intros Hr Hf Hpass.
  apply determine_status_pass in Hpass as [Hnf Hnr].
  destruct (decide (t ∈ unique_tools_used (summary action_log))) as [Hu|Hu].
  - apply Hnf, forbidden_check_fail. eauto.
  - apply Hnr, required_check_fail. eauto.
Qed.

Lemma names_of_calls (l : list string) :
  map function_name (map (fun t => Samples.call 1 t []) l) = l.
Proof. induction l as [|t l IH]; [done|]. simpl. by rewrite IH. Qed.

Lemma disjoint_scenario_passes scenario :
  (forall t, t ∈ required_tools (expected_behavior scenario) ->
             t ∉ forbidden_tools (expected_behavior scenario)) ->
  exists now action_log claim_log,
    pass_fail_status (validate now scenario action_log claim_log) = PASS.
Proof.
  intros Hdisjoint.
  set (action_log :=
         Samples.log_of
           (map (fun t => Samples.call 1 t []) (required_tools (expected_behavior scenario)))).
  set (claim_log := Samples.claim_log_of []).
  exists 0, action_log, claim_log.
  assert (forall t, t ∈ unique_tools_used (summary action_log)
                    <-> t ∈ required_tools (expected_behavior scenario)) as Hused.
  { intros t. unfold action_log, Samples.log_of. cbn [summary unique_tools_used].
    by rewrite names_of_calls, elem_of_list_to_set. }
  assert (status (_check_forbidden_tools scenario action_log) <> FAIL) as Hf.
  { rewrite forbidden_check_fail. intros (t & Ht & Hu). apply Hused in Hu.
    by apply (Hdisjoint t). }
  assert (status (_check_required_tools scenario action_log) <> FAIL) as Hr.
  { rewrite required_check_fail. intros (t & Ht & Hu). by apply Hu, Hused. }
  destruct (report_counts 0 scenario action_log claim_log) as (Hc & Hh & _ & _).
  assert (pass_fail_status (validate 0 scenario action_log claim_log)
          = _determine_overall_status
              (critical_issues (validate 0 scenario action_log claim_log))
              (high_severity_issues (validate 0 scenario action_log claim_log))
              (_check_required_tools scenario action_log)
              (_check_forbidden_tools scenario action_log)) as -> by reflexivity.
  rewrite Hc, Hh. unfold penalty.
  change (forbidden_tools_check (validate 0 scenario action_log claim_log))
    with (_check_forbidden_tools scenario action_log).
  change (required_tools_check (validate 0 scenario action_log claim_log))
    with (_check_required_tools scenario action_log).
  change (hallucinations (validate 0 scenario action_log claim_log))
    with (@nil ConsistencyIssue).
  unfold _determine_overall_status.
  rewrite !decide_False by done. rewrite !bool_decide_eq_false_2 by done.
  reflexivity.
Qed.

(** A scenario can get a PASS report exactly when it names no tool both
    as required and as forbidden. With such a tool no log passes: the tool is
    either used, and forbidden, or not used, and missing. Without one, the
    log that calls every required tool once, with no claim made, passes. *)
Theorem pass_attainable_iff_disjoint scenario :
  (exists now action_log claim_log,
     pass_fail_status (validate now scenario action_log claim_log) = PASS)
  <-> (forall t, t ∈ required_tools (expected_behavior scenario) ->
                 t ∉ forbidden_tools (expected_behavior scenario)).
Proof.
  split.
  - intros (now & action_log & claim_log & Hpass) t Hr Hf.
    by apply (required_and_forbidden_never_passes now scenario action_log claim_log t).
  - apply disjoint_scenario_passes.
Qed.

(** ** What the two detectors report *)

Lemma hallucination_inv claim_log action_log i :
  i ∈ _detect_hallucinations claim_log action_log ->
  exists c, c ∈ explicit_claims claim_log /\ i = hallucination_issue c
            /\ hallucinated action_log c.
Proof.
  rewrite detect_hallucinations_spec, list_elem_of_fmap.
  intros (c & -> & Hc). apply list_elem_of_filter in Hc as [Hh Hc]. eauto.
Qed.

Lemma silent_action_inv action_log claim_log j :
  j ∈ _detect_silent_actions action_log claim_log ->
  exists a, a ∈ actions action_log /\ j = silent_action_issue a
            /\ function_name a ∉ claimed_tools claim_log.
Proof.
  rewrite detect_silent_actions_spec, list_elem_of_fmap.
  intros (a & -> & Ha). apply list_elem_of_filter in Ha as [Hn Ha]. eauto.
Qed.

(** A tool that is called is never reported as hallucinated; a tool that a
    claim infers (a non-empty name) is never reported as called silently; and
    no tool is reported by both detectors. *)
Theorem detectors_spare_matched_tools claim_log action_log :
  (forall i a, i ∈ _detect_hallucinations claim_log action_log ->
               a ∈ actions action_log ->
               expected_tool i <> Some (function_name a)) /\
  (forall j c t, j ∈ _detect_silent_actions action_log claim_log ->
                 c ∈ claims claim_log -> inferred_tool c = Some t -> t <> "" ->
                 action j <> Some t) /\
  (forall i j, i ∈ _detect_hallucinations claim_log action_log ->
               j ∈ _detect_silent_actions action_log claim_log ->
               expected_tool i <> action j).
Proof.
  assert (forall i a, i ∈ _detect_hallucinations claim_log action_log ->
                      a ∈ actions action_log ->
                      expected_tool i <> Some (function_name a)) as Hcalled.
  { intros i a Hi Ha.
    apply hallucination_inv in Hi as (c & _ & -> & Hh).
    cbn [expected_tool hallucination_issue]. unfold hallucinated in Hh.
    destruct (inferred_tool c) as [t|]; [|done].
    destruct Hh as [_ Hall]. rewrite Forall_forall in Hall.
    intros [= ->]. by apply (Hall a). }
  split; [exact Hcalled|]. split.
  - intros j c t Hj Hc Ht Hne.
    apply silent_action_inv in Hj as (a & _ & -> & Hn).
    cbn [action silent_action_issue]. intros [= Heq]. rewrite Heq in Hn.
    apply Hn, claimed_tools_spec. eauto.
  - intros i j Hi Hj.
    apply silent_action_inv in Hj as (a & Ha & -> & _).
    cbn [action silent_action_issue]. by apply Hcalled.
Qed.

(** The detectors on empty inputs. Without claims every action is
    reported as silent; without actions none is, and every entry of
    [explicit_claims] that infers a tool is reported as hallucinated;
    without explicit claims there is no hallucination. Neither detector
    reports more issues than it reads entries. *)
Theorem detectors_on_empty_inputs claim_log action_log :
  (claims claim_log = [] ->
   _detect_silent_actions action_log claim_log
   = map silent_action_issue (actions action_log)) /\
  (actions action_log = [] ->
   _detect_silent_actions action_log claim_log = [] /\
   _detect_hallucinations claim_log action_log
   = map hallucination_issue
       (filter (fun c => Py.truthy (inferred_tool c) = true) (explicit_claims claim_log))) /\
  (explicit_claims claim_log = [] -> _detect_hallucinations claim_log action_log = []) /\
  (length (_detect_hallucinations claim_log action_log)
   <= length (explicit_claims claim_log))%nat /\
  (length (_detect_silent_actions action_log claim_log)
   <= length (actions action_log))%nat.
Proof.
  rewrite detect_hallucinations_spec, detect_silent_actions_spec.
  split; [|split; [|split; [|split]]].
  - intros Hc. f_equal.
    induction (actions action_log) as [|a l IH]; [done|].
    rewrite filter_cons_True, IH; [done|].
    rewrite claimed_tools_spec, Hc. intros (_ & c & Hin & _). by apply elem_of_nil in Hin.
  - intros Ha. rewrite Ha. split; [done|]. f_equal.
    induction (explicit_claims claim_log) as [|c l IH]; [done|].
    rewrite !filter_cons, IH.
    assert (hallucinated action_log c <-> Py.truthy (inferred_tool c) = true) as Hiff.
    { unfold hallucinated, Py.truthy. rewrite Ha.
      destruct (inferred_tool c) as [t|]; [|done].
      case_bool_decide; simpl; split; try done; try by intros [? _]. }
    destruct (decide (hallucinated action_log c)) as [H|H],
      (decide (Py.truthy (inferred_tool c) = true)) as [H'|H']; try done; tauto.
  - by intros ->.
  - rewrite length_map. apply length_filter.
  - rewrite length_map. apply length_filter.
Qed.

End EngineFacts.

(** * Rounding in binary64

    What the scorer needs of the rounding of [SpecFloat]: when a quotient of
    two integers is finite, and the sign of a difference. *)

Module FloatFacts.
Import Notions.

Lemma digits2_pos_size p : digits2_pos p = Pos.size p.
Proof. induction p; simpl; congruence. Qed.

Lemma Zdigits2_pos p : Zdigits2 (Zpos p) = Z.log2 (Zpos p) + 1.
Proof.
  simpl. rewrite digits2_pos_size.
  destruct p; simpl; lia.
Qed.

Lemma Zdigits2_nonneg m : 0 <= Zdigits2 m.
Proof. destruct m; simpl; lia. Qed.

Lemma Zdigits2_le m n : 0 <= m <= n -> Zdigits2 m <= Zdigits2 n.
Proof.
  intros [Hm Hn]. destruct m as [|p|p]; [apply Zdigits2_nonneg| |lia].
  destruct n as [|q|q]; try lia.
  rewrite !Zdigits2_pos. pose proof (Z.log2_le_mono (Zpos p) (Zpos q)). lia.
Qed.

Lemma Zdigits2_succ m : 0 <= m -> Zdigits2 (m + 1) <= Zdigits2 m + 1.
Proof.
  intros Hm. destruct m as [|p|p]; [simpl; lia| |lia].
  change (Zpos p + 1) with (Z.succ (Zpos p)).
  assert (exists q, Z.succ (Zpos p) = Zpos q) as [q Hq] by (exists (Pos.succ p); lia).
  rewrite Hq, !Zdigits2_pos, <- Hq.
  pose proof (Z.log2_succ_le (Zpos p)). lia.
Qed.

Lemma Zdigits2_shiftl p s : 0 <= s -> Zdigits2 (Z.shiftl (Zpos p) s) = Zdigits2 (Zpos p) + s.
Proof.
  intros Hs. rewrite Z.shiftl_mul_pow2 by done.
  assert (0 < Zpos p * 2 ^ s) as Hpos by (apply Z.mul_pos_pos; [lia|apply Z.pow_pos_nonneg; lia]).
  destruct (Zpos p * 2 ^ s) as [|q|q] eqn:E; try lia.
  rewrite !Zdigits2_pos, <- E, Z.log2_mul_pow2 by lia. lia.
Qed.

Lemma shr_1_digits mrs :
  0 <= shr_m mrs ->
  0 <= shr_m (shr_1 mrs) /\
  Zdigits2 (shr_m (shr_1 mrs)) = Z.max 0 (Zdigits2 (shr_m mrs) - 1).
Proof.
  destruct mrs as [m r s]. cbn [shr_m]. intros Hm.
  destruct m as [|[p|p|]|p]; cbn [shr_1 shr_m Zdigits2 digits2_pos];
    rewrite ?Pos2Z.inj_succ; lia.
Qed.

Lemma iter_shr_1_digits p : forall mrs,
  0 <= shr_m mrs ->
  0 <= shr_m (SpecFloat.iter_pos shr_1 p mrs) /\
  Zdigits2 (shr_m (SpecFloat.iter_pos shr_1 p mrs)) = Z.max 0 (Zdigits2 (shr_m mrs) - Zpos p).
Proof.
  induction p as [p IH|p IH|]; intros mrs Hm; simpl SpecFloat.iter_pos.
  - destruct (shr_1_digits mrs Hm) as [H1 E1].
    destruct (IH _ H1) as [H2 E2]. destruct (IH _ H2) as [H3 E3].
    split; [done|]. rewrite E3, E2, E1. pose proof (Zdigits2_nonneg (shr_m mrs)). lia.
  - destruct (IH _ Hm) as [H2 E2]. destruct (IH _ H2) as [H3 E3].
    split; [done|]. rewrite E3, E2. pose proof (Zdigits2_nonneg (shr_m mrs)). lia.
  - apply shr_1_digits, Hm.
Qed.

Lemma shr_record_of_loc_m m l : shr_m (shr_record_of_loc m l) = m.
Proof. by destruct l as [|[]]. Qed.

Lemma round_nearest_even_bounds m l :
  0 <= m -> m <= round_nearest_even m l <= m + 1.
Proof. intros Hm. destruct l as [|[]]; simpl; try destruct (Z.even m); lia. Qed.

(** What [shr_fexp] does to the exponent and to the number of digits. *)
Lemma shr_fexp_bounds prec emax m e l mrs e' :
  0 <= m ->
  shr_fexp prec emax m e l = (mrs, e') ->
  0 <= shr_m mrs /\
  e' = Z.max e (fexp prec emax (Zdigits2 m + e)) /\
  Zdigits2 (shr_m mrs) + e' <= Z.max e' (Zdigits2 m + e).
Proof.
  intros Hm. unfold shr_fexp, shr.
  destruct (fexp prec emax (Zdigits2 m + e) - e) as [|p|p] eqn:En;
    intros [= <- <-]; rewrite ?shr_record_of_loc_m.
  - repeat split; lia.
  - destruct (iter_shr_1_digits p (shr_record_of_loc m l)) as [H1 E1];
      [by rewrite shr_record_of_loc_m|].
    rewrite shr_record_of_loc_m in E1. rewrite E1. repeat split; lia.
  - repeat split; lia.
Qed.

Lemma binary_round_aux_finite sx mx ex lx :
  0 <= mx -> ex <= 971 -> Zdigits2 mx + ex <= 1023 ->
  match binary_round_aux 53 1024 sx mx ex lx with
  | S754_infinity _ => False
  | _ => True
  end.
Proof.
  intros Hm He Hd. unfold binary_round_aux.
  destruct (shr_fexp 53 1024 mx ex lx) as [mrs' e'] eqn:E1.
  destruct (shr_fexp_bounds _ _ _ _ _ _ _ Hm E1) as (Hm' & He' & Hd').
  pose proof (round_nearest_even_bounds (shr_m mrs') (loc_of_shr_record mrs') Hm') as Hr.
  set (m1 := round_nearest_even (shr_m mrs') (loc_of_shr_record mrs')) in *.
  destruct (shr_fexp 53 1024 m1 e' loc_Exact) as [mrs'' e''] eqn:E2.
  assert (0 <= m1) as Hm1 by lia.
  destruct (shr_fexp_bounds _ _ _ _ _ _ _ Hm1 E2) as (Hm'' & He'' & _).
  assert (Zdigits2 m1 <= Zdigits2 (shr_m mrs') + 1) as Hd1.
  { etransitivity; [apply (Zdigits2_le m1 (shr_m mrs' + 1)); lia|].
    by apply Zdigits2_succ. }
  unfold fexp, emin in He', He''.
  destruct (shr_m mrs''); [done| |done].
  destruct (Z.leb_spec e'' (1024 - 53)); [done|lia].
Qed.

Lemma div_eucl_digits m d q r :
  0 <= m -> 0 < d -> Z.div_eucl m d = (q, r) -> 0 <= q /\ Zdigits2 q <= Zdigits2 m.
Proof.
  intros Hm Hd E. pose proof (Z_div_mod m d ltac:(lia)) as H. rewrite E in H.
  assert (0 <= q <= m) as Hq by nia.
  split; [lia|]. by apply Zdigits2_le.
Qed.

Lemma SFdiv_finite sx mx sy my :
  Zpos mx < 2 ^ 1023 ->
  match SFdiv 53 1024 (S754_finite sx mx 0) (S754_finite sy my 0) with
  | S754_infinity _ => False
  | _ => True
  end.
Proof.
  intros Hlt.
  assert (Zdigits2 (Zpos mx) <= 1023) as Hd1.
  { rewrite Zdigits2_pos. pose proof (proj1 (Z.log2_lt_pow2 (Zpos mx) 1023 ltac:(lia)) Hlt). lia. }
  unfold SFdiv, SFdiv_core_binary.
  set (e' := Z.min _ _). set (s := _ - e').
  assert (e' <= 0) as He' by (unfold e'; lia).
  assert (s = - e') as Hs by (unfold s; lia).
  set (m' := match s with Z0 => Zpos mx | Zpos _ => Z.shiftl (Zpos mx) s | Zneg _ => 0 end).
  assert (0 <= m' /\ Zdigits2 m' = Zdigits2 (Zpos mx) + s) as [Hm' Hdm'].
  { unfold m'. destruct s as [|p|p] eqn:Es; [lia| |lia].
    rewrite Zdigits2_shiftl by lia. split; [|done].
    rewrite Z.shiftl_mul_pow2 by lia. apply Z.mul_nonneg_nonneg; [lia|].
    apply Z.pow_nonneg. lia. }
  destruct (Z.div_eucl m' (Zpos my)) as [q r] eqn:E.
  destruct (div_eucl_digits _ _ _ _ Hm' (Pos2Z.is_pos my) E) as [Hq Hdq].
  apply binary_round_aux_finite; lia.
Qed.

Lemma Zdigits2_lt m n : 0 <= m -> 0 <= n -> Zdigits2 m < Zdigits2 n -> m < n.
Proof.
  intros Hm Hn Hd. destruct (Z.lt_ge_cases m n) as [|Hle]; [done|].
  pose proof (Zdigits2_le n m). lia.
Qed.

Lemma digits2_pos_iter_xO p d :
  Zpos (digits2_pos (Pos.iter xO p d)) = Zpos (digits2_pos p) + Zpos d.
Proof.
  induction d as [|d IH] using Pos.peano_ind.
  - simpl. lia.
  - rewrite Pos.iter_succ. cbn [digits2_pos]. lia.
Qed.

Lemma shl_align_digits mx ex ez :
  ez <= ex ->
  Zpos (digits2_pos (shl_align mx ex ez).1) = Zpos (digits2_pos mx) + ex - ez.
Proof.
  intros Hle. unfold shl_align.
  destruct (ez - ex) as [|d|d] eqn:E; cbn [fst]; [lia|lia|].
  rewrite digits2_pos_iter_xO. lia.
Qed.

Lemma shr_fexp_exact m e l mrs e' :
  0 < m -> -1021 <= Zdigits2 m + e ->
  shr_fexp 53 1024 m e l = (mrs, e') ->
  0 < shr_m mrs /\ Zdigits2 (shr_m mrs) + e' = Zdigits2 m + e.
Proof.
  intros Hm Hd. unfold shr_fexp, shr, fexp, emin.
  destruct (Z.max (Zdigits2 m + e - 53) (3 - 1024 - 53) - e) as [|p|p] eqn:En;
    intros [= <- <-]; rewrite ?shr_record_of_loc_m; [done| |done].
  destruct (iter_shr_1_digits p (shr_record_of_loc m l)) as [H1 E1];
    [rewrite shr_record_of_loc_m; lia|].
  rewrite shr_record_of_loc_m in E1.
  assert (Zdigits2 (shr_m (SpecFloat.iter_pos shr_1 p (shr_record_of_loc m l))) = 53) as E53 by lia.
  split; [|lia].
  destruct (shr_m (SpecFloat.iter_pos shr_1 p (shr_record_of_loc m l))); simpl in E53; lia.
Qed.

Lemma binary_round_aux_signed sx mx ex lx :
  0 <= mx -> signed sx (binary_round_aux 53 1024 sx mx ex lx).
Proof.
  intros Hm. unfold binary_round_aux.
  destruct (shr_fexp 53 1024 mx ex lx) as [mrs' e'] eqn:E1.
  destruct (shr_fexp_bounds _ _ _ _ _ _ _ Hm E1) as (Hm' & _ & _).
  pose proof (round_nearest_even_bounds (shr_m mrs') (loc_of_shr_record mrs') Hm') as Hr.
  set (m1 := round_nearest_even (shr_m mrs') (loc_of_shr_record mrs')) in *.
  destruct (shr_fexp 53 1024 m1 e' loc_Exact) as [mrs'' e''] eqn:E2.
  assert (0 <= m1) as Hm1 by lia.
  destruct (shr_fexp_bounds _ _ _ _ _ _ _ Hm1 E2) as (Hm'' & _ & _).
  destruct (shr_m mrs''); [done| |lia].
  by destruct (Z.leb e'' (1024 - 53)).
Qed.

Lemma binary_round_aux_beyond sx mx ex lx d :
  0 < mx -> -1021 <= Zdigits2 mx + ex -> d < Zdigits2 mx + ex ->
  beyond d (binary_round_aux 53 1024 sx mx ex lx).
Proof.
  intros Hm Hd Hb. unfold binary_round_aux.
  destruct (shr_fexp 53 1024 mx ex lx) as [mrs' e'] eqn:E1.
  destruct (shr_fexp_exact _ _ _ _ _ Hm Hd E1) as (Hm' & Hd').
  assert (0 <= shr_m mrs') as Hm0 by lia.
  pose proof (round_nearest_even_bounds (shr_m mrs') (loc_of_shr_record mrs') Hm0) as Hr.
  set (m1 := round_nearest_even (shr_m mrs') (loc_of_shr_record mrs')) in *.
  destruct (shr_fexp 53 1024 m1 e' loc_Exact) as [mrs'' e''] eqn:E2.
  assert (0 < m1) as Hm1 by lia.
  assert (Zdigits2 (shr_m mrs') <= Zdigits2 m1) as Hd1 by (apply Zdigits2_le; lia).
  assert (-1021 <= Zdigits2 m1 + e') as Hd2 by lia.
  destruct (shr_fexp_exact _ _ _ _ _ Hm1 Hd2 E2) as (Hm'' & Hd'').
  destruct (shr_m mrs'') as [|m|m] eqn:Em; [lia| |lia].
  destruct (Z.leb e'' (1024 - 53)); [|done].
  simpl in Hd''. simpl. lia.
Qed.

Lemma binary_round_signed sx mx ex : signed sx (binary_round 53 1024 sx mx ex).
Proof.
  unfold binary_round. destruct (shl_align _ _ _) as [mz ez].
  by apply binary_round_aux_signed.
Qed.

Lemma shl_align_sum mx ex ez mz ez' :
  shl_align mx ex ez = (mz, ez') ->
  Zpos (digits2_pos mz) + ez' = Zpos (digits2_pos mx) + ex.
Proof.
  unfold shl_align.
  destruct (ez - ex) as [|d|d] eqn:E; intros [= <- <-]; [done|done|].
  rewrite digits2_pos_iter_xO. lia.
Qed.

Lemma binary_round_beyond sx mx ex d :
  -1021 <= Zpos (digits2_pos mx) + ex -> d < Zpos (digits2_pos mx) + ex ->
  beyond d (binary_round 53 1024 sx mx ex).
Proof.
  intros Hd Hb. unfold binary_round.
  destruct (shl_align _ _ _) as [mz ez] eqn:E.
  apply shl_align_sum in E.
  apply binary_round_aux_beyond; cbn [Zdigits2]; lia.
Qed.

(** Subtracting a larger number: the difference is a number below zero. *)
Lemma SFsub_beyond mx ex y :
  signed false y -> beyond (Zpos (digits2_pos mx) + ex) y ->
  signed true (SFsub 53 1024 (S754_finite false mx ex) y).
Proof.
  destruct y as [sy|sy| |sy my ey]; cbn [SFsub signed beyond]; try done.
  - by intros ->.
  - intros -> Hb. cbn [cond_Zopp].
    match goal with |- context [shl_align mx ex ?z] => set (ez := z) end.
    assert (ez <= ex /\ ez <= ey) as [Hex Hey]
        by (change ez with (Z.min ex ey); lia).
    pose proof (shl_align_digits mx ex ez Hex) as Hx.
    pose proof (shl_align_digits my ey ez Hey) as Hy.
    pose proof (Zdigits2_lt (Zpos (shl_align mx ex ez).1) (Zpos (shl_align my ey ez).1)) as Hlt.
    cbn [Zdigits2] in Hlt.
    destruct (Zpos (shl_align mx ex ez).1 - Zpos (shl_align my ey ez).1)
      as [|q|q] eqn:E; [lia|lia|].
    apply binary_round_signed.
Qed.

(** Subtracting a number that is not below zero from one that is. *)
Lemma SFsub_signed x y :
  signed true x -> signed false y -> signed true (SFsub 53 1024 x y).
Proof.
  destruct x as [sx|sx| |sx mx ex], y as [sy|sy| |sy my ey]; cbn [SFsub signed]; try done;
    intros -> ->; try done.
  cbn [cond_Zopp].
  match goal with
  | |- signed true (binary_normalize _ _ ?z _ _) => destruct z as [|q|q] eqn:E
  end; [lia|lia|].
  apply binary_round_signed.
Qed.

End FloatFacts.

(** * Further properties of the scoring system *)

Module ScorerFacts.
Import PyFloat ValidationEngine ScoringSystem Vocabulary Samples Notions ValidationFacts
  FloatFacts.

(** ** The parameters subscore *)

Lemma split_go_length c s cur :
  length (Py.split_go c s cur) = S (occurrences c s).
Proof.
  revert cur. induction s as [|a s IH]; intros cur; simpl; [done|].
  destruct (Ascii.eqb a c); simpl; by rewrite IH.
Qed.

Lemma occurrences_append c s1 s2 :
  occurrences c (s1 +:+ s2) = (occurrences c s1 + occurrences c s2)%nat.
Proof. induction s1 as [|a s1 IH]; simpl; [done|]. rewrite IH. lia. Qed.

Lemma occurrences_join (l : list string) :
  l <> [] ->
  S (occurrences ";" (Py.join "; " l))
  = (length l + sum_list (map (occurrences ";") l))%nat.
Proof.
  unfold Py.join. induction l as [|x l IH]; [done|]. intros _.
  destruct l as [|y l].
  - simpl. lia.
  - change (String.concat "; " (x :: y :: l))
      with (x +:+ "; " +:+ String.concat "; " (y :: l)).
    rewrite !occurrences_append.
    specialize (IH ltac:(done)). simpl in *. lia.
Qed.

(** Cutting the joined errors at the semicolons. *)
Lemma split_join_segments (l : list string) :
  l <> [] -> Py.len (Py.split (Py.join "; " l) ";"%char) = segments l.
Proof.
  intros Hl. unfold Py.len, Py.split, segments.
  by rewrite split_go_length, occurrences_join.
Qed.

Lemma append_nonempty (s1 s2 : string) : s2 <> "" -> s1 +:+ s2 <> "".
Proof. by destruct s1. Qed.

Lemma join_nonempty sep (x : string) (l : list string) :
  x <> "" -> Py.join sep (x :: l) <> "".
Proof. unfold Py.join. destruct x; [done|]. by destruct l. Qed.

(** No error of the parameters check is the empty text. *)
Lemma parameter_errors_nonempty scenario action_log e :
  e ∈ parameter_errors scenario action_log -> e <> "".
Proof.
  rewrite parameter_errors_spec, list_elem_of_In, in_flat_map.
  intros ([tool_name params] & _ & He). revert He.
  unfold tool_errors. cbn [fst snd].
  destruct (actions_named tool_name action_log) as [|a l].
  { intros [<-|[]]. done. }
  rewrite in_flat_map. intros (b & _ & He). apply in_flat_map in He as ([p v] & _ & He).
  revert He. unfold parameter_error. cbn [fst snd].
  destruct (arguments b !! p) as [w|].
  - destruct w; try destruct (Py.eq _ v); simpl;
      intros He; repeat destruct He as [<-|He]; try done;
      by apply append_nonempty.
  - intros [<-|[]]. by apply append_nonempty.
Qed.

(** The parameters subscore of a report of [validate] is 10 when the check
    found no error. Otherwise the scorer cuts the joined errors at every
    semicolon and takes 3 points for each segment: one for each error, and
    one more for every semicolon inside the text of an error (in the name
    of a tool or of a parameter, or in a value). *)
Theorem parameters_score_counts_segments now scenario action_log claim_log :
  let r := validate now scenario action_log claim_log in
  let errors := parameter_errors scenario action_log in
  (errors = [] ->
   score (_score_parameters r) = of_int 10 /\
   subscore_explanation (_score_parameters r) = "All parameters correct") /\
  (errors <> [] ->
   score (_score_parameters r) = of_int (Z.max 0 (10 - segments errors * 3)) /\
   subscore_explanation (_score_parameters r)
   = pretty (segments errors) +:+ " parameter error(s)") /\
  (Forall (fun e => occurrences ";" e = 0%nat) errors ->
   segments errors = Py.len errors).
Proof.
  intros r errors. split; [|split].
  - intros He. subst r errors. unfold _score_parameters, validate, _check_parameters.
    cbn [parameters_check status check_details]. by rewrite He.
  - intros He.
    pose proof (parameter_errors_nonempty scenario action_log) as Hne.
    pose proof (split_join_segments errors He) as Hseg.
    subst r errors. unfold _score_parameters, validate, _check_parameters.
    cbn [parameters_check status check_details].
    destruct (parameter_errors scenario action_log) as [|e l]; [done|].
    cbn [status_value]. rewrite bool_decide_eq_false_2 by done. cbn [negb].
    rewrite bool_decide_eq_false_2 by (apply join_nonempty, Hne; left).
    rewrite Hseg. done.
  - intros Hall. unfold segments, Py.len. f_equal.
    induction Hall as [|e l He _ IH]; [done|]. simpl in *. lia.
Qed.

(** ** Forbidden tools in the scores *)

Lemma forbidden_extra_positive scenario action_log :
  Z.gtb (Py.len (extra (_check_forbidden_tools scenario action_log))) 0 = true
  <-> exists t, t ∈ forbidden_tools (expected_behavior scenario)
                /\ t ∈ unique_tools_used (summary action_log).
Proof.
  rewrite <- forbidden_check_fail. unfold _check_forbidden_tools. cbn [extra status].
  destruct (elements _) as [|t l]; [done|].
  split; [done|]. intros _. apply Z.gtb_gt. unfold Py.len. simpl length. lia.
Qed.

(** In the score of a report of [validate], the use of a forbidden tool
    sets the compliance and the tool-selection scores, and their weighted
    scores, to 0, whatever else the model did; without it compliance scores
    10. *)
Theorem forbidden_tool_zeroes_two_scores now scenario action_log claim_log :
  let r := validate now scenario action_log claim_log in
  let forbidden_used :=
    exists t, t ∈ forbidden_tools (expected_behavior scenario)
              /\ t ∈ unique_tools_used (summary action_log) in
  (forbidden_used ->
   score (_score_compliance r) = of_int 0 /\
   weighted_score (_score_compliance r) = of_int 0 /\
   score (_score_tool_selection r scenario) = of_int 0 /\
   weighted_score (_score_tool_selection r scenario) = of_int 0) /\
  (~ forbidden_used -> score (_score_compliance r) = of_int 10).
Proof.
  intros r forbidden_used.
  pose proof (forbidden_extra_positive scenario action_log) as Hpos.
  fold forbidden_used in Hpos.
  change (_check_forbidden_tools scenario action_log) with (forbidden_tools_check r) in Hpos.
  unfold _score_compliance, _score_tool_selection.
  destruct (Z.gtb (Py.len (extra (forbidden_tools_check r))) 0).
  - split; [|intros Hn; exfalso; apply Hn, Hpos; done].
    intros _. by destruct (Z.gtb _ 0).
  - split; [intros Hu; apply Hpos in Hu; done|done].
Qed.

(** ** The sequence subscore *)

(** The sequence subscore of a report of [validate] is 5 when the
    sequence matters and the expected sequence is not a prefix of the calls,
    and 10 otherwise. For any report, it is 10 when the report holds no
    sequence check, also for a scenario whose sequence matters. *)
Theorem sequence_score_of_report now scenario action_log claim_log :
  let r := validate now scenario action_log claim_log in
  let expected := expected_sequence (expected_behavior scenario) in
  let in_order := expected = take (length expected) (map function_name (actions action_log)) in
  (sequence_matters (expected_behavior scenario) = true /\ ~ in_order ->
   score (_score_sequence r scenario) = of_int 5) /\
  (sequence_matters (expected_behavior scenario) = false \/ in_order ->
   score (_score_sequence r scenario) = of_int 10) /\
  (forall validation_report,
     sequence_check validation_report = None ->
     score (_score_sequence validation_report scenario) = of_int 10).
Proof.
  intros r expected in_order. subst r expected in_order.
  unfold _score_sequence, validate, _check_sequence. cbn [sequence_check].
  destruct (sequence_matters (expected_behavior scenario)); cbn [negb status status_value].
  - destruct (decide (expected_sequence (expected_behavior scenario)
                      = take (length (expected_sequence (expected_behavior scenario)))
                          (map function_name (actions action_log)))) as [Hin|Hin].
    + rewrite (bool_decide_eq_true_2 _ Hin). cbn [status status_value].
      split; [by intros [_ ?]|]. split; [by intros _|]. by intros vr ->.
    + rewrite (bool_decide_eq_false_2 _ Hin). cbn [status status_value].
      split; [by intros _|]. split; [by intros [?|?]|]. by intros vr ->.
  - split; [by intros [? _]|]. split; [by intros _|]. by intros vr _.
Qed.

(** ** The explanation *)

(** [_generate_explanation] writes one line for every subscore below 7, in
    the order of the subscores, joined by "; ", and the fixed sentence when
    no subscore is below 7. *)
Theorem explanation_lists_low_subscores subscores validation_report :
  let low := filter (fun kv => ltb (score kv.2) f7_0 = true) subscores in
  _generate_explanation subscores validation_report
  = match low with
    | [] => "Excellent performance across all criteria"
    | _ => Py.join "; " (map explanation_line low)
    end.
Proof.
  intros low. subst low. unfold _generate_explanation.
  rewrite (fold_left_append _
             (fun kv => if decide (ltb (score kv.2) f7_0 = true)
                        then [explanation_line kv] else [])).
  - rewrite (flat_map_filter (fun kv => ltb (score kv.2) f7_0 = true) explanation_line).
    by destruct (filter _ subscores).
  - intros acc [key s]. cbn [snd].
    destruct (ltb (score s) f7_0) eqn:E.
    + by rewrite decide_True.
    + rewrite decide_False by done. by rewrite app_nil_r.
Qed.

(** ** Exceptions *)

(** [calculate_score] raises nothing but the [OverflowError] of the
    division of [total_calls] by the number of required tools, and never
    divides by zero: without required tools the divisor is 1. It returns a
    score exactly when that division has a result. *)
Theorem calculate_score_raises_overflow_only validation_report action_log scenario :
  let divisor := Z.max 1 (Py.len (required_tools (expected_behavior scenario))) in
  match truediv (total_calls action_log) divisor with
  | Ok _ => exists sc, calculate_score validation_report action_log scenario = Ok sc
  | Raise e =>
      e = OverflowError /\
      calculate_score validation_report action_log scenario = Raise OverflowError
  end.
Proof.
  intros divisor. unfold calculate_score.
  rewrite ScoringFacts.score_efficiency_ratio. fold divisor.
  unfold truediv.
  destruct (Z.eqb_spec divisor 0) as [E|_]; [unfold divisor in E; lia|].
  destruct (is_infinity _); [done|]. by eexists.
Qed.

(** ** Grades *)

Lemma leb_trans (x y z : spec_float) :
  leb x y = true -> leb y z = true -> leb x z = true.
Proof.
  unfold leb, SFleb, SFcompare.
  destruct x as [sx|sx| |sx mx ex], y as [sy|sy| |sy my ey], z as [sz|sz| |sz mz ez];
    try destruct sx; try destruct sy; try destruct sz; try done;
    change (Pos.compare_cont Eq) with Pos.compare;
    destruct (Z.compare_spec ex ey), (Z.compare_spec ey ez), (Z.compare_spec ex ez);
    try lia; try done; subst;
    destruct (Pos.compare_spec mx my), (Pos.compare_spec my mz), (Pos.compare_spec mx mz);
    try lia; done.
Qed.

(** A total that is at least another total, as floats compare, never gets
    a lower grade. *)
Theorem grade_is_monotone (t1 t2 : spec_float) :
  leb t1 t2 = true -> rank (_assign_grade t1) <= rank (_assign_grade t2).
Proof.
  intros Hle.
  assert (forall c, leb c t1 = true -> leb c t2 = true) as Hup
      by (intros c Hc; by apply (leb_trans c t1 t2)).
  unfold _assign_grade.
  pose proof (Hup f9_0) as H9. pose proof (Hup f8_0) as H8. pose proof (Hup f7_0) as H7.
  pose proof (Hup f6_0) as H6. pose proof (Hup f5_0) as H5.
  destruct (leb f9_0 t1), (leb f9_0 t2), (leb f8_0 t1), (leb f8_0 t2),
    (leb f7_0 t1), (leb f7_0 t2), (leb f6_0 t1), (leb f6_0 t2),
    (leb f5_0 t1), (leb f5_0 t2);
    cbn [rank]; try lia;
    first [ by specialize (H9 eq_refl) | by specialize (H8 eq_refl)
          | by specialize (H7 eq_refl) | by specialize (H6 eq_refl)
          | by specialize (H5 eq_refl) ].
Qed.

(** [grade_is_monotone] at a sample: 8.5 and 9. *)
Lemma grade_is_monotone_sample :
  rank (_assign_grade (hundredths 850)) <= rank (_assign_grade (of_int 9)).
Proof. apply grade_is_monotone. reflexivity. Defined.

(** ** Penalties and the floor at zero *)

Lemma table (f : Z -> bool) n :
  forallb f (seqZ 0 n) = true -> forall k, 0 <= k < n -> f k = true.
Proof.
  intros H k Hk. rewrite forallb_forall in H. apply H.
  apply list_elem_of_In, elem_of_seqZ. lia.
Qed.

Lemma of_int_signed k : 0 <= k -> signed false (of_int k).
Proof.
  intros Hk. unfold of_int, binary_normalize.
  destruct k as [|p|p]; [done| |lia]. apply binary_round_signed.
Qed.

Lemma of_int_beyond k : 16 <= k -> beyond 4 (of_int k).
Proof.
  intros Hk. unfold of_int, binary_normalize. destruct k as [|p|p]; try lia.
  pose proof (Zdigits2_pos p) as Hd. cbn [Zdigits2] in Hd.
  assert (4 <= Z.log2 (Zpos p)) by (apply Z.log2_le_pow2; lia).
  apply binary_round_beyond; lia.
Qed.

Lemma max0_signed x : signed true x -> max0 x = of_int 0.
Proof.
  unfold max0. destruct x as [s|s| |s m e]; cbn [signed]; try done; by intros ->.
Qed.

(** A number of 16 or more taken from a number below 16 leaves a number
    below zero. *)
Lemma sub_below_16 x y :
  below_16 x = true -> signed false y -> beyond 4 y -> signed true (sub x y).
Proof.
  intros Hx Hy Hb. destruct x as [sx|sx| |sx mx ex]; try done.
  - destruct y as [sy|sy| |sy my ey]; try done; cbn [signed] in Hy; by subst sy.
  - destruct sx.
    + by apply SFsub_signed.
    + apply SFsub_beyond; [done|]. cbn [below_16] in Hx. apply Z.leb_le in Hx.
      destruct y as [sy|sy| |sy my ey]; cbn [beyond] in *; try done; lia.
Qed.

Lemma minus_penalty k :
  0 <= k -> max0 (sub f10_0 (of_int k)) = of_int (Z.max 0 (10 - k)).
Proof.
  intros Hk. destruct (Z.lt_ge_cases k 16) as [Hlt|Hge].
  - assert (forallb (fun k => bool_decide
                       (max0 (sub f10_0 (of_int k)) = of_int (Z.max 0 (10 - k))))
              (seqZ 0 16) = true) as T by (vm_compute; reflexivity).
    apply table with (k := k) in T; [|lia].
    by apply bool_decide_eq_true_1 in T.
  - rewrite max0_signed; [f_equal; lia|].
    apply sub_below_16; [vm_compute; reflexivity|by apply of_int_signed|by apply of_int_beyond].
Qed.

Lemma minus_two_penalties a b :
  0 <= a -> 0 <= b ->
  max0 (sub (sub f10_0 (of_int a)) (of_int b)) = of_int (Z.max 0 (10 - a - b)).
Proof.
  intros Ha Hb. destruct (Z.lt_ge_cases a 16) as [Hlta|Hgea].
  - destruct (Z.lt_ge_cases b 16) as [Hltb|Hgeb].
    + assert (forallb (fun a => forallb
                         (fun b => bool_decide
                            (max0 (sub (sub f10_0 (of_int a)) (of_int b))
                             = of_int (Z.max 0 (10 - a - b)))) (seqZ 0 16))
                (seqZ 0 16) = true) as T by (vm_compute; reflexivity).
      apply table with (k := a) in T; [|lia].
      apply table with (k := b) in T; [|lia].
      by apply bool_decide_eq_true_1 in T.
    + rewrite max0_signed; [f_equal; lia|].
      apply sub_below_16; [|by apply of_int_signed|by apply of_int_beyond].
      apply (table (fun a => below_16 (sub f10_0 (of_int a))) 16);
        [vm_compute; reflexivity|lia].
  - rewrite max0_signed; [f_equal; lia|].
    apply SFsub_signed; [|by apply of_int_signed].
    apply sub_below_16; [vm_compute; reflexivity|by apply of_int_signed|by apply of_int_beyond].
Qed.

(** The penalties are exact and the scores stop at zero. The tool selection
    score is 0 with a forbidden-tool violation and otherwise 10 less 3 for
    every missing required tool, but not below 0; the consistency score is
    10 less 4 for every hallucination and 2 for every silent action, but not
    below 0. *)
Theorem penalty_scores_floor_at_zero validation_report scenario :
  let n := Py.len (missing (required_tools_check validation_report)) in
  let v := Py.len (extra (forbidden_tools_check validation_report)) in
  let h := Py.len (hallucinations validation_report) in
  let s := Py.len (silent_actions validation_report) in
  score (_score_tool_selection validation_report scenario)
  = of_int (if Z.gtb v 0 then 0 else Z.max 0 (10 - 3 * n)) /\
  score (_score_consistency validation_report)
  = of_int (Z.max 0 (10 - 4 * h - 2 * s)).
Proof.
  intros n v h s. split.
  - unfold _score_tool_selection. fold n v.
    assert (0 <= n) as Hn by (unfold n, Py.len; lia).
    destruct (Z.gtb_spec n 0) as [Hpos|Hzero], (Z.gtb v 0); cbn [score mk_subscore].
    + reflexivity.
    + rewrite minus_penalty by lia. f_equal; lia.
    + reflexivity.
    + replace n with 0 by lia. reflexivity.
  - unfold _score_consistency. fold h s. cbn [score mk_subscore].
    rewrite minus_two_penalties by (unfold h, s, Py.len; lia). f_equal; lia.
Qed.

(** ** Scores that are returned *)

Lemma truediv_returns a b :
  Z.abs a < 2 ^ 1023 -> b <> 0 -> exists q, truediv a b = Ok q.
Proof.
  intros Ha Hb. unfold truediv. destruct (Z.eqb_spec b 0) as [|_]; [done|].
  assert (is_infinity (div (exact_int a) (exact_int b)) = false) as ->; [|by eexists].
  destruct a as [|p|p], b as [|q|q]; try done; cbn [exact_int];
    match goal with
    | |- is_infinity (div (S754_finite ?sx _ _) (S754_finite ?sy _ _)) = false =>
        pose proof (SFdiv_finite sx p sy q ltac:(lia)) as H
    end;
    unfold div, prec, emax; by destruct (SFdiv _ _ _ _).
Qed.

(** [calculate_score] returns a score for every action log with fewer than
    [2 ^ 1023] calls in [total_calls]: the division of the efficiency
    criterion then has a quotient in the range of the floats. *)
Theorem calculate_score_returns validation_report action_log scenario :
  Z.abs (total_calls action_log) < 2 ^ 1023 ->
  exists sc, calculate_score validation_report action_log scenario = Ok sc.
Proof.
  intros Hcalls. unfold calculate_score.
  rewrite ScoringFacts.score_efficiency_ratio.
  destruct (truediv_returns (total_calls action_log)
              (Z.max 1 (Py.len (required_tools (expected_behavior scenario)))))
    as [ratio ->]; [done|lia|].
  by eexists.
Qed.

Lemma calculate_score_returns_sample :
  exists sc, calculate_score five_calls_report five_calls_log five_calls_scenario = Ok sc.
Proof.
  apply calculate_score_returns. vm_compute. reflexivity.
Defined.

End ScorerFacts.

(** * Properties of the action tracker *)

Module TrackerFacts.
Import ActionTracker Notions.

(** ** Counters *)

Lemma count_one_lookup (t k : string) (counts : list (string * Z)) :
  (list_to_map (count_one t counts) : gmap string Z) !! k
  = if decide (k = t)
    then Some (default 0 ((list_to_map counts : gmap string Z) !! t) + 1)
    else (list_to_map counts : gmap string Z) !! k.
Proof.
  induction counts as [|[k0 n] counts IH]; simpl.
  - destruct (decide (k = t)) as [->|Hne].
    + by rewrite lookup_insert_eq, lookup_empty.
    + by rewrite lookup_insert_ne.
  - destruct (decide (k0 = t)) as [->|Hk0]; simpl.
    + destruct (decide (k = t)) as [->|Hne].
      * by rewrite !lookup_insert_eq.
      * by rewrite !lookup_insert_ne.
    + destruct (decide (k = k0)) as [->|Hkk0].
      * rewrite !lookup_insert_eq. by rewrite decide_False.
      * rewrite !lookup_insert_ne by done. rewrite IH.
        by destruct (decide (k = t)).
Qed.

Lemma count_one_keys (t : string) (counts : list (string * Z)) :
  (count_one t counts).*1
  = if decide (t ∈ counts.*1) then counts.*1 else counts.*1 ++ [t].
Proof.
  induction counts as [|[k0 n] counts IH].
  - destruct (decide _) as [Hin|_]; [|done]. by apply elem_of_nil in Hin.
  - cbn [count_one]. destruct (decide (k0 = t)) as [->|Hk0].
    + destruct (decide (t ∈ ((t, n) :: counts).*1)) as [_|Hn]; [reflexivity|].
      exfalso. apply Hn. left.
    + rewrite fmap_cons, IH. cbn [fst].
      destruct (decide (t ∈ counts.*1)) as [Hin|Hin],
        (decide (t ∈ ((k0, n) :: counts).*1)) as [Hin'|Hin']; try reflexivity.
      * exfalso. apply Hin'. by right.
      * rewrite fmap_cons in Hin'. apply elem_of_cons in Hin' as [?|?]; simplify_eq/=; done.
Qed.

Lemma count_one_NoDup (t : string) (counts : list (string * Z)) :
  NoDup counts.*1 -> NoDup (count_one t counts).*1.
Proof.
  intros Hnd. rewrite count_one_keys. destruct (decide _) as [|Hin]; [done|].
  apply NoDup_app. split; [done|]. split.
  - intros x Hx Hxt. apply list_elem_of_singleton in Hxt as ->. done.
  - apply NoDup_singleton.
Qed.

Lemma times_cons (t x : string) (names : list string) :
  times t (x :: names) = (if decide (x = t) then 1 else 0) + times t names.
Proof.
  unfold times, Py.len. rewrite filter_cons.
  destruct (decide (x = t)); simpl length; lia.
Qed.

Lemma times_nonneg t names : 0 <= times t names.
Proof. unfold times, Py.len. lia. Qed.

Lemma counter_acc (names : list string) (counts : list (string * Z)) (t : string) :
  NoDup counts.*1 ->
  let counts' := fold_left (fun counts t => count_one t counts) names counts in
  NoDup counts'.*1 /\
  (list_to_map counts' : gmap string Z) !! t
  = if decide (times t names = 0) then (list_to_map counts : gmap string Z) !! t
    else Some (default 0 ((list_to_map counts : gmap string Z) !! t) + times t names).
Proof.
  revert counts. induction names as [|x names IH]; intros counts Hnd; cbn [fold_left].
  - split; [done|]. destruct (decide (times t [] = 0)) as [_|Hn]; done.
  - destruct (IH (count_one x counts) (count_one_NoDup x counts Hnd)) as [Hnd' Hl].
    split; [exact Hnd'|]. cbv zeta in Hl. rewrite Hl, count_one_lookup, times_cons.
    pose proof (times_nonneg t names).
    destruct (decide (x = t)) as [->|Hx].
    + rewrite (decide_True (P := t = t)) by done.
      destruct (decide (times t names = 0)) as [E|E],
        (decide (1 + times t names = 0)) as [E'|E']; try lia.
      * rewrite E. by rewrite Z.add_0_r.
      * simpl. by rewrite Z.add_assoc.
    + rewrite (decide_False (P := t = x)) by congruence.
      destruct (decide (times t names = 0)) as [E|E],
        (decide (0 + times t names = 0)) as [E'|E']; try lia; done.
Qed.

(** A counter has one entry for every name that occurs, with the number
    of its occurrences. *)
Lemma Counter_spec (names : list string) :
  NoDup (Counter names).*1 /\
  forall t, (list_to_map (Counter names) : gmap string Z) !! t
            = if decide (times t names = 0) then None else Some (times t names).
Proof.
  unfold Counter. split.
  - apply (counter_acc names [] "" (NoDup_nil_2)).
  - intros t. destruct (counter_acc names [] t (NoDup_nil_2)) as [_ ->].
    simpl. rewrite lookup_empty. destruct (decide _); [done|]. simpl. f_equal; lia.
Qed.

Lemma times_map_function_name (t : string) (l : list Action) :
  times t (map function_name l)
  = Py.len (filter (fun a => function_name a = t) l).
Proof.
  unfold times, Py.len. f_equal.
  induction l as [|a l IH]; [done|].
  simpl map. rewrite !filter_cons. destruct (decide (function_name a = t)); simpl; by rewrite IH.
Qed.

(** ** Logs built by [extract_actions] *)

Lemma extract_actions_actions response :
  actions (extract_actions response) = map action_of_call (function_calls response).
Proof.
  unfold extract_actions. cbn [actions].
  rewrite (fold_left_append _ (fun c => [action_of_call c])) by done.
  induction (function_calls response) as [|c l IH]; [done|]. simpl in *. by rewrite IH.
Qed.

(** In a log built by [extract_actions] the summary agrees with the
    actions: the log records one action for every function call, in order;
    [get_tool_count] is the number of actions [find_actions_by_tool]
    finds, 0 for a tool that was not called; and [has_tool] holds exactly
    for the tools with at least one action. *)
Theorem tracker_summary_agrees_with_actions response (t : string) :
  let log := extract_actions response in
  actions log = map action_of_call (function_calls response) /\
  total_calls log = Py.len (function_calls response) /\
  get_tool_count log t = Py.len (find_actions_by_tool log t) /\
  (has_tool log t = true <-> find_actions_by_tool log t <> []) /\
  (has_tool log t = true <-> 0 < get_tool_count log t).
Proof.
  intros log.
  assert (get_tool_count log t = Py.len (find_actions_by_tool log t)) as Hcount.
  { unfold get_tool_count, find_actions_by_tool, log, extract_actions, _generate_summary.
    cbn [summary tool_call_counts actions].
    destruct (Counter_spec (map function_name
                (fold_left
                   (fun actions func_call =>
                      actions ++ [{| sequence_number := fc_sequence_number func_call;
                                     function_name := fc_name func_call;
                                     arguments := fc_arguments func_call;
                                     action_timestamp := None;
                                     call_id := fc_id func_call |}])
                   (function_calls response) []))) as [_ ->].
    rewrite times_map_function_name.
    destruct (decide _) as [E|E]; [by rewrite E|done]. }
  assert (has_tool log t = true <-> find_actions_by_tool log t <> []) as Hhas.
  { unfold has_tool, find_actions_by_tool.
    rewrite bool_decide_eq_true.
    unfold log at 1, extract_actions, _generate_summary. cbn [summary unique_tools_used].
    fold (actions log).
    rewrite elem_of_list_to_set, list_elem_of_fmap. split.
    - intros (a & -> & Ha) Hnil.
      eapply (filter_nil_not_elem_of _ _ a); [exact Hnil|done|].
      exact Ha.
    - destruct (filter _ _) as [|a l] eqn:E; [done|]. intros _.
      assert (a ∈ filter (fun a => function_name a = t) (actions log)) as Ha
          by (rewrite E; left).
      apply list_elem_of_filter in Ha as [Hn Ha]. eauto. }
  split; [apply extract_actions_actions|]. split.
  { change (total_calls log) with (Py.len (actions (extract_actions response))).
    rewrite extract_actions_actions. unfold Py.len. by rewrite length_map. }
  split; [exact Hcount|]. split; [exact Hhas|].
  rewrite Hhas, Hcount. unfold Py.len.
  destruct (find_actions_by_tool log t); simpl length; split; try done; lia.
Qed.

(** [tools_called_multiple_times] of a log built by [extract_actions]
    names, once each, exactly the tools with two calls or more. *)
Theorem tools_called_multiple_times_spec response :
  let log := extract_actions response in
  NoDup (tools_called_multiple_times (summary log)) /\
  forall t, t ∈ tools_called_multiple_times (summary log)
            <-> 2 <= Py.len (find_actions_by_tool log t).
Proof.
  intros log. unfold find_actions_by_tool.
  unfold log at 1 2, extract_actions, _generate_summary.
  cbn [summary tools_called_multiple_times]. fold (actions log).
  destruct (Counter_spec (map function_name (actions log))) as [Hnd Hlook].
  unfold counted_twice. split.
  - apply (sublist_NoDup _ (Counter (map function_name (actions log))).*1); [exact Hnd|].
    apply fmap_sublist, sublist_filter.
  - intros t. rewrite <- times_map_function_name, list_elem_of_fmap. split.
    + intros ([k n] & -> & Hin). apply list_elem_of_filter in Hin as [Hn Hin].
      cbn [fst snd] in *.
      apply (elem_of_list_to_map (M := gmap string)) in Hin; [|done].
      rewrite Hlook in Hin. destruct (decide _); simplify_eq. lia.
    + intros Hge. exists (t, times t (map function_name (actions log))).
      split; [done|]. apply list_elem_of_filter. cbn [snd]. split; [lia|].
      apply (elem_of_list_to_map (M := gmap string)); [done|].
      rewrite Hlook. rewrite decide_False by lia. done.
Qed.

Lemma total_of_count_one (t : string) (counts : list (string * Z)) :
  total_of (count_one t counts).*2 = total_of counts.*2 + 1.
Proof.
  unfold total_of. induction counts as [|[k n] counts IH]; [done|].
  cbn [count_one]. destruct (decide (k = t)); rewrite !fmap_cons; cbn [foldr snd];
    [lia|rewrite IH; lia].
Qed.

Lemma total_of_Counter (names : list string) :
  total_of (Counter names).*2 = Py.len names.
Proof.
  unfold Counter, Py.len.
  assert (forall counts,
            total_of (fold_left (fun counts t => count_one t counts) names counts).*2
            = total_of counts.*2 + Z.of_nat (length names)) as H.
  { induction names as [|x names IH]; intros counts; simpl; [lia|].
    rewrite IH, total_of_count_one. lia. }
  rewrite H. simpl. lia.
Qed.

Lemma total_of_Permutation (l1 l2 : list Z) : l1 ≡ₚ l2 -> total_of l1 = total_of l2.
Proof. unfold total_of. induction 1; simpl; lia. Qed.

(** The counts of [tool_call_counts] of a log built by [extract_actions]
    add up to [total_calls]. *)
Theorem tool_call_counts_add_up response :
  let log := extract_actions response in
  total_of (map_to_list (tool_call_counts (summary log))).*2 = total_calls log.
Proof.
  intros log. unfold log, extract_actions, _generate_summary.
  cbn [summary tool_call_counts total_calls].
  set (acts := fold_left _ _ _).
  destruct (Counter_spec (map function_name acts)) as [Hnd _].
  rewrite (total_of_Permutation _ (Counter (map function_name acts)).*2).
  - rewrite total_of_Counter. unfold Py.len. by rewrite length_map.
  - apply fmap_Permutation. by apply map_to_list_to_map.
Qed.

(** ** Merged logs *)

Ltac arith_eq := repeat first [ done | lia | progress f_equal ].

Lemma renumber_all (l acc : list Action) (n : Z) :
  fold_left renumber l (acc, n) = (acc ++ renumbered l n, n + Py.len l).
Proof.
  unfold Py.len. revert acc n. induction l as [|a l IH]; intros acc n.
  - cbn [fold_left renumbered length]. rewrite app_nil_r. arith_eq.
  - cbn [fold_left renumber renumbered]. rewrite IH, <- app_assoc. cbn [app length].
    arith_eq.
Qed.

Lemma renumbered_app (l1 l2 : list Action) (n : Z) :
  renumbered (l1 ++ l2) n = renumbered l1 n ++ renumbered l2 (n + Py.len l1).
Proof.
  unfold Py.len. revert n. induction l1 as [|a l1 IH]; intros n; simpl.
  - arith_eq.
  - rewrite IH. arith_eq.
Qed.

Lemma renumber_logs (logs : list ActionLog) (acc : list Action) (n : Z) :
  fold_left (fun st log => fold_left renumber (actions log) st) logs (acc, n)
  = (acc ++ renumbered (concat (map actions logs)) n,
     n + Py.len (concat (map actions logs))).
Proof.
  revert acc n. induction logs as [|log logs IH]; intros acc n.
  - cbn [fold_left map concat renumbered]. rewrite app_nil_r.
    unfold Py.len. simpl. arith_eq.
  - cbn [fold_left map concat]. rewrite renumber_all, IH, renumbered_app, <- app_assoc.
    unfold Py.len. rewrite length_app. arith_eq.
Qed.

Lemma renumbered_twice (l : list Action) (n m : Z) :
  renumbered (renumbered l n) m = renumbered l m.
Proof. revert n m. induction l as [|a l IH]; intros n m; simpl; [done|]. by rewrite IH. Qed.

Lemma renumbered_fields (l : list Action) (n : Z) :
  map sequence_number (renumbered l n) = seqZ n (Py.len l) /\
  map function_name (renumbered l n) = map function_name l /\
  map arguments (renumbered l n) = map arguments l /\
  map call_id (renumbered l n) = map call_id l.
Proof.
  unfold Py.len. revert n. induction l as [|a l IH]; intros n.
  - by rewrite seqZ_nil.
  - destruct (IH (n + 1)) as (H1 & H2 & H3 & H4).
    cbn [renumbered map sequence_number function_name arguments call_id].
    rewrite H1, H2, H3, H4. repeat split.
    rewrite (seqZ_cons n) by (simpl length; lia).
    do 2 f_equal; simpl length; lia.
Qed.

Lemma merge_action_logs_eq (logs : list ActionLog) :
  merge_action_logs logs = log_around (renumbered (concat (map actions logs)) 1).
Proof. unfold merge_action_logs. by rewrite renumber_logs. Qed.

(** [merge_action_logs] concatenates the actions of the logs in order and
    numbers them 1, 2, ... anew, keeping their names, arguments and call
    identifiers; [total_calls] is the number of merged actions, whatever the
    [total_calls] of the logs say; the merged log belongs to no scenario;
    and merging a merged log again changes nothing. *)
Theorem merge_action_logs_renumbers (logs : list ActionLog) :
  let all_actions := concat (map actions logs) in
  let merged := merge_action_logs logs in
  map sequence_number (actions merged) = seqZ 1 (Py.len all_actions) /\
  map function_name (actions merged) = map function_name all_actions /\
  map arguments (actions merged) = map arguments all_actions /\
  map call_id (actions merged) = map call_id all_actions /\
  total_calls merged = Py.len all_actions /\
  action_scenario_id merged = None /\
  merge_action_logs [merged] = merged.
Proof.
  intros all_actions merged. subst merged.
  rewrite !merge_action_logs_eq. fold all_actions.
  destruct (renumbered_fields all_actions 1) as (H1 & H2 & H3 & H4).
  cbn [actions log_around total_calls action_scenario_id].
  repeat split; try done.
  - unfold Py.len. f_equal.
    rewrite <- (length_map function_name), H2. by rewrite length_map.
  - cbn [map concat actions log_around]. by rewrite app_nil_r, renumbered_twice.
Qed.

Lemma renumbered_last (l : list Action) (n : Z) :
  sequence_number <$> last (renumbered l n)
  = if decide (l = []) then None else Some (n + Py.len l - 1).
Proof.
  unfold Py.len. revert n. induction l as [|a l IH]; intros n; [done|].
  cbn [renumbered]. destruct l as [|b l].
  - simpl. f_equal. lia.
  - change (renumbered (b :: l) (n + 1))
      with ({| sequence_number := n + 1; function_name := function_name b;
               arguments := arguments b; action_timestamp := action_timestamp b;
               call_id := call_id b |} :: renumbered l (n + 1 + 1)) in *.
    rewrite last_cons_cons.
    specialize (IH (n + 1)). cbn [renumbered] in IH. rewrite IH.
    rewrite decide_False by done. rewrite decide_False by done.
    f_equal. simpl length. lia.
Qed.

(** In a merged log, [get_first_action] and [get_last_action] return the
    actions numbered 1 and [total_calls]; both return nothing exactly when
    no merged log has an action. *)
Theorem merged_log_first_and_last (logs : list ActionLog) :
  let merged := merge_action_logs logs in
  match get_first_action merged, get_last_action merged with
  | Some a, Some b =>
      sequence_number a = 1 /\ sequence_number b = total_calls merged
      /\ 0 < total_calls merged
  | None, None => total_calls merged = 0 /\ Forall (fun log => actions log = []) logs
  | _, _ => False
  end.
Proof.
  intros merged. subst merged. rewrite merge_action_logs_eq.
  unfold get_first_action, get_last_action. cbn [actions log_around total_calls].
  pose proof (renumbered_last (concat (map actions logs)) 1) as Hlast.
  destruct (concat (map actions logs)) as [|a l] eqn:E.
  - cbn [renumbered]. split; [done|].
    clear -E. induction logs as [|log logs IH]; [done|].
    cbn [map concat] in E. apply app_eq_nil in E as [E1 E2]. auto.
  - rewrite decide_False in Hlast by done.
    cbn [renumbered] in *.
    destruct (last _) as [b|]; [|done].
    cbn [fmap option_fmap option_map] in Hlast. injection Hlast as Hb.
    cbn [sequence_number]. split; [done|]. unfold Py.len in *.
    simpl length in *. rewrite <- (length_map function_name (renumbered l (1 + 1))).
    destruct (renumbered_fields l (1 + 1)) as (_ & -> & _).
    rewrite length_map. lia.
Qed.

(** ** The validation engine on tracked calls *)

Lemma tracked_tool_used response (t : string) :
  t ∈ unique_tools_used (summary (extract_actions response))
  <-> exists c, c ∈ function_calls response /\ fc_name c = t.
Proof.
  unfold extract_actions, _generate_summary. cbn [summary unique_tools_used].
  fold (actions (extract_actions response)).
  change (fold_left _ (function_calls response) [])
    with (actions (extract_actions response)).
  rewrite extract_actions_actions, elem_of_list_to_set, list_elem_of_fmap.
  split.
  - intros (a & -> & Ha). apply list_elem_of_fmap in Ha as (c & -> & Hc). eauto.
  - intros (c & Hc & <-). exists (action_of_call c). split; [done|].
    apply list_elem_of_fmap. eauto.
Qed.

(** On the log [extract_actions] builds from a response, the
    required-tools check passes exactly when every required tool is the name
    of some function call of the response, and the forbidden-tools check
    passes exactly when no function call bears a forbidden name. *)
Theorem tool_checks_on_tracked_calls scenario response :
  let log := extract_actions response in
  (status (ValidationEngine._check_required_tools scenario log) = PASS
   <-> forall t, t ∈ required_tools (expected_behavior scenario) ->
                 exists c, c ∈ function_calls response /\ fc_name c = t) /\
  (status (ValidationEngine._check_forbidden_tools scenario log) = PASS
   <-> forall c, c ∈ function_calls response ->
                 fc_name c ∉ forbidden_tools (expected_behavior scenario)).
Proof.
  intros log. split.
  - pose proof (ValidationFacts.required_check_fail scenario log) as Hfail.
    assert (status (ValidationEngine._check_required_tools scenario log) = PASS
            <-> status (ValidationEngine._check_required_tools scenario log) <> FAIL) as ->.
    { unfold ValidationEngine._check_required_tools. cbn [status].
      by destruct (elements _). }
    rewrite Hfail. split.
    + intros Hn t Ht. apply tracked_tool_used.
      destruct (decide (t ∈ unique_tools_used (summary log))); [done|].
      exfalso. apply Hn. eauto.
    + intros Hall (t & Ht & Hn). apply Hn, tracked_tool_used. auto.
  - pose proof (ValidationFacts.forbidden_check_fail scenario log) as Hfail.
    assert (status (ValidationEngine._check_forbidden_tools scenario log) = PASS
            <-> status (ValidationEngine._check_forbidden_tools scenario log) <> FAIL) as ->.
    { unfold ValidationEngine._check_forbidden_tools. cbn [status].
      by destruct (elements _). }
    rewrite Hfail. split.
    + intros Hn c Hc Hf. apply Hn. exists (fc_name c). split; [done|].
      apply tracked_tool_used. eauto.
    + intros Hall (t & Ht & Hu). apply tracked_tool_used in Hu as (c & Hc & <-).
      by apply (Hall c).
Qed.

End TrackerFacts.

(** * Properties of the claim extractor *)

Module ExtractorFacts.
Import ClaimExtractor Notions Vocabulary.

(** ** Deduplication *)

Lemma deduplicate_acc (l : list Claim) seen (acc : list Claim) :
  snd (fold_left
         (fun (st : gset (option string * option string * option string) * list Claim) c =>
            let '(seen, unique_claims) := st in
            let key := claim_key c in
            if bool_decide (key ∉ seen)
            then (seen ∪ {[key]}, unique_claims ++ [c])
            else (seen, unique_claims))
         l (seen, acc))
  = acc ++ first_of_key seen l.
Proof.
  revert seen acc. induction l as [|c l IH]; intros seen acc.
  - cbn [fold_left first_of_key snd]. by rewrite app_nil_r.
  - cbn [fold_left first_of_key].
    destruct (decide (claim_key c ∈ seen)) as [Hin|Hin].
    + rewrite bool_decide_eq_false_2 by (intros ?; done). by rewrite IH.
    + rewrite bool_decide_eq_true_2 by done. by rewrite IH, <- app_assoc.
Qed.

Lemma deduplicate_claims_eq (l : list Claim) :
  _deduplicate_claims l = first_of_key ∅ l.
Proof. unfold _deduplicate_claims. by rewrite deduplicate_acc. Qed.

Lemma first_of_key_fresh seen l c :
  c ∈ first_of_key seen l -> (claim_key c ∉ seen) /\ c ∈ l.
Proof.
  revert seen. induction l as [|x l IH]; intros seen; cbn [first_of_key].
  - intros H. by apply elem_of_nil in H.
  - destruct (decide (claim_key x ∈ seen)) as [Hin|Hin].
    + intros H. apply IH in H as [H1 H2]. split; [done|by right].
    + intros H. apply elem_of_cons in H as [->|H]; [split; [done|left]|].
      apply IH in H as [H1 H2]. split; [|by right].
      intros Hs. apply H1, elem_of_union. by left.
Qed.

Lemma first_of_key_NoDup seen l : NoDup (map claim_key (first_of_key seen l)).
Proof.
  revert seen. induction l as [|x l IH]; intros seen; cbn [first_of_key].
  - apply NoDup_nil_2.
  - destruct (decide (claim_key x ∈ seen)) as [Hin|Hin]; [apply IH|].
    cbn [map]. apply NoDup_cons. split; [|apply IH].
    intros Hx. apply list_elem_of_fmap in Hx as (c & Hk & Hc).
    apply first_of_key_fresh in Hc as [Hc _].
    apply Hc, elem_of_union. right. by apply elem_of_singleton.
Qed.

Lemma first_of_key_sublist seen l : first_of_key seen l `sublist_of` l.
Proof.
  revert seen. induction l as [|x l IH]; intros seen; cbn [first_of_key]; [done|].
  destruct (decide _).
  - by apply sublist_cons.
  - by apply sublist_skip.
Qed.

Lemma first_of_key_covers seen l c :
  c ∈ l -> claim_key c ∈ seen
           \/ exists c', c' ∈ first_of_key seen l /\ claim_key c' = claim_key c.
Proof.
  revert seen. induction l as [|x l IH]; intros seen Hc; cbn [first_of_key].
  - by apply elem_of_nil in Hc.
  - apply elem_of_cons in Hc as [->|Hc].
    + destruct (decide (claim_key x ∈ seen)); [by left|].
      right. exists x. split; [left|done].
    + destruct (decide (claim_key x ∈ seen)) as [Hin|Hin].
      * destruct (IH seen Hc) as [?|(c' & ? & ?)]; [by left|]. right. eauto.
      * destruct (IH (seen ∪ {[claim_key x]}) Hc) as [Hs|(c' & ? & ?)].
        -- apply elem_of_union in Hs as [?|Hs]; [by left|].
           apply elem_of_singleton in Hs. right. exists x. split; [left|done].
        -- right. exists c'. split; [by right|done].
Qed.

Lemma first_of_key_first seen l1 c l2 :
  claim_key c ∉ seen ->
  Forall (fun c' => claim_key c' <> claim_key c) l1 ->
  c ∈ first_of_key seen (l1 ++ c :: l2).
Proof.
  revert seen. induction l1 as [|x l1 IH]; intros seen Hs Hall; cbn [app first_of_key].
  - rewrite decide_False by done. left.
  - apply Forall_cons in Hall as [Hx Hall].
    destruct (decide (claim_key x ∈ seen)); [by apply IH|].
    right. apply IH; [|done].
    intros Hin. apply elem_of_union in Hin as [?|Hin]; [done|].
    apply elem_of_singleton in Hin. by apply Hx.
Qed.

Lemma first_of_key_id seen l :
  NoDup (map claim_key l) -> Forall (fun c => claim_key c ∉ seen) l ->
  first_of_key seen l = l.
Proof.
  revert seen. induction l as [|x l IH]; intros seen Hnd Hall; cbn [first_of_key]; [done|].
  apply Forall_cons in Hall as [Hx Hall]. cbn [map] in Hnd.
  apply NoDup_cons in Hnd as [Hnx Hnd].
  rewrite decide_False by done. f_equal. apply IH; [done|].
  rewrite Forall_forall in Hall |- *. intros c Hc.
  specialize (Hall c Hc). intros Hin. apply elem_of_union in Hin as [?|Hin]; [done|].
  apply elem_of_singleton in Hin. apply Hnx. rewrite <- Hin.
  apply list_elem_of_fmap. eauto.
Qed.

(** [_deduplicate_claims] keeps, in their order, the claims that are the
    first with their key (verb, target, tool): no two claims of the result
    have the same key, every key of a claim of the input is the key of a
    claim of the result, a claim that no earlier claim shares its key with
    is kept, and deduplicating again changes nothing. *)
Theorem deduplicate_claims_keeps_first_of_key (l : list Claim) :
  let unique_claims := _deduplicate_claims l in
  NoDup (map claim_key unique_claims) /\
  unique_claims `sublist_of` l /\
  (forall c, c ∈ l -> exists c', c' ∈ unique_claims /\ claim_key c' = claim_key c) /\
  (forall l1 c l2, l = l1 ++ c :: l2 ->
                   Forall (fun c' => claim_key c' <> claim_key c) l1 ->
                   c ∈ unique_claims) /\
  _deduplicate_claims unique_claims = unique_claims.
Proof.
  intros unique_claims. subst unique_claims. rewrite !deduplicate_claims_eq.
  split; [apply first_of_key_NoDup|]. split; [apply first_of_key_sublist|].
  split; [|split].
  - intros c Hc. destruct (first_of_key_covers ∅ l c Hc) as [H|H]; [|done].
    by apply not_elem_of_empty in H.
  - intros l1 c l2 -> Hall. apply first_of_key_first; [|done]. apply not_elem_of_empty.
  - apply first_of_key_id; [apply first_of_key_NoDup|].
    apply Forall_forall. intros c _. apply not_elem_of_empty.
Qed.

(** ** Logs built by [extract_claims] *)

Section Extracted.
Variable _split_into_sentences : string -> list string.
Variable _extract_from_sentence : string -> Z -> list Claim.

Local Abbreviation extract :=
  (extract_claims _split_into_sentences _extract_from_sentence).

Lemma extract_claims_fields response :
  let log := extract response in
  total_claims log = Py.len (claims log) /\
  NoDup (map claim_key (claims log)) /\
  explicit_claims log = filter (fun c => claim_type c = EXPLICIT) (claims log) /\
  implicit_claims log = filter (fun c => claim_type c = IMPLICIT) (claims log) /\
  vague_statements log = filter (fun c => claim_type c = VAGUE) (claims log) /\
  claim_scenario_id log = response_scenario_id response.
Proof.
  intros log. subst log. unfold extract_claims.
  destruct (response_text response) as [[|a text]|];
    cbn [total_claims claims explicit_claims implicit_claims vague_statements
         claim_scenario_id];
    repeat split; try apply NoDup_nil_2.
  rewrite deduplicate_claims_eq. apply first_of_key_NoDup.
Qed.

Lemma partition_by_type (l : list Claim) :
  (length (filter (fun c => claim_type c = EXPLICIT) l)
   + length (filter (fun c => claim_type c = IMPLICIT) l)
   + length (filter (fun c => claim_type c = VAGUE) l)
   + length (filter (fun c => claim_type c = CONDITIONAL) l))%nat
  = length l.
Proof.
  induction l as [|c l IH]; [done|].
  rewrite !filter_cons.
  destruct (claim_type c);
    repeat match goal with
           | |- context [decide (?a = ?b :> ClaimType)] =>
               destruct (decide (a = b :> ClaimType)); try congruence
           end;
    simpl length; lia.
Qed.

(** A log built by [extract_claims] is empty, with the scenario of the
    response, when the response has no text or an empty one. Otherwise no
    two of its claims have the same key, [total_claims] is their number, and
    [explicit_claims], [implicit_claims] and [vague_statements] hold the
    claims of these types, in order. The CONDITIONAL claims are in none of
    the three lists, so the three lists fall short of [total_claims] by the
    number of CONDITIONAL claims. *)
Theorem extract_claims_partitions response :
  let log := extract response in
  (response_text response = None \/ response_text response = Some "" ->
   claims log = [] /\ total_claims log = 0) /\
  claim_scenario_id log = response_scenario_id response /\
  total_claims log = Py.len (claims log) /\
  NoDup (map claim_key (claims log)) /\
  explicit_claims log = filter (fun c => claim_type c = EXPLICIT) (claims log) /\
  implicit_claims log = filter (fun c => claim_type c = IMPLICIT) (claims log) /\
  vague_statements log = filter (fun c => claim_type c = VAGUE) (claims log) /\
  (forall c, claim_type c = CONDITIONAL ->
             (c ∉ explicit_claims log) /\ (c ∉ implicit_claims log)
             /\ (c ∉ vague_statements log)) /\
  Py.len (explicit_claims log) + Py.len (implicit_claims log)
  + Py.len (vague_statements log)
  = total_claims log
    - Py.len (filter (fun c => claim_type c = CONDITIONAL) (claims log)).
Proof.
  intros log.
  destruct (extract_claims_fields response) as (Ht & Hnd & He & Hi & Hv & Hs).
  fold log in Ht, Hnd, He, Hi, Hv, Hs.
  split.
  { subst log. unfold extract_claims. by intros [->| ->]. }
  repeat split; try done.
  - rewrite He. intros Hin. apply list_elem_of_filter in Hin as [? _]. congruence.
  - rewrite Hi. intros Hin. apply list_elem_of_filter in Hin as [? _]. congruence.
  - rewrite Hv. intros Hin. apply list_elem_of_filter in Hin as [? _]. congruence.
  - rewrite Ht, He, Hi, Hv. unfold Py.len.
    pose proof (partition_by_type (claims log)). lia.
Qed.

(** On a log built by [extract_claims], [_detect_hallucinations] reports
    exactly the EXPLICIT claims of the log whose inferred tool (neither null
    nor empty) no action bears, one issue each, in order: a claim of another
    type is never reported. *)
Theorem hallucinations_of_extracted_claims response action_log :
  let log := extract response in
  let issues := ValidationEngine._detect_hallucinations log action_log in
  issues
  = map ValidationEngine.hallucination_issue
      (filter (fun c => claim_type c = EXPLICIT /\ hallucinated action_log c) (claims log)) /\
  (forall i, i ∈ issues ->
             exists c, c ∈ claims log /\ claim_type c = EXPLICIT
                       /\ i = ValidationEngine.hallucination_issue c).
Proof.
  intros log issues. subst issues.
  destruct (extract_claims_fields response) as (_ & _ & He & _).
  fold log in He.
  rewrite ValidationFacts.detect_hallucinations_spec, He,
    ValidationFacts.filter_filter_and.
  split; [done|].
  intros i Hi. apply list_elem_of_fmap in Hi as (c & -> & Hc).
  apply list_elem_of_filter in Hc as [[Hty _] Hc]. eauto.
Qed.

End Extracted.

(** ** The two selections *)

(** The claimed tools of the silent-action detection are the non-empty
    names for which [get_claims_by_tool] finds a claim: an action is
    reported as silent exactly when its name is empty or
    [get_claims_by_tool] finds no claim for it. *)
Theorem silent_actions_lack_claims_by_tool action_log claim_log :
  (forall t : string,
     t ∈ ValidationEngine.claimed_tools claim_log
     <-> t <> "" /\ get_claims_by_tool claim_log t <> []) /\
  ValidationEngine._detect_silent_actions action_log claim_log
  = map ValidationEngine.silent_action_issue
      (filter (fun a => function_name a = ""
                        \/ get_claims_by_tool claim_log (function_name a) = [])
         (actions action_log)).
Proof.
  assert (forall t : string,
            t ∈ ValidationEngine.claimed_tools claim_log
            <-> t <> "" /\ get_claims_by_tool claim_log t <> []) as Hclaimed.
  { intros t. rewrite ValidationFacts.claimed_tools_spec. unfold get_claims_by_tool.
    split; intros [Hne H]; (split; [done|]).
    - destruct H as (c & Hc & Ht). intros Hnil.
      eapply (filter_nil_not_elem_of _ _ c); [exact Hnil|done|done].
    - destruct (filter _ _) as [|c l] eqn:E; [done|].
      assert (c ∈ filter (fun c => inferred_tool c = Some t) (claims claim_log)) as Hc
          by (rewrite E; left).
      apply list_elem_of_filter in Hc as [? ?]. eauto. }
  split; [exact Hclaimed|].
  rewrite ValidationFacts.detect_silent_actions_spec. f_equal.
  induction (actions action_log) as [|a l IH]; [done|].
  rewrite !filter_cons, IH.
  destruct (decide (function_name a ∉ ValidationEngine.claimed_tools claim_log)) as [Hn|Hn],
    (decide (function_name a = ""
             \/ get_claims_by_tool claim_log (function_name a) = [])) as [Hg|Hg];
    try done; exfalso.
  - apply Hn, Hclaimed. split.
    + intros ?. apply Hg. by left.
    + intros ?. apply Hg. by right.
  - apply Hn. intros Hin. apply Hclaimed in Hin as [? ?]. destruct Hg; done.
Qed.

(** Raising the threshold of [get_high_confidence_claims] never adds a
    claim: the selection for a threshold that is at least another one, as
    floats compare, is a sublist of the selection for the other. *)
Theorem high_confidence_is_antitone claim_log (t1 t2 : spec_float) :
  PyFloat.leb t1 t2 = true ->
  get_high_confidence_claims claim_log t2
  `sublist_of` get_high_confidence_claims claim_log t1.
Proof.
  intros Hle. unfold get_high_confidence_claims.
  induction (claims claim_log) as [|c l IH]; [done|].
  rewrite !filter_cons.
  destruct (decide (PyFloat.leb t2 (confidence c) = true)) as [H2|H2],
    (decide (PyFloat.leb t1 (confidence c) = true)) as [H1|H1].
  - by apply sublist_skip.
  - exfalso. apply H1. by apply (ScorerFacts.leb_trans t1 t2).
  - by apply sublist_cons.
  - done.
Qed.

(** [high_confidence_is_antitone] at a sample: the thresholds 0.5 and
    0.75. *)
Lemma high_confidence_sample :
  get_high_confidence_claims Samples.five_calls_claims (hundredths 75)
  `sublist_of` get_high_confidence_claims Samples.five_calls_claims (hundredths 50).
Proof. apply high_confidence_is_antitone. reflexivity. Defined.

End ExtractorFacts.

(** * Properties of the scenario validator *)

Module ScenarioFacts.
Import ScenarioValidator.

Lemma append_if_nil {X} (c : bool) (l : list X) (e : X) :
  (if c then l ++ [e] else l) = [] <-> l = [] /\ c = false.
Proof.
  destruct c; split; try done.
  - intros H. by apply app_eq_nil in H as [_ ?].
  - by intros [? ?].
  - by intros [? _].
Qed.

Lemma append_loop_nil {X Y} (f : list Y -> X -> list Y) (P : X -> bool) (h : X -> Y)
    (l : list X) (acc : list Y) :
  (forall errors x, f errors x = if P x then errors ++ [h x] else errors) ->
  fold_left f l acc = [] <-> acc = [] /\ forall x, x ∈ l -> P x = false.
Proof.
  intros Hf. revert acc. induction l as [|x l IH]; intros acc; cbn [fold_left].
  - split; [|by intros [? _]]. intros ->. split; [done|].
    intros x Hx. by apply elem_of_nil in Hx.
  - rewrite IH, Hf, append_if_nil. split.
    + intros [[-> Hx] Hl]. split; [done|]. intros y Hy.
      apply elem_of_cons in Hy as [->|Hy]; auto.
    + intros [-> Hall]. split; [split; [done|]|].
      * apply Hall. left.
      * intros y Hy. apply Hall. by right.
Qed.

Lemma append_bound_nil {X} (o : option Z) (c : Z -> bool) (l : list X) (e : X) :
  match o with
  | Some m => if c m then l ++ [e] else l
  | None => l
  end = [] <-> l = [] /\ forall m, o = Some m -> c m = false.
Proof.
  destruct o as [m|].
  - rewrite append_if_nil. split; intros [-> H]; (split; [done|]).
    + by intros ? [= <-].
    + by apply H.
  - split; [|by intros [? _]]. intros ->. by split.
Qed.

Lemma append_bounds_nil {X} (o1 o2 : option Z) (c : Z -> Z -> bool) (l : list X) (e : X) :
  match o1, o2 with
  | Some lo, Some hi => if c lo hi then l ++ [e] else l
  | _, _ => l
  end = [] <-> l = [] /\ forall lo hi, o1 = Some lo -> o2 = Some hi -> c lo hi = false.
Proof.
  destruct o1 as [lo|], o2 as [hi|];
    try (split; [intros ->; by split|by intros [? _]]).
  rewrite append_if_nil. split; intros [-> H]; (split; [done|]).
  - by intros ?? [= <-] [= <-].
  - by apply H.
Qed.

Lemma append_unless_tools_nil {X} (l1 l2 : list string) (l : list X) (e : X) :
  match l1, l2 with
  | [], [] => l ++ [e]
  | _, _ => l
  end = [] <-> l = [] /\ (l1 <> [] \/ l2 <> []).
Proof.
  destruct l1, l2; split; try (intros ->; split; [done|]; by auto);
    try by intros [? _].
  - intros H. by apply app_eq_nil in H as [_ ?].
  - intros [_ [?|?]]; done.
Qed.

Lemma append_sequence_nil {Y} (f : list Y -> string -> list Y) (P : string -> bool)
    (h : string -> Y) (b : bool) (sequence : list string) (l : list Y) (e : Y) :
  (forall errors x, f errors x = if P x then errors ++ [h x] else errors) ->
  (if b then
     match sequence with
     | [] => l ++ [e]
     | x :: sequence' => fold_left f (x :: sequence') l
     end
   else l) = []
  <-> l = [] /\ (b = true -> sequence <> [] /\ forall x, x ∈ sequence -> P x = false).
Proof.
  intros Hf. destruct b.
  - destruct sequence as [|x sequence'].
    + split.
      * intros H. by apply app_eq_nil in H as [_ ?].
      * intros [_ H]. by destruct (H eq_refl).
    + rewrite (append_loop_nil f P h _ _ Hf). split.
      * intros [-> H]. by repeat split.
      * intros [-> H]. split; [done|]. by apply H.
  - split; [|by intros [? _]]. intros ->. by split.
Qed.

Lemma undeclared_false (behavior : ExpectedBehavior) (tool : string) :
  undeclared behavior tool = false
  <-> tool ∈ required_tools behavior \/ tool ∈ optional_tools behavior.
Proof.
  unfold undeclared. rewrite andb_false_iff, !bool_decide_eq_false.
  destruct (decide (tool ∈ required_tools behavior)),
    (decide (tool ∈ optional_tools behavior)); tauto.
Qed.

Lemma overlap_empty (l1 l2 : list string) :
  bool_decide ((list_to_set l1 ∩ list_to_set l2 : gset string) <> ∅) = false
  <-> forall t, t ∈ l2 -> t ∉ l1.
Proof.
  rewrite bool_decide_eq_false. split.
  - intros Hn t H2 H1. apply Hn. intros He.
    apply (not_elem_of_empty (C := gset string) t). rewrite <- He.
    apply elem_of_intersection. by rewrite !elem_of_list_to_set.
  - intros Hall Hne. apply Hne. apply set_eq. intros t.
    rewrite elem_of_intersection, !elem_of_list_to_set. split.
    + intros [H1 H2]. by destruct (Hall t H2).
    + intros H. by apply not_elem_of_empty in H.
Qed.

Section Text.
Variable strip : string -> string.
Variable str_len : string -> Z.
Variable set_text : gset string -> string.

Lemma validate_expected_behavior_nil scenario :
  let behavior := expected_behavior scenario in
  _validate_expected_behavior set_text scenario = [] <->
  (required_tools behavior <> [] \/ optional_tools behavior <> []) /\
  (forall t, t ∈ forbidden_tools behavior ->
             (t ∉ required_tools behavior) /\ (t ∉ optional_tools behavior)) /\
  (sequence_matters behavior = true ->
   expected_sequence behavior <> []
   /\ forall t, t ∈ expected_sequence behavior ->
                t ∈ required_tools behavior \/ t ∈ optional_tools behavior) /\
  (forall m, min_tool_calls behavior = Some m -> 0 <= m) /\
  (forall m, max_tool_calls behavior = Some m -> 0 <= m) /\
  (forall lo hi, min_tool_calls behavior = Some lo -> max_tool_calls behavior = Some hi ->
                 lo <= hi) /\
  (forall tool_name params,
     (tool_name, params) ∈ required_parameters behavior ->
     tool_name ∈ required_tools behavior \/ tool_name ∈ optional_tools behavior).
Proof.
  intros behavior. unfold _validate_expected_behavior. fold behavior.
  cbv zeta.
  rewrite (append_loop_nil _ (fun item => undeclared behavior item.1)
             (fun item => {| field := "expected_behavior.required_parameters";
                             message := "Tool '" +:+ item.1
                                        +:+ "' has required parameters but is not in required or optional tools" |}))
    by (by intros errors [? ?]).
  rewrite append_bounds_nil, !append_bound_nil.
  rewrite (append_sequence_nil _ (undeclared behavior)
             (fun tool => {| field := "expected_behavior.expected_sequence";
                             message := "Tool '" +:+ tool
                                        +:+ "' in sequence but not in required or optional tools" |}))
    by done.
  rewrite !append_if_nil, append_unless_tools_nil, !overlap_empty.
  setoid_rewrite undeclared_false.
  setoid_rewrite Z.ltb_ge. setoid_rewrite Z.gtb_ltb. setoid_rewrite Z.ltb_ge.
  split.
  - intros ((((((((_ & Ht) & Ho1) & Ho2) & Hs) & Hlo) & Hhi) & Hb) & Hp).
    repeat apply conj; try assumption.
    + intros t Hf. split; [by apply Ho1|by apply Ho2].
    + intros tool_name params Hin. apply (Hp (tool_name, params) Hin).
  - intros (Ht & Ho & Hs & Hlo & Hhi & Hb & Hp).
    repeat apply conj; try assumption; try reflexivity.
    + intros t Hf. by apply Ho.
    + intros t Hf. by apply Ho.
    + intros [tool_name params] Hin. by apply (Hp tool_name params).
Qed.

Lemma validate_prompt_nil scenario :
  _validate_prompt strip str_len scenario = [] <->
  strip (user_query (prompt scenario)) <> ""
  /\ 10 <= str_len (user_query (prompt scenario)).
Proof.
  unfold _validate_prompt. cbv zeta.
  rewrite !append_if_nil, bool_decide_eq_false, Z.ltb_ge. tauto.
Qed.

Lemma validate_consistency_nil scenario :
  _validate_consistency scenario = [] <->
  (difficulty scenario = EASY -> expected_time scenario <= 30)
  /\ (difficulty scenario = HARD -> 10 <= expected_time scenario).
Proof.
  unfold _validate_consistency. cbv zeta.
  rewrite !append_if_nil, !andb_false_iff, !bool_decide_eq_false.
  rewrite Z.gtb_ltb, !Z.ltb_ge.
  destruct (difficulty scenario); cbn [difficulty_value];
    intuition (try done; try lia).
Qed.

(** [is_valid] holds exactly for the scenarios with: a query that is not
    blank and has 10 characters or more; a required or an optional tool; no
    forbidden tool among the required and the optional ones; when the
    sequence matters, an expected sequence that is not empty and names only
    required or optional tools; bounds on the calls that are not negative,
    the minimum not above the maximum; expected parameters only for required
    or optional tools; at most 30 seconds for an easy scenario and at least
    10 for a hard one. *)
Theorem is_valid_iff scenario :
  let behavior := expected_behavior scenario in
  is_valid strip str_len set_text scenario = true <->
  (strip (user_query (prompt scenario)) <> ""
   /\ 10 <= str_len (user_query (prompt scenario))) /\
  ((required_tools behavior <> [] \/ optional_tools behavior <> []) /\
   (forall t, t ∈ forbidden_tools behavior ->
              (t ∉ required_tools behavior) /\ (t ∉ optional_tools behavior)) /\
   (sequence_matters behavior = true ->
    expected_sequence behavior <> []
    /\ forall t, t ∈ expected_sequence behavior ->
                 t ∈ required_tools behavior \/ t ∈ optional_tools behavior) /\
   (forall m, min_tool_calls behavior = Some m -> 0 <= m) /\
   (forall m, max_tool_calls behavior = Some m -> 0 <= m) /\
   (forall lo hi, min_tool_calls behavior = Some lo -> max_tool_calls behavior = Some hi ->
                  lo <= hi) /\
   (forall tool_name params,
      (tool_name, params) ∈ required_parameters behavior ->
      tool_name ∈ required_tools behavior \/ tool_name ∈ optional_tools behavior)) /\
  ((difficulty scenario = EASY -> expected_time scenario <= 30)
   /\ (difficulty scenario = HARD -> 10 <= expected_time scenario)).
Proof.
  intros behavior. subst behavior.
  rewrite <- validate_prompt_nil, <- (validate_expected_behavior_nil scenario),
    <- validate_consistency_nil.
  unfold is_valid, validate, Py.len. cbv zeta. rewrite Z.eqb_eq. cbn [app].
  split.
  - intros Hlen.
    assert (_validate_prompt strip str_len scenario
            ++ _validate_expected_behavior set_text scenario
            ++ _validate_consistency scenario = []) as Hnil.
    { rewrite app_assoc. destruct (_ ++ _); [done|]. simpl length in Hlen. lia. }
    apply app_eq_nil in Hnil as [? Hnil]. apply app_eq_nil in Hnil as [? ?]. done.
  - intros (-> & -> & ->). done.
Qed.

(** A scenario that [is_valid] accepts can be passed: some action log
    and claim log get a PASS report from the validation engine. *)
Theorem valid_scenario_can_pass scenario :
  is_valid strip str_len set_text scenario = true ->
  exists now action_log claim_log,
    pass_fail_status (ValidationEngine.validate now scenario action_log claim_log) = PASS.
Proof.
  intros Hvalid.
  assert (_validate_expected_behavior set_text scenario = []) as Hb.
  { unfold is_valid, validate, Py.len in Hvalid. cbv zeta in Hvalid.
    apply Z.eqb_eq in Hvalid. cbn [app] in Hvalid.
    destruct (_validate_prompt strip str_len scenario); [|simpl length in Hvalid; lia].
    cbn [app] in Hvalid.
    destruct (_validate_expected_behavior set_text scenario); [done|].
    simpl length in Hvalid. lia. }
  apply validate_expected_behavior_nil in Hb as (_ & Hforbidden & _).
  apply EngineFacts.disjoint_scenario_passes.
  intros t Hr Hf. by destruct (Hforbidden t Hf).
Qed.

End Text.

(** [valid_scenario_can_pass] at a sample, with texts of plain characters:
    nothing to strip, and as many characters as bytes. *)
Lemma valid_scenario_sample :
  exists now action_log claim_log,
    pass_fail_status
      (ValidationEngine.validate now Notions.read_scenario action_log claim_log)
    = PASS.
Proof.
  apply (valid_scenario_can_pass (fun s => s) (fun s => Z.of_nat (String.length s))
           (fun _ => "")).
  vm_compute. reflexivity.
Defined.

End ScenarioFacts.
